(** * Governors for device PM domains

    A shallow embedding of [drivers/base/power/domain_governor.c]: the device
    suspend evaluator [default_suspend_ok], the domain power-down evaluator
    [default_power_down_ok] with its per-state check
    [__default_power_down_ok], and the two governor objects.

    Devices and domains live in two stores addressed by handles ([nat]); a C
    pointer is a handle, a dereference is a lookup, and a write through a
    pointer is an insert.  A lookup that fails stands for a dereference of an
    invalid pointer: the evaluator then has no result ([None]). *)

From Stdlib Require Import ZArith Lia Bool.
From stdpp Require Import base option list gmap.

Local Open Scope Z_scope.

(** ** Machine integers *)

(** [s64] values are integers in [[-2^63, 2^63)]; the kernel is built with
    wrapping signed arithmetic, which is written out here. *)
Definition S64_MIN : Z := - 2 ^ 63.
Definition S64_MAX : Z := 2 ^ 63 - 1.
Definition S32_MIN : Z := - 2 ^ 31.
Definition S32_MAX : Z := 2 ^ 31 - 1.
Definition UINT_MAX : Z := 2 ^ 32 - 1.

Definition s64_wrap (z : Z) : Z := (z + 2 ^ 63) mod 2 ^ 64 - 2 ^ 63.
Definition s64_add (a b : Z) : Z := s64_wrap (a + b).
Definition s64_sub (a b : Z) : Z := s64_wrap (a - b).
Definition s64_mul (a b : Z) : Z := s64_wrap (a * b).

Definition s64_range (z : Z) : Prop := S64_MIN <= z <= S64_MAX.
Definition s32_range (z : Z) : Prop := S32_MIN <= z <= S32_MAX.

(** [genpd->state_count - 1] on [unsigned int]: zero wraps to [UINT_MAX]. *)
Definition uint_pred (n : nat) : nat :=
  match n with
  | O => Z.to_nat UINT_MAX
  | S k => k
  end.

(** The conversions between [unsigned int] and [bool] that C inserts at an
    assignment: every non-zero value becomes [true], and [true] reads back
    as 1. *)
Definition bool_of_uint (n : nat) : bool := negb (n =? 0)%nat.
Definition uint_of_bool (b : bool) : nat := if b then 1%nat else 0%nat.

(** Modelled from the spec: [NSEC_PER_USEC] is defined in a kernel header,
    not in the governor's file; the spec normalises microseconds by
    multiplying by 1000. *)
Definition NSEC_PER_USEC : Z := 1000.

(** ** Data model *)

(** [struct gpd_timing_data]. *)
Record gpd_timing_data := GpdTimingData {
  suspend_latency_ns : Z;
  resume_latency_ns : Z;
  effective_constraint_ns : Z;
  constraint_changed : bool;
  cached_suspend_ok : bool
}.

(** The part of [struct device] the governor looks at.  [domain_data] is
    [dev->power.subsys_data->domain_data] with its timing data: [None] when
    the device belongs to no domain.  [children] are the device-tree
    children walked by [device_for_each_child]. *)
Record device := Device {
  resume_latency_qos : Z;
  ignore_children : bool;
  children : list nat;
  domain_data : option gpd_timing_data
}.

(** [struct genpd_power_state]. *)
Record genpd_power_state := GenpdPowerState {
  power_off_latency_ns : Z;
  power_on_latency_ns : Z
}.

(** [struct generic_pm_domain].  A [gpd_link] joins a parent and a child
    domain: [parent_links] holds the links in which this domain is the
    parent (each entry is [link->child]), [child_links] the links in which
    it is the child (each entry is [link->parent]).  [dev_list] names the
    member devices.  [state_count] and [state_idx] are [unsigned int];
    [include/linux/pm_domain.h] declares [cached_power_down_state_idx], like
    the two flags, as [bool]. *)
Record generic_pm_domain := GenericPmDomain {
  parent_links : list nat;
  child_links : list nat;
  dev_list : list nat;
  states : list genpd_power_state;
  state_count : nat;
  state_idx : nat;
  max_off_time_changed : bool;
  max_off_time_ns : Z;
  cached_power_down_ok : bool;
  cached_power_down_state_idx : bool
}.

Abbreviation dev_store := (gmap nat device).
Abbreviation genpd_store := (gmap nat generic_pm_domain).

(** *** Field updates *)

Definition set_td (d : device) (td : gpd_timing_data) : device :=
  {| resume_latency_qos := resume_latency_qos d;
     ignore_children := ignore_children d;
     children := children d;
     domain_data := Some td |}.

Definition td_reset (td : gpd_timing_data) : gpd_timing_data :=
  {| suspend_latency_ns := suspend_latency_ns td;
     resume_latency_ns := resume_latency_ns td;
     effective_constraint_ns := 0;
     constraint_changed := false;
     cached_suspend_ok := false |}.

Definition td_grant (td : gpd_timing_data) (budget : Z) : gpd_timing_data :=
  {| suspend_latency_ns := suspend_latency_ns td;
     resume_latency_ns := resume_latency_ns td;
     effective_constraint_ns := budget;
     constraint_changed := constraint_changed td;
     cached_suspend_ok := true |}.

Definition set_max_off_time_changed (g : generic_pm_domain) (b : bool)
  : generic_pm_domain :=
  {| parent_links := parent_links g; child_links := child_links g;
     dev_list := dev_list g; states := states g;
     state_count := state_count g; state_idx := state_idx g;
     max_off_time_changed := b;
     max_off_time_ns := max_off_time_ns g;
     cached_power_down_ok := cached_power_down_ok g;
     cached_power_down_state_idx := cached_power_down_state_idx g |}.

Definition set_max_off_time_ns (g : generic_pm_domain) (t : Z)
  : generic_pm_domain :=
  {| parent_links := parent_links g; child_links := child_links g;
     dev_list := dev_list g; states := states g;
     state_count := state_count g; state_idx := state_idx g;
     max_off_time_changed := max_off_time_changed g;
     max_off_time_ns := t;
     cached_power_down_ok := cached_power_down_ok g;
     cached_power_down_state_idx := cached_power_down_state_idx g |}.

Definition set_cached_power_down_ok (g : generic_pm_domain) (b : bool)
  : generic_pm_domain :=
  {| parent_links := parent_links g; child_links := child_links g;
     dev_list := dev_list g; states := states g;
     state_count := state_count g; state_idx := state_idx g;
     max_off_time_changed := max_off_time_changed g;
     max_off_time_ns := max_off_time_ns g;
     cached_power_down_ok := b;
     cached_power_down_state_idx := cached_power_down_state_idx g |}.

Definition set_state_idx (g : generic_pm_domain) (i : nat)
  : generic_pm_domain :=
  {| parent_links := parent_links g; child_links := child_links g;
     dev_list := dev_list g; states := states g;
     state_count := state_count g; state_idx := i;
     max_off_time_changed := max_off_time_changed g;
     max_off_time_ns := max_off_time_ns g;
     cached_power_down_ok := cached_power_down_ok g;
     cached_power_down_state_idx := cached_power_down_state_idx g |}.

Definition set_cached_power_down_state_idx (g : generic_pm_domain) (b : bool)
  : generic_pm_domain :=
  {| parent_links := parent_links g; child_links := child_links g;
     dev_list := dev_list g; states := states g;
     state_count := state_count g; state_idx := state_idx g;
     max_off_time_changed := max_off_time_changed g;
     max_off_time_ns := max_off_time_ns g;
     cached_power_down_ok := cached_power_down_ok g;
     cached_power_down_state_idx := b |}.

(** ** QoS readers *)

(** Modelled from the spec: [dev_pm_qos_read_value(dev,
    DEV_PM_QOS_RESUME_LATENCY)] and [__dev_pm_qos_resume_latency(dev)] belong
    to the PM QoS code, not to the governor's file; per the spec each is the
    per-device reader of the resume-latency constraint, a microsecond value
    (an [s32]) or the no-constraint sentinel. *)
Definition dev_pm_qos_read_value (d : device) : Z := resume_latency_qos d.
Definition __dev_pm_qos_resume_latency (d : device) : Z := resume_latency_qos d.

(** ** Device suspend evaluator *)

(** [dev_update_qos_constraint(dev, data)]: the result is the new value of
    [*constraint_ns_p]; the C function always returns 0, so the walk never
    stops early. *)
Definition dev_update_qos_constraint (devs : dev_store) (dev : nat)
    (constraint_ns_p : Z) : option Z :=
  d ← devs !! dev;
  let constraint_ns :=
    match domain_data d with
    | Some td => effective_constraint_ns td
    | None => s64_mul (dev_pm_qos_read_value d) NSEC_PER_USEC
    end in
  if constraint_ns <? constraint_ns_p
  then Some constraint_ns
  else Some constraint_ns_p.

(** [device_for_each_child(dev, data, fn)] for a callback that returns 0. *)
Fixpoint device_for_each_child (devs : dev_store) (kids : list nat) (data : Z)
    (fn : dev_store → nat → Z → option Z) : option Z :=
  match kids with
  | [] => Some data
  | child :: rest =>
      data' ← fn devs child data;
      device_for_each_child devs rest data' fn
  end.

Section governor.

(** The sentinel [PM_QOS_RESUME_LATENCY_NO_CONSTRAINT_NS] is defined in the
    PM QoS header, not in the governor's file, and the spec only calls it a
    reserved value: the model takes it as a parameter. *)
Variable PM_QOS_RESUME_LATENCY_NO_CONSTRAINT_NS : Z.

(** [default_suspend_ok(dev)]: the return value and the store afterwards. *)
Definition default_suspend_ok (devs : dev_store) (dev : nat)
    : option (bool * dev_store) :=
  d ← devs !! dev;
  td ← domain_data d;
  if negb (constraint_changed td) then Some (cached_suspend_ok td, devs)
  else
    let td := td_reset td in
    let d := set_td d td in
    let devs := <[dev := d]> devs in
    let constraint_ns := __dev_pm_qos_resume_latency d in
    if constraint_ns =? 0 then Some (false, devs)
    else
      let constraint_ns := s64_mul constraint_ns NSEC_PER_USEC in
      constraint_ns ←
        (if negb (ignore_children d)
         then device_for_each_child devs (children d) constraint_ns
                dev_update_qos_constraint
         else Some constraint_ns);
      if constraint_ns =? PM_QOS_RESUME_LATENCY_NO_CONSTRAINT_NS then
        Some (true,
              <[dev := set_td d
                  (td_grant td PM_QOS_RESUME_LATENCY_NO_CONSTRAINT_NS)]> devs)
      else if constraint_ns =? 0 then Some (false, devs)
      else
        let constraint_ns :=
          s64_sub constraint_ns
            (s64_add (suspend_latency_ns td) (resume_latency_ns td)) in
        if constraint_ns <=? 0 then Some (false, devs)
        else Some (true, <[dev := set_td d (td_grant td constraint_ns)]> devs).

(** ** Domain power-down evaluator *)

(** First loop of [__default_power_down_ok], over [genpd->parent_links].
    The outer [option] is the pointer validity of the walk; the inner one is
    [None] when the loop leaves the function with [return false] and
    [Some min_off_time_ns] when it runs to its end. *)
Fixpoint check_subdomains (doms : genpd_store) (off_on_time_ns : Z)
    (links : list nat) (min_off_time_ns : Z) : option (option Z) :=
  match links with
  | [] => Some (Some min_off_time_ns)
  | child :: rest =>
      sd ← doms !! child;
      let sd_max_off_ns := max_off_time_ns sd in
      if sd_max_off_ns <? 0 then
        check_subdomains doms off_on_time_ns rest min_off_time_ns
      else if sd_max_off_ns <=? off_on_time_ns then Some None
      else if (min_off_time_ns >? sd_max_off_ns) || (min_off_time_ns <? 0)
      then check_subdomains doms off_on_time_ns rest sd_max_off_ns
      else check_subdomains doms off_on_time_ns rest min_off_time_ns
  end.

(** Second loop of [__default_power_down_ok], over [genpd->dev_list].  Every
    entry of the list is the domain data of a device, so an entry without
    timing data is an invalid pointer. *)
Fixpoint check_devices (devs : dev_store) (off_on_time_ns : Z)
    (pdds : list nat) (min_off_time_ns : Z) : option (option Z) :=
  match pdds with
  | [] => Some (Some min_off_time_ns)
  | pdd :: rest =>
      d ← devs !! pdd;
      td ← domain_data d;
      let constraint_ns := effective_constraint_ns td in
      if constraint_ns =? PM_QOS_RESUME_LATENCY_NO_CONSTRAINT_NS then
        check_devices devs off_on_time_ns rest min_off_time_ns
      else if constraint_ns <=? off_on_time_ns then Some None
      else if (min_off_time_ns >? constraint_ns) || (min_off_time_ns <? 0)
      then check_devices devs off_on_time_ns rest constraint_ns
      else check_devices devs off_on_time_ns rest min_off_time_ns
  end.

(** [__default_power_down_ok(pd, state)]. *)
Definition __default_power_down_ok (devs : dev_store) (doms : genpd_store)
    (pd : nat) (state : nat) : option (bool * genpd_store) :=
  genpd ← doms !! pd;
  st ← states genpd !! state;
  let off_on_time_ns :=
    s64_add (power_off_latency_ns st) (power_on_latency_ns st) in
  let min_off_time_ns := -1 in
  r ← check_subdomains doms off_on_time_ns (parent_links genpd)
        min_off_time_ns;
  match r with
  | None => Some (false, doms)
  | Some min_off_time_ns =>
      r ← check_devices devs off_on_time_ns (dev_list genpd) min_off_time_ns;
      match r with
      | None => Some (false, doms)
      | Some min_off_time_ns =>
          if min_off_time_ns <? 0 then Some (true, doms)
          else
            Some (true,
                  <[pd := set_max_off_time_ns genpd
                            (s64_sub min_off_time_ns
                               (power_on_latency_ns st))]> doms)
      end
  end.

(** The loop of [default_power_down_ok] over [genpd->child_links]:
    [link->parent->max_off_time_changed = true]. *)
Fixpoint invalidate_parents (doms : genpd_store) (links : list nat)
    : option genpd_store :=
  match links with
  | [] => Some doms
  | parent :: rest =>
      p ← doms !! parent;
      invalidate_parents (<[parent := set_max_off_time_changed p true]> doms)
        rest
  end.

(** The [while] loop of [default_power_down_ok].  [idx] is the value of
    [genpd->state_idx] on entry; it decreases with every iteration. *)
Fixpoint find_power_down_state (devs : dev_store) (doms : genpd_store)
    (pd : nat) (idx : nat) : option genpd_store :=
  '(ok, doms) ← __default_power_down_ok devs doms pd idx;
  if ok : bool then Some doms
  else
    genpd ← doms !! pd;
    match idx with
    | O => Some (<[pd := set_cached_power_down_ok genpd false]> doms)
    | S idx' =>
        find_power_down_state devs (<[pd := set_state_idx genpd idx']> doms)
          pd idx'
    end.

(** [default_power_down_ok(pd)]: the return value and the domain store
    afterwards.  The chosen state is left in [state_idx].  The assignments
    from and to [cached_power_down_state_idx] convert between [bool] and
    [unsigned int]. *)
Definition default_power_down_ok (devs : dev_store) (doms : genpd_store)
    (pd : nat) : option (bool * genpd_store) :=
  genpd ← doms !! pd;
  if negb (max_off_time_changed genpd) then
    Some (cached_power_down_ok genpd,
          <[pd := set_state_idx genpd
                    (uint_of_bool (cached_power_down_state_idx genpd))]>
            doms)
  else
    doms ← invalidate_parents doms (child_links genpd);
    genpd ← doms !! pd;
    let genpd := set_max_off_time_ns genpd (-1) in
    let genpd := set_max_off_time_changed genpd false in
    let genpd := set_cached_power_down_ok genpd true in
    let genpd := set_state_idx genpd (uint_pred (state_count genpd)) in
    let doms := <[pd := genpd]> doms in
    doms ← find_power_down_state devs doms pd (state_idx genpd);
    genpd ← doms !! pd;
    Some (cached_power_down_ok genpd,
          <[pd := set_cached_power_down_state_idx genpd
                    (bool_of_uint (state_idx genpd))]>
            doms).

(** [always_on_power_down_ok(domain)]. *)
Definition always_on_power_down_ok (devs : dev_store) (doms : genpd_store)
    (domain : nat) : option (bool * genpd_store) :=
  Some (false, doms).

(** ** Governor objects *)

(** [struct dev_power_governor]. *)
Record dev_power_governor := DevPowerGovernor {
  suspend_ok : dev_store → nat → option (bool * dev_store);
  power_down_ok : dev_store → genpd_store → nat → option (bool * genpd_store)
}.

Definition simple_qos_governor : dev_power_governor :=
  {| suspend_ok := default_suspend_ok;
     power_down_ok := default_power_down_ok |}.

Definition pm_domain_always_on_gov : dev_power_governor :=
  {| power_down_ok := always_on_power_down_ok;
     suspend_ok := default_suspend_ok |}.

(** The spec's view of the power-down evaluator: [Some idx] is the chosen
    state, [None] is "stay powered". *)
Definition power_down_state (gov : dev_power_governor) (devs : dev_store)
    (doms : genpd_store) (pd : nat) : option (option nat * genpd_store) :=
  '(ok, doms) ← power_down_ok gov devs doms pd;
  if ok : bool then
    genpd ← doms !! pd;
    Some (Some (state_idx genpd), doms)
  else Some (None, doms).

End governor.

(** ** Notions used to state the properties *)

(** The value [dev_update_qos_constraint] computes for one child before
    comparing: the timing data's [effective_constraint_ns] for a child in a
    domain, the child's own constraint in nanoseconds otherwise. *)
Definition child_constraint_ns (d : device) : Z :=
  match domain_data d with
  | Some td => effective_constraint_ns td
  | None => s64_mul (dev_pm_qos_read_value d) NSEC_PER_USEC
  end.

(** The value of [constraint_ns] in [default_suspend_ok] once the device's
    own non-zero reading has been normalised and the children, unless
    ignored, have been walked over the store [devs]. *)
Definition folded_constraint_ns (devs : dev_store) (d : device) : option Z :=
  let constraint_ns := s64_mul (__dev_pm_qos_resume_latency d) NSEC_PER_USEC in
  if negb (ignore_children d)
  then device_for_each_child devs (children d) constraint_ns
         dev_update_qos_constraint
  else Some constraint_ns.

(** What a device-tree child contributes, in the words of the spec: the
    effective budget of a child that belongs to a domain, the resume-latency
    constraint times 1000 of a child that does not. *)
Definition spec_child_contribution (d : device) : Z :=
  match domain_data d with
  | Some td => effective_constraint_ns td
  | None => resume_latency_qos d * 1000
  end.

(** The minimum of a running value and a list of contributions. *)
Definition fold_min (init : Z) (contribs : list Z) : Z :=
  foldl Z.min init contribs.

(** The store [default_suspend_ok] works on once it has decided to
    recompute: the device's timing data with the dirty flag cleared,
    [cached_suspend_ok = false] and [effective_constraint_ns = 0]. *)
Definition suspend_reset (devs : dev_store) (dev : nat) (d : device)
    (td : gpd_timing_data) : dev_store :=
  <[dev := set_td d (td_reset td)]> devs.

(** What a recomputing [default_suspend_ok] returns and leaves behind once
    its child walk has ended with the constraint [c]: the decision it takes
    from the test against the sentinel on. *)
Definition suspend_after_walk (no_constraint_ns : Z) (devs : dev_store)
    (dev : nat) (d : device) (td : gpd_timing_data) (c : Z)
    : bool * dev_store :=
  if c =? no_constraint_ns then
    (true, <[dev := set_td d (td_grant (td_reset td) no_constraint_ns)]> devs)
  else if c =? 0 then (false, suspend_reset devs dev d td)
  else
    let budget :=
      s64_sub c (s64_add (suspend_latency_ns td) (resume_latency_ns td)) in
    if budget <=? 0 then (false, suspend_reset devs dev d td)
    else (true, <[dev := set_td d (td_grant (td_reset td) budget)]> devs).

(** The timing data of the device behind a handle, if any. *)
Definition dev_td (devs : dev_store) (dev : nat) : option gpd_timing_data :=
  d ← devs !! dev; domain_data d.

(** The [max_off_time_ns] values read through a list of subdomain links,
    and the [effective_constraint_ns] values read through a device list. *)
Definition subdomain_budgets (doms : genpd_store) (links : list nat)
    : list Z :=
  omap (λ c, max_off_time_ns <$> doms !! c) links.

Definition device_budgets (devs : dev_store) (pdds : list nat) : list Z :=
  omap (λ m, effective_constraint_ns <$> dev_td devs m) pdds.

(** Every handle the power-down evaluator follows from a domain resolves,
    and the domain has at least one state and no more than its table
    holds. *)
Definition wf_genpd (devs : dev_store) (doms : genpd_store)
    (g : generic_pm_domain) : Prop :=
  Forall (λ p, is_Some (doms !! p)) (child_links g) ∧
  Forall (λ c, is_Some (doms !! c)) (parent_links g) ∧
  Forall (λ m, is_Some (dev_td devs m)) (dev_list g) ∧
  (0 < state_count g ≤ length (states g))%nat.

(** A budget admits a round trip when it is unconstrained or strictly
    greater.  For a subdomain "unconstrained" is a negative
    [max_off_time_ns]; for a device it is the sentinel. *)
Definition subdomain_admits (round_trip_ns t : Z) : Prop :=
  t < 0 ∨ round_trip_ns < t.

Definition device_admits (no_constraint_ns round_trip_ns t : Z) : Prop :=
  t = no_constraint_ns ∨ round_trip_ns < t.

(** State [s] of domain [g] qualifies: every subdomain and every member
    device admits the round trip of the state. *)
Definition state_qualifies (no_constraint_ns : Z) (devs : dev_store)
    (doms : genpd_store) (g : generic_pm_domain) (s : nat) : Prop :=
  ∃ st, states g !! s = Some st ∧
    let round_trip_ns := power_off_latency_ns st + power_on_latency_ns st in
    Forall (subdomain_admits round_trip_ns)
      (subdomain_budgets doms (parent_links g)) ∧
    Forall (device_admits no_constraint_ns round_trip_ns)
      (device_budgets devs (dev_list g)).

(** The finite budgets among the contributors of a domain, and their
    minimum when there is one. *)
Definition finite_budgets (no_constraint_ns : Z) (devs : dev_store)
    (doms : genpd_store) (g : generic_pm_domain) : list Z :=
  filter (λ t, 0 <= t) (subdomain_budgets doms (parent_links g)) ++
  filter (λ t, t ≠ no_constraint_ns) (device_budgets devs (dev_list g)).

Definition min_budget (budgets : list Z) : option Z :=
  match budgets with
  | [] => None
  | b :: bs => Some (fold_min b bs)
  end.

(** The two loops of [__default_power_down_ok] share one shape; this is that
    shape over the list of values a loop reads, with the loop's own test for
    "unconstrained".  [None] is the early [return false]. *)
Definition min_off_step (min_off_time_ns t : Z) : Z :=
  if (min_off_time_ns >? t) || (min_off_time_ns <? 0)
  then t else min_off_time_ns.

Fixpoint scan_budgets (unconstrained : Z → bool) (off_on_time_ns : Z)
    (budgets : list Z) (min_off_time_ns : Z) : option Z :=
  match budgets with
  | [] => Some min_off_time_ns
  | t :: rest =>
      if unconstrained t then
        scan_budgets unconstrained off_on_time_ns rest min_off_time_ns
      else if t <=? off_on_time_ns then None
      else scan_budgets unconstrained off_on_time_ns rest
             (min_off_step min_off_time_ns t)
  end.

(** The record [default_power_down_ok] leaves behind in a recomputed
    domain: everything as in [g] but the four fields it writes and the dirty
    flag it clears.  The cached index is the chosen index as a [bool]. *)
Definition genpd_recomputed (g : generic_pm_domain) (idx : nat) (ok : bool)
    (max_off : Z) : generic_pm_domain :=
  {| parent_links := parent_links g; child_links := child_links g;
     dev_list := dev_list g; states := states g;
     state_count := state_count g; state_idx := idx;
     max_off_time_changed := false;
     max_off_time_ns := max_off;
     cached_power_down_ok := ok;
     cached_power_down_state_idx := bool_of_uint idx |}.

(** [__default_power_down_ok] for one state, over the budgets its two loops
    read: [None] when the state is refused, [Some min_off_time_ns] when it
    is accepted. *)
Definition state_check (no_constraint_ns : Z) (sub_budgets dev_budgets : list Z)
    (st : genpd_power_state) : option Z :=
  let off_on_time_ns :=
    s64_add (power_off_latency_ns st) (power_on_latency_ns st) in
  min_off_time_ns ← scan_budgets (λ t, t <? 0) off_on_time_ns sub_budgets (-1);
  scan_budgets (λ t, t =? no_constraint_ns) off_on_time_ns dev_budgets
    min_off_time_ns.

(** The record [default_power_down_ok] writes before it starts the search:
    no budget yet, clean, power-down allowed, deepest state. *)
Definition genpd_reset (g : generic_pm_domain) : generic_pm_domain :=
  set_state_idx
    (set_cached_power_down_ok
       (set_max_off_time_changed (set_max_off_time_ns g (-1)) false) true)
    (uint_pred (state_count g)).

(** Every handle the suspend evaluator follows from a device resolves: the
    device belongs to a domain, and its children exist unless they are
    ignored. *)
Definition wf_device (devs : dev_store) (d : device) : Prop :=
  is_Some (domain_data d) ∧
  (ignore_children d = false →
   Forall (λ k, is_Some (devs !! k)) (children d)).

(** ** Example configurations *)

(** The sentinel of the examples: [S32_MAX] microseconds, in nanoseconds. *)
Definition example_no_constraint_ns : Z := S32_MAX * NSEC_PER_USEC.

Definition example_td (budget : Z) (changed : bool) : gpd_timing_data :=
  {| suspend_latency_ns := 1000;
     resume_latency_ns := 1500;
     effective_constraint_ns := budget;
     constraint_changed := changed;
     cached_suspend_ok := false |}.

(** Device 0 is the device under evaluation, with a stale budget of 77.
    Device 1 is outside any domain with a constraint of 3 us; devices 2 and
    3 belong to a domain, with budgets of 4000 ns and no constraint. *)
Definition example_dev (qos : Z) (ignore : bool) (kids : list nat) : device :=
  {| resume_latency_qos := qos;
     ignore_children := ignore;
     children := kids;
     domain_data := Some (example_td 77 true) |}.

Definition example_devs (qos : Z) (ignore : bool) (kids : list nat)
    : dev_store :=
  <[0%nat := example_dev qos ignore kids]>
  (<[1%nat := {| resume_latency_qos := 3; ignore_children := false;
                 children := []; domain_data := None |}]>
  (<[2%nat := {| resume_latency_qos := 9; ignore_children := false;
                 children := [];
                 domain_data := Some (example_td 4000 false) |}]>
  (<[3%nat := {| resume_latency_qos := 9; ignore_children := false;
                 children := [];
                 domain_data :=
                   Some (example_td example_no_constraint_ns false) |}]>
   ∅))).

(** Domain 5 is the domain under evaluation: subdomain 6, parent 7, member
    devices 2 and 3, and two states with round trips of 20 and 200 ns. *)
Definition example_genpd : generic_pm_domain :=
  {| parent_links := [6%nat];
     child_links := [7%nat];
     dev_list := [2%nat; 3%nat];
     states := [ {| power_off_latency_ns := 10; power_on_latency_ns := 10 |};
                 {| power_off_latency_ns := 100; power_on_latency_ns := 100 |} ];
     state_count := 2;
     state_idx := 0;
     max_off_time_changed := true;
     max_off_time_ns := 0;
     cached_power_down_ok := false;
     cached_power_down_state_idx := false |}.

Definition example_neighbour (max_off : Z) (subdomains parents : list nat)
    : generic_pm_domain :=
  {| parent_links := subdomains;
     child_links := parents;
     dev_list := [];
     states := [ {| power_off_latency_ns := 10; power_on_latency_ns := 10 |} ];
     state_count := 1;
     state_idx := 0;
     max_off_time_changed := false;
     max_off_time_ns := max_off;
     cached_power_down_ok := true;
     cached_power_down_state_idx := false |}.

Definition example_doms : genpd_store :=
  <[5%nat := example_genpd]>
  (<[6%nat := example_neighbour 150 [] [5%nat]]>
  (<[7%nat := example_neighbour 33 [5%nat] []]> ∅)).

(** The scenario of the spec's testable properties: one domain with states
    [(off=10,on=10)] and [(off=100,on=100)], no subdomain, no parent, and a
    single member device with the given effective budget. *)
Definition scenario_devs (budget : Z) : dev_store :=
  {[ 0%nat := {| resume_latency_qos := 0; ignore_children := false;
                 children := [];
                 domain_data := Some (example_td budget false) |} ]}.

Definition scenario_doms : genpd_store :=
  {[ 0%nat := {| parent_links := [];
                 child_links := [];
                 dev_list := [0%nat];
                 states :=
                   [ {| power_off_latency_ns := 10;
                        power_on_latency_ns := 10 |};
                     {| power_off_latency_ns := 100;
                        power_on_latency_ns := 100 |} ];
                 state_count := 2;
                 state_idx := 0;
                 max_off_time_changed := true;
                 max_off_time_ns := -1;
                 cached_power_down_ok := false;
                 cached_power_down_state_idx := false |} ]}.

Definition scenario_result (budget : Z) : option (option nat * option Z) :=
  '(choice, doms) ←
    power_down_state (simple_qos_governor example_no_constraint_ns)
      (scenario_devs budget) scenario_doms 0;
  g ← doms !! 0%nat;
  Some (choice,
        match choice with
        | Some _ => Some (max_off_time_ns g)
        | None => None
        end).

(** A domain with three states, round trips of 20, 200 and 2000 ns, no
    subdomain, no parent and the member device 0 of the scenarios. *)
Definition three_state_genpd : generic_pm_domain :=
  {| parent_links := [];
     child_links := [];
     dev_list := [0%nat];
     states :=
       [ {| power_off_latency_ns := 10; power_on_latency_ns := 10 |};
         {| power_off_latency_ns := 100; power_on_latency_ns := 100 |};
         {| power_off_latency_ns := 1000; power_on_latency_ns := 1000 |} ];
     state_count := 3;
     state_idx := 0;
     max_off_time_changed := true;
     max_off_time_ns := -1;
     cached_power_down_ok := false;
     cached_power_down_state_idx := false |}.

Definition three_state_doms : genpd_store := {[ 0%nat := three_state_genpd ]}.

(** Tactics for the closed examples. *)
Ltac s64_in_range := vm_compute; split; discriminate.
Ltac example_wf :=
  repeat split; repeat constructor; try (eexists; reflexivity); try lia.

(** ** Notions used by the further properties *)

(** [d] with another list of device-tree children. *)
Definition set_children (d : device) (kids : list nat) : device :=
  {| resume_latency_qos := resume_latency_qos d;
     ignore_children := ignore_children d;
     children := kids;
     domain_data := domain_data d |}.

(** What [default_suspend_ok] tells its caller and leaves in the timing data
    of the device. *)
Definition suspend_verdict (dev : nat) (res : option (bool * dev_store))
    : option (bool * option gpd_timing_data) :=
  '(r, devs) ← res; Some (r, dev_td devs dev).

(** What the search of a recomputing [default_power_down_ok] may end with,
    over the budgets its loops read: state [s] is left in [state_idx], [ok]
    in [cached_power_down_ok] and [m] in [max_off_time_ns]. *)
Definition recompute_outcome (no_constraint_ns : Z) (sb db : list Z)
    (g : generic_pm_domain) (s : nat) (ok : bool) (m : Z) : Prop :=
  (s < state_count g)%nat ∧
  ((ok = true ∧
    ∃ st c,
      states g !! s = Some st ∧
      state_check no_constraint_ns sb db st = Some c ∧
      (∀ s' st', (s < s' < state_count g)%nat →
                 states g !! s' = Some st' →
                 state_check no_constraint_ns sb db st' = None) ∧
      m = if c <? 0 then -1 else s64_sub c (power_on_latency_ns st)) ∨
   (ok = false ∧ s = 0%nat ∧ m = -1 ∧
    ∀ s' st', (s' < state_count g)%nat →
              states g !! s' = Some st' →
              state_check no_constraint_ns sb db st' = None)).

(** Two domain records with the same place in the hierarchy and the same
    states. *)
Definition same_structure (g1 g2 : generic_pm_domain) : Prop :=
  parent_links g1 = parent_links g2 ∧
  child_links g1 = child_links g2 ∧
  dev_list g1 = dev_list g2 ∧
  states g1 = states g2 ∧
  state_count g1 = state_count g2.

(** [g] with its three lists replaced. *)
Definition set_links (g : generic_pm_domain)
    (subdomains parents members : list nat) : generic_pm_domain :=
  {| parent_links := subdomains; child_links := parents;
     dev_list := members; states := states g;
     state_count := state_count g; state_idx := state_idx g;
     max_off_time_changed := max_off_time_changed g;
     max_off_time_ns := max_off_time_ns g;
     cached_power_down_ok := cached_power_down_ok g;
     cached_power_down_state_idx := cached_power_down_state_idx g |}.

(** ** arm64 user call chains ([arch/arm64/kernel/perf_callchain.c]) *)

(** [struct frame_tail]: the saved frame pointer and link register of one
    user stack frame.  Addresses are [u64] values, [NULL] is 0. *)
Record frame_tail := FrameTail {
  fp : Z;
  lr : Z
}.

(** [sizeof(struct frame_tail)]: two packed 64-bit fields. *)
Definition sizeof_frame_tail : Z := 16.

(** The part of [struct pt_regs] the user walk reads: the program counter
    and [regs[29]], the frame pointer. *)
Record pt_regs := PtRegs {
  pc : Z;
  regs_29 : Z
}.

(** The call chain context and the helpers the walk calls belong to the
    perf core, the uaccess layer, the pointer authentication code and the
    ptrace header; the walk is modelled over them.  [nr] and [max_stack] read
    [entry->nr] and [entry->max_stack]. *)
Class perf_helpers (perf_callchain_entry_ctx : Type) := PerfHelpers {
  nr : perf_callchain_entry_ctx → Z;
  max_stack : perf_callchain_entry_ctx → Z;
  perf_callchain_store :
    perf_callchain_entry_ctx → Z → perf_callchain_entry_ctx;
  access_ok : Z → Z → bool;
  ptrauth_strip_insn_pac : Z → Z;
  compat_user_mode : pt_regs → bool
}.

Section perf_callchain.

Context `{perf_helpers perf_callchain_entry_ctx}.

(** [user_backtrace(tail, entry)]: the next frame tail ([0] for [NULL]) and
    the context afterwards.  User memory is [copy_frame_tail]:
    [copy_frame_tail tail] stands for
    [__copy_from_user_inatomic(&buftail, tail, sizeof(buftail))] with page
    faults disabled, [None] when it reports bytes left uncopied. *)
Definition user_backtrace (copy_frame_tail : Z → option frame_tail)
    (tail : Z) (entry : perf_callchain_entry_ctx)
    : Z * perf_callchain_entry_ctx :=
  if negb (access_ok tail sizeof_frame_tail) then (0, entry)
  else
    match copy_frame_tail tail with
    | None => (0, entry)
    | Some buftail =>
        let lr := ptrauth_strip_insn_pac (lr buftail) in
        let entry := perf_callchain_store entry lr in
        if tail >=? fp buftail then (0, entry)
        else (fp buftail, entry)
    end.

(** The [while] loop of [perf_callchain_user].  Every iteration takes one
    unit of [fuel]; [None] is a walk cut short by the fuel. *)
Fixpoint user_walk (copy_frame_tail : Z → option frame_tail) (fuel : nat)
    (tail : Z) (entry : perf_callchain_entry_ctx)
    : option perf_callchain_entry_ctx :=
  if (nr entry <? max_stack entry) && negb (tail =? 0)
     && (Z.land tail 15 =? 0)
  then
    match fuel with
    | O => None
    | S fuel' =>
        let '(tail, entry) := user_backtrace copy_frame_tail tail entry in
        user_walk copy_frame_tail fuel' tail entry
    end
  else Some entry.

(** [perf_callchain_user(entry, regs)].  [in_guest] is the value of
    [guest_cbs && guest_cbs->is_in_guest()]. *)
Definition perf_callchain_user (copy_frame_tail : Z → option frame_tail)
    (fuel : nat) (in_guest : bool) (entry : perf_callchain_entry_ctx)
    (regs : pt_regs) : option perf_callchain_entry_ctx :=
  if in_guest then Some entry
  else
    let entry := perf_callchain_store entry (pc regs) in
    if negb (compat_user_mode regs)
    then user_walk copy_frame_tail fuel (regs_29 regs) entry
    else Some entry.

End perf_callchain.

(** Addresses are 64-bit values. *)
Definition is_u64 (a : Z) : Prop := 0 <= a < 2 ^ 64.

(** ** Further example configurations *)

(** Device 0 with the children 1 (3 us, outside any domain) and 4, a device
    outside any domain whose constraint is 0. *)
Definition veto_devs : dev_store :=
  <[4%nat := {| resume_latency_qos := 0; ignore_children := false;
                children := []; domain_data := None |}]>
    (example_devs 5 false [1; 4]%nat).

(** Timing data of device 0 with other stale cache fields. *)
Definition stale_td : gpd_timing_data :=
  {| suspend_latency_ns := 1000;
     resume_latency_ns := 1500;
     effective_constraint_ns := 123456;
     constraint_changed := true;
     cached_suspend_ok := true |}.

(** The example devices with device 2 marked dirty and given another
    constraint of its own; its stored budget of 4000 ns is unchanged. *)
Definition dirty_child_devs : dev_store :=
  <[2%nat := {| resume_latency_qos := 1; ignore_children := true;
                children := [];
                domain_data :=
                  Some {| suspend_latency_ns := 1; resume_latency_ns := 2;
                          effective_constraint_ns := 4000;
                          constraint_changed := true;
                          cached_suspend_ok := true |} |}]>
    (example_devs 5 false [1; 2; 3]%nat).

(** The example domain with other stale cache fields. *)
Definition stale_genpd : generic_pm_domain :=
  {| parent_links := [6%nat];
     child_links := [7%nat];
     dev_list := [2%nat; 3%nat];
     states := states example_genpd;
     state_count := 2;
     state_idx := 1;
     max_off_time_changed := true;
     max_off_time_ns := 987654;
     cached_power_down_ok := true;
     cached_power_down_state_idx := true |}.

(** The domain of the scenarios. *)
Definition scenario_genpd : generic_pm_domain :=
  {| parent_links := [];
     child_links := [];
     dev_list := [0%nat];
     states := states example_genpd;
     state_count := 2;
     state_idx := 0;
     max_off_time_changed := true;
     max_off_time_ns := -1;
     cached_power_down_ok := false;
     cached_power_down_state_idx := false |}.

(** A user stack whose two frames, 64 and 32 bytes below the top of the
    address space, point at each other. *)
Definition cyclic_stack (a : Z) : option frame_tail :=
  if a =? 2 ^ 64 - 64 then Some {| fp := 2 ^ 64 - 32; lr := 101 |}
  else if a =? 2 ^ 64 - 32 then Some {| fp := 2 ^ 64 - 64; lr := 202 |}
  else None.

(** The same stack with something readable at address 16, far below it. *)
Definition cyclic_stack_and_more (a : Z) : option frame_tail :=
  if a =? 16 then Some {| fp := 32; lr := 303 |} else cyclic_stack a.

(** A call chain context for the examples: the recorded addresses, newest
    last, with room for eight. *)
Definition example_helpers : perf_helpers (list Z) :=
  {| nr := λ entry, Z.of_nat (length entry);
     max_stack := λ _, 8;
     perf_callchain_store := λ entry ip, entry ++ [ip];
     access_ok := λ _ _, true;
     ptrauth_strip_insn_pac := λ ip, ip;
     compat_user_mode := λ _, false |}.

Definition example_regs : pt_regs := {| pc := 7; regs_29 := 2 ^ 64 - 64 |}.

(** * Properties *)

(** ** Arithmetic facts *)

Lemma s64_wrap_id z : s64_range z → s64_wrap z = z.
Proof.
  unfold s64_range, S64_MIN, S64_MAX, s64_wrap. intros Hz.
  rewrite Z.mod_small; lia.
Qed.

Lemma s64_add_exact a b : s64_range (a + b) → s64_add a b = a + b.
Proof. apply s64_wrap_id. Qed.

Lemma s64_sub_exact a b : s64_range (a - b) → s64_sub a b = a - b.
Proof. apply s64_wrap_id. Qed.

(** The wrap is a congruence modulo [2^64], so a difference whose exact
    value fits is exact even when its second operand was itself wrapped. *)
Lemma s64_sub_add_exact c a b :
  s64_range (c - (a + b)) → s64_sub c (s64_add a b) = c - (a + b).
Proof.
  intros Hr. rewrite <- (s64_wrap_id (c - (a + b))) by done.
  unfold s64_sub, s64_add, s64_wrap. f_equal.
  replace (c - ((a + b + 2 ^ 63) mod 2 ^ 64 - 2 ^ 63) + 2 ^ 63)
    with (c + 2 ^ 63 + 2 ^ 63 - (a + b + 2 ^ 63) mod 2 ^ 64) by lia.
  rewrite Zminus_mod_idemp_r. f_equal. lia.
Qed.

(** A microsecond reading is an [s32]; normalising it cannot overflow. *)
Lemma s64_mul_usec q : s32_range q → s64_mul q NSEC_PER_USEC = q * 1000.
Proof.
  unfold s32_range, S32_MIN, S32_MAX, NSEC_PER_USEC. intros Hq.
  apply s64_wrap_id. unfold s64_range, S64_MIN, S64_MAX. lia.
Qed.

Lemma s64_mul_zero : s64_mul 0 NSEC_PER_USEC = 0.
Proof. reflexivity. Qed.

(** ** The child walk *)

Lemma fold_min_le init contribs : fold_min init contribs <= init.
Proof.
  revert init. induction contribs as [|c cs IH]; intros init; simpl; [lia|].
  unfold fold_min in *. simpl. specialize (IH (init `min` c)). lia.
Qed.

Lemma fold_min_drop (top init : Z) contribs :
  init <= top →
  fold_min init contribs = fold_min init (filter (λ c, c ≠ top) contribs).
Proof.
  revert init. induction contribs as [|c cs IH]; intros init Hle; [done|].
  rewrite filter_cons. destruct (decide (c ≠ top)) as [Hne|Heq].
  - unfold fold_min in *. simpl. apply IH. lia.
  - apply dec_stable in Heq. subst c. unfold fold_min in *. simpl.
    rewrite Z.min_l by lia. by apply IH.
Qed.

Lemma dev_update_qos_constraint_min devs child d data :
  devs !! child = Some d →
  dev_update_qos_constraint devs child data
  = Some (data `min` child_constraint_ns d).
Proof.
  intros Hd. unfold dev_update_qos_constraint. rewrite Hd. simpl.
  fold (child_constraint_ns d).
  destruct (Z.ltb_spec (child_constraint_ns d) data); f_equal; lia.
Qed.

Lemma device_for_each_child_fold devs kids contribs data :
  Forall2 (λ k c, ∃ d, devs !! k = Some d ∧ c = child_constraint_ns d)
    kids contribs →
  device_for_each_child devs kids data dev_update_qos_constraint
  = Some (fold_min data contribs).
Proof.
  intros HF. revert data.
  induction HF as [|k c kids contribs (d & Hd & ->) _ IH]; intros data.
  - done.
  - simpl. rewrite (dev_update_qos_constraint_min _ _ d) by done. simpl.
    apply IH.
Qed.

Lemma child_constraint_spec d :
  (domain_data d = None → s32_range (resume_latency_qos d)) →
  child_constraint_ns d = spec_child_contribution d.
Proof.
  unfold child_constraint_ns, spec_child_contribution, dev_pm_qos_read_value.
  destruct (domain_data d); [done|]. intros Hq. apply s64_mul_usec. auto.
Qed.

(** ** Device suspend evaluator *)

Section suspend_properties.

Variable NO_CONSTRAINT_NS : Z.

Lemma dev_td_suspend_reset devs dev d td :
  dev_td (suspend_reset devs dev d td) dev = Some (td_reset td).
Proof. unfold dev_td, suspend_reset. by rewrite lookup_insert_eq. Qed.

(** Unfolding of the recomputing path, up to the child walk. *)
Lemma default_suspend_ok_recompute devs dev d td :
  devs !! dev = Some d →
  domain_data d = Some td →
  constraint_changed td = true →
  default_suspend_ok NO_CONSTRAINT_NS devs dev =
    let d0 := set_td d (td_reset td) in
    let devs0 := suspend_reset devs dev d td in
    if __dev_pm_qos_resume_latency d =? 0 then Some (false, devs0)
    else
      constraint_ns ← folded_constraint_ns devs0 d0;
      if constraint_ns =? NO_CONSTRAINT_NS then
        Some (true,
              <[dev := set_td d0 (td_grant (td_reset td) NO_CONSTRAINT_NS)]>
                devs0)
      else if constraint_ns =? 0 then Some (false, devs0)
      else
        let budget :=
          s64_sub constraint_ns
            (s64_add (suspend_latency_ns td) (resume_latency_ns td)) in
        if budget <=? 0 then Some (false, devs0)
        else Some (true, <[dev := set_td d0 (td_grant (td_reset td) budget)]>
                           devs0).
Proof.
  intros Hd Htd Hch. unfold default_suspend_ok.
  rewrite Hd. simpl. rewrite Htd. simpl. rewrite Hch. reflexivity.
Qed.

Lemma folded_constraint_ns_set_td devs d td :
  folded_constraint_ns devs (set_td d td) = folded_constraint_ns devs d.
Proof. reflexivity. Qed.

Lemma suspend_grant_store devs dev d td budget :
  <[dev := set_td (set_td d (td_reset td)) (td_grant (td_reset td) budget)]>
    (suspend_reset devs dev d td)
  = <[dev := set_td d (td_grant (td_reset td) budget)]> devs.
Proof. unfold suspend_reset. by rewrite insert_insert_eq. Qed.

(** C4: a device whose own resume-latency constraint is exactly zero is
    refused by a recomputing [default_suspend_ok], whatever its device-tree
    children are (they are not even looked up), and its effective budget is
    left at the reset value 0 with [cached_suspend_ok = false]. *)
Theorem suspend_zero_constraint_veto devs dev d td :
  devs !! dev = Some d →
  domain_data d = Some td →
  constraint_changed td = true →
  __dev_pm_qos_resume_latency d = 0 →
  ∃ devs',
    default_suspend_ok NO_CONSTRAINT_NS devs dev = Some (false, devs') ∧
    devs' = suspend_reset devs dev d td ∧
    ∃ td', dev_td devs' dev = Some td' ∧
           effective_constraint_ns td' = 0 ∧
           cached_suspend_ok td' = false.
Proof.
  intros Hd Htd Hch Hq. eexists. split; [|split; [reflexivity|]].
  - rewrite (default_suspend_ok_recompute _ _ d td) by done.
    simpl. by rewrite Hq.
  - exists (td_reset td). by rewrite dev_td_suspend_reset.
Qed.

(** C6: when the device's own constraint, normalised to nanoseconds, is the
    no-constraint sentinel and every child contribution folded in is the
    sentinel too, a recomputing [default_suspend_ok] stores the sentinel as
    the effective budget, sets [cached_suspend_ok] and returns true.  The
    sentinel is distinct from the value 0 that means "never suspend". *)
Theorem suspend_unconstrained_propagates devs dev d td :
  NO_CONSTRAINT_NS ≠ 0 →
  devs !! dev = Some d →
  domain_data d = Some td →
  constraint_changed td = true →
  s64_mul (__dev_pm_qos_resume_latency d) NSEC_PER_USEC = NO_CONSTRAINT_NS →
  (ignore_children d = false →
   Forall (λ k, ∃ kd, suspend_reset devs dev d td !! k = Some kd ∧
                      child_constraint_ns kd = NO_CONSTRAINT_NS)
     (children d)) →
  ∃ devs' td',
    default_suspend_ok NO_CONSTRAINT_NS devs dev = Some (true, devs') ∧
    dev_td devs' dev = Some td' ∧
    effective_constraint_ns td' = NO_CONSTRAINT_NS ∧
    cached_suspend_ok td' = true ∧
    constraint_changed td' = false.
Proof.
  intros Hnz Hd Htd Hch Hown Hkids.
  assert (Hq : __dev_pm_qos_resume_latency d ≠ 0).
  { intros Hq. rewrite Hq, s64_mul_zero in Hown. congruence. }
  assert (Hfold : folded_constraint_ns (suspend_reset devs dev d td)
                    (set_td d (td_reset td)) = Some NO_CONSTRAINT_NS).
  { rewrite folded_constraint_ns_set_td. unfold folded_constraint_ns.
    rewrite Hown. destruct (ignore_children d); [done|].
    specialize (Hkids eq_refl).
    generalize dependent (children d). intros kids.
    induction 1 as [|k kids (kd & Hk & Hc) _ IH]; [done|].
    simpl. rewrite (dev_update_qos_constraint_min _ _ kd) by done.
    rewrite Hc, Z.min_id. simpl. apply IH. }
  eexists _, (td_grant (td_reset td) NO_CONSTRAINT_NS). split.
  - rewrite (default_suspend_ok_recompute _ _ d td) by done. simpl.
    apply Z.eqb_neq in Hq. rewrite Hq, Hfold. simpl.
    rewrite Z.eqb_refl. reflexivity.
  - unfold dev_td. rewrite lookup_insert_eq. done.
Qed.

Lemma folded_constraint_ns_ignore_children devs d :
  ignore_children d = true →
  folded_constraint_ns devs d
  = Some (s64_mul (__dev_pm_qos_resume_latency d) NSEC_PER_USEC).
Proof. intros Hic. unfold folded_constraint_ns. by rewrite Hic. Qed.

(** Every way a recomputing call can end, read off the stored timing data. *)
Lemma default_suspend_ok_outcome devs dev d td r devs' :
  devs !! dev = Some d →
  domain_data d = Some td →
  constraint_changed td = true →
  default_suspend_ok NO_CONSTRAINT_NS devs dev = Some (r, devs') →
  (r = false ∧ devs' = suspend_reset devs dev d td) ∨
  (r = true ∧ ∃ budget,
     devs' = <[dev := set_td d (td_grant (td_reset td) budget)]> devs).
Proof.
  intros Hd Htd Hch. rewrite (default_suspend_ok_recompute _ _ d td) by done.
  cbv zeta. destruct (_ =? 0); [intros [= <- <-]; by left|].
  destruct (folded_constraint_ns _ _) as [c|]; [simpl|done].
  rewrite !suspend_grant_store.
  repeat case_match; intros [= <- <-]; eauto.
Qed.

(** C3: when a recomputing [default_suspend_ok] ends its child walk with a
    constraint [c] that is neither the sentinel nor zero, it returns true
    exactly when [c - (suspend_latency_ns + resume_latency_ns)] is positive,
    and then stores that difference as the effective budget together with
    [cached_suspend_ok = true]; and whenever a recomputing call returns
    false, the timing data is as the up-front reset left it, with an
    effective budget of 0 and [cached_suspend_ok = false].  The difference
    is taken to fit in an [s64]. *)
Theorem suspend_finite_constraint devs dev d td :
  devs !! dev = Some d →
  domain_data d = Some td →
  constraint_changed td = true →
  (∀ c,
     __dev_pm_qos_resume_latency d ≠ 0 →
     folded_constraint_ns (suspend_reset devs dev d td) d = Some c →
     c ≠ NO_CONSTRAINT_NS →
     c ≠ 0 →
     let budget := c - (suspend_latency_ns td + resume_latency_ns td) in
     s64_range budget →
     ∃ r devs' td',
       default_suspend_ok NO_CONSTRAINT_NS devs dev = Some (r, devs') ∧
       (r = true ↔ 0 < budget) ∧
       dev_td devs' dev = Some td' ∧
       (r = true →
        effective_constraint_ns td' = budget ∧
        cached_suspend_ok td' = true)) ∧
  (∀ devs',
     default_suspend_ok NO_CONSTRAINT_NS devs dev = Some (false, devs') →
     devs' = suspend_reset devs dev d td ∧
     ∃ td', dev_td devs' dev = Some td' ∧
            effective_constraint_ns td' = 0 ∧
            cached_suspend_ok td' = false).
Proof.
  intros Hd Htd Hch. split.
  - intros c Hq Hfold Hnc Hnz budget Hrange.
    rewrite (default_suspend_ok_recompute _ _ d td) by done. cbv zeta.
    rewrite folded_constraint_ns_set_td, Hfold. simpl.
    apply Z.eqb_neq in Hq, Hnc, Hnz. rewrite Hq, Hnc, Hnz.
    rewrite s64_sub_add_exact by done. fold budget.
    destruct (Z.leb_spec budget 0) as [Hle|Hlt].
    + exists false, (suspend_reset devs dev d td), (td_reset td).
      rewrite dev_td_suspend_reset. repeat split; try done; lia.
    + eexists true, _, (td_grant (td_reset td) budget).
      split; [reflexivity|]. unfold dev_td. rewrite lookup_insert_eq.
      repeat split; done.
  - intros devs' Hrun.
    destruct (default_suspend_ok_outcome _ _ _ _ _ _ Hd Htd Hch Hrun)
      as [[_ ->]|[? _]]; [|done].
    split; [done|]. exists (td_reset td). by rewrite dev_td_suspend_reset.
Qed.

(** C5: a recomputing [default_suspend_ok] that walks the children decides
    on the minimum of the device's own normalised constraint and the
    children's contributions, a child in a domain contributing its effective
    budget and a child outside any domain its own resume-latency constraint
    times 1000: with that minimum as the constraint after the walk it
    returns and stores what the rest of the function computes.  As no
    normalised reading exceeds the sentinel, contributions equal to the
    sentinel can be left out of the minimum without changing what the call
    returns and stores: they act as +infinity.  The constraints are [s32]
    readings and the device's own is not 0. *)
Theorem child_walk_folds_minimum devs dev d td contribs :
  devs !! dev = Some d →
  domain_data d = Some td →
  constraint_changed td = true →
  ignore_children d = false →
  resume_latency_qos d ≠ 0 →
  s32_range (resume_latency_qos d) →
  Forall2
    (λ k c, ∃ kd,
       suspend_reset devs dev d td !! k = Some kd ∧
       (domain_data kd = None → s32_range (resume_latency_qos kd)) ∧
       c = spec_child_contribution kd)
    (children d) contribs →
  default_suspend_ok NO_CONSTRAINT_NS devs dev
  = Some (suspend_after_walk NO_CONSTRAINT_NS devs dev d td
            (fold_min (resume_latency_qos d * 1000) contribs)) ∧
  (S32_MAX * NSEC_PER_USEC <= NO_CONSTRAINT_NS →
   default_suspend_ok NO_CONSTRAINT_NS devs dev
   = Some (suspend_after_walk NO_CONSTRAINT_NS devs dev d td
             (fold_min (resume_latency_qos d * 1000)
                (filter (λ c, c ≠ NO_CONSTRAINT_NS) contribs)))).
Proof.
  intros Hd Htd Hch Hic Hnz Hq Hkids.
  assert (Hfold : folded_constraint_ns (suspend_reset devs dev d td) d
                  = Some (fold_min (resume_latency_qos d * 1000) contribs)).
  { unfold folded_constraint_ns. rewrite Hic.
    unfold __dev_pm_qos_resume_latency. rewrite s64_mul_usec by done.
    apply device_for_each_child_fold.
    eapply Forall2_impl; [exact Hkids|].
    intros k c (kd & Hk & Hr & ->). exists kd. split; [done|].
    symmetry. by apply child_constraint_spec. }
  assert (Hrun : default_suspend_ok NO_CONSTRAINT_NS devs dev
                 = Some (suspend_after_walk NO_CONSTRAINT_NS devs dev d td
                           (fold_min (resume_latency_qos d * 1000)
                              contribs))).
  { rewrite (default_suspend_ok_recompute devs dev d td) by done. cbv zeta.
    unfold __dev_pm_qos_resume_latency at 1.
    apply Z.eqb_neq in Hnz. rewrite Hnz.
    rewrite folded_constraint_ns_set_td, Hfold. simpl.
    rewrite !suspend_grant_store. unfold suspend_after_walk.
    by repeat case_match. }
  split; [done|]. intros Htop. rewrite Hrun. do 2 f_equal.
  apply fold_min_drop.
  unfold s32_range, S32_MAX, NSEC_PER_USEC in *. lia.
Qed.

(** C10: with [ignore_children] set, a recomputing [default_suspend_ok]
    looks at no device-tree child: two devices with the same own constraint
    and the same suspend and resume latencies get the same decision and the
    same stored budget, whatever their children and the rest of the two
    stores are. *)
Theorem suspend_ignore_children devs1 devs2 dev1 dev2 d1 d2 td1 td2 :
  devs1 !! dev1 = Some d1 →
  devs2 !! dev2 = Some d2 →
  domain_data d1 = Some td1 →
  domain_data d2 = Some td2 →
  constraint_changed td1 = true →
  constraint_changed td2 = true →
  ignore_children d1 = true →
  ignore_children d2 = true →
  __dev_pm_qos_resume_latency d1 = __dev_pm_qos_resume_latency d2 →
  suspend_latency_ns td1 = suspend_latency_ns td2 →
  resume_latency_ns td1 = resume_latency_ns td2 →
  ∃ r budget devs1' devs2' td1' td2',
    default_suspend_ok NO_CONSTRAINT_NS devs1 dev1 = Some (r, devs1') ∧
    default_suspend_ok NO_CONSTRAINT_NS devs2 dev2 = Some (r, devs2') ∧
    dev_td devs1' dev1 = Some td1' ∧
    dev_td devs2' dev2 = Some td2' ∧
    effective_constraint_ns td1' = budget ∧
    effective_constraint_ns td2' = budget ∧
    cached_suspend_ok td1' = r ∧
    cached_suspend_ok td2' = r.
Proof.
  intros Hd1 Hd2 Htd1 Htd2 Hch1 Hch2 Hic1 Hic2 Hq Hs Hr.
  rewrite (default_suspend_ok_recompute _ _ d1 td1) by done.
  rewrite (default_suspend_ok_recompute _ _ d2 td2) by done.
  cbv zeta. rewrite !suspend_grant_store, !folded_constraint_ns_set_td.
  rewrite !folded_constraint_ns_ignore_children by done.
  rewrite Hq, Hs, Hr. simpl.
  assert (Hreset : ∀ devs dev d td,
            dev_td (suspend_reset devs dev d td) dev = Some (td_reset td))
    by apply dev_td_suspend_reset.
  assert (Hgrant : ∀ (devs : dev_store) dev d td b,
            dev_td (<[dev := set_td d (td_grant (td_reset td) b)]> devs) dev
            = Some (td_grant (td_reset td) b)).
  { intros. unfold dev_td. by rewrite lookup_insert_eq. }
  repeat case_match;
    (eexists _, _, _, _, _, _;
     split; [reflexivity|]; split; [reflexivity|];
     rewrite ?Hreset, ?Hgrant;
     split; [reflexivity|]; split; [reflexivity|]; done).
Qed.

End suspend_properties.

(** ** The loops of the per-state check *)

Section scan.

Variable unconstrained : Z → bool.
Variable P : Z → Prop.
Hypothesis unconstrained_spec : ∀ t, unconstrained t = true ↔ P t.

Lemma scan_budgets_pass off_on budgets m `{!∀ t, Decision (P t)} :
  Forall (λ t, P t ∨ off_on < t) budgets →
  scan_budgets unconstrained off_on budgets m
  = Some (foldl min_off_step m (filter (λ t, ¬ P t) budgets)).
Proof.
  intros HF. revert m. induction HF as [|t rest Ht _ IH]; intros m; [done|].
  simpl. rewrite filter_cons.
  destruct (unconstrained t) eqn:Hu.
  - apply unconstrained_spec in Hu. rewrite decide_False by tauto. apply IH.
  - assert (¬ P t) as Hn by (rewrite <- unconstrained_spec; congruence).
    rewrite decide_True by done.
    destruct (Z.leb_spec t off_on); [destruct Ht; [done|lia]|].
    simpl. apply IH.
Qed.

Lemma scan_budgets_fail off_on budgets m :
  ¬ Forall (λ t, P t ∨ off_on < t) budgets →
  scan_budgets unconstrained off_on budgets m = None.
Proof.
  revert m. induction budgets as [|t rest IH]; intros m Hn.
  - destruct Hn. constructor.
  - simpl. destruct (unconstrained t) eqn:Hu.
    + apply IH. intros HF. apply Hn. constructor; [|done].
      left. by apply unconstrained_spec.
    + destruct (Z.leb_spec t off_on); [done|].
      apply IH. intros HF. apply Hn. constructor; [by right|done].
Qed.

Lemma scan_budgets_Some off_on budgets m m' :
  scan_budgets unconstrained off_on budgets m = Some m' →
  Forall (λ t, P t ∨ off_on < t) budgets.
Proof.
  revert m. induction budgets as [|t rest IH]; intros m Hrun; [done|].
  simpl in Hrun. destruct (unconstrained t) eqn:Hu.
  - constructor; [|by eapply IH]. left. by apply unconstrained_spec.
  - destruct (Z.leb_spec t off_on); [done|].
    constructor; [by right|by eapply IH].
Qed.

End scan.

Lemma min_off_step_min m t : 0 <= m → min_off_step m t = m `min` t.
Proof.
  intros Hm. unfold min_off_step.
  destruct (Z.gtb_spec m t), (Z.ltb_spec m 0); simpl; lia.
Qed.

Lemma foldl_min_off_step_nonneg m budgets :
  0 <= m → Forall (λ t, 0 <= t) budgets →
  foldl min_off_step m budgets = fold_min m budgets ∧
  0 <= fold_min m budgets.
Proof.
  intros Hm HF. revert m Hm.
  induction HF as [|t rest Ht _ IH]; intros m Hm; [done|].
  unfold fold_min in *. simpl. rewrite min_off_step_min by done.
  apply IH. lia.
Qed.

Lemma foldl_min_off_step_start budgets :
  Forall (λ t, 0 <= t) budgets →
  foldl min_off_step (-1) budgets
  = match min_budget budgets with Some m => m | None => -1 end ∧
  (foldl min_off_step (-1) budgets <? 0) = bool_decide (budgets = []).
Proof.
  destruct 1 as [|t rest Ht HF]; [done|].
  simpl. replace (min_off_step (-1) t) with t
    by (unfold min_off_step; by rewrite orb_true_r).
  destruct (foldl_min_off_step_nonneg t rest Ht HF) as [-> Hpos].
  split; [done|]. by apply Z.ltb_ge.
Qed.

Lemma fold_min_in_range b bs :
  Forall s64_range (b :: bs) → fold_min b bs <= S64_MAX.
Proof.
  intros HF. apply Forall_cons in HF as [Hb _].
  pose proof (fold_min_le b bs). unfold s64_range in Hb. lia.
Qed.

(** ** Domain power-down evaluator *)

Section power_down_properties.

Variable NO_CONSTRAINT_NS : Z.

Lemma check_subdomains_scan doms off_on links m :
  Forall (λ c, is_Some (doms !! c)) links →
  check_subdomains doms off_on links m
  = Some (scan_budgets (λ t, t <? 0) off_on (subdomain_budgets doms links) m).
Proof.
  intros HF. revert m. induction HF as [|c rest [sd Hc] _ IH]; intros m.
  - done.
  - unfold subdomain_budgets in *. simpl. rewrite Hc. simpl.
    unfold min_off_step. repeat case_match; try done; apply IH.
Qed.

Lemma check_devices_scan devs off_on pdds m :
  Forall (λ k, is_Some (dev_td devs k)) pdds →
  check_devices NO_CONSTRAINT_NS devs off_on pdds m
  = Some (scan_budgets (λ t, t =? NO_CONSTRAINT_NS) off_on
            (device_budgets devs pdds) m).
Proof.
  intros HF. revert m. induction HF as [|k rest [td Hk] _ IH]; intros m.
  - done.
  - unfold device_budgets in *. simpl. rewrite Hk. simpl.
    unfold dev_td in Hk. destruct (devs !! k) as [d|]; [simpl in *|done].
    rewrite Hk. simpl. unfold min_off_step.
    repeat case_match; try done; apply IH.
Qed.

Lemma power_down_ok_state_check devs doms pd g s st :
  wf_genpd devs doms g →
  doms !! pd = Some g →
  states g !! s = Some st →
  __default_power_down_ok NO_CONSTRAINT_NS devs doms pd s
  = Some
      match state_check NO_CONSTRAINT_NS
              (subdomain_budgets doms (parent_links g))
              (device_budgets devs (dev_list g)) st with
      | None => (false, doms)
      | Some m =>
          (true,
           if m <? 0 then doms
           else <[pd := set_max_off_time_ns g
                          (s64_sub m (power_on_latency_ns st))]> doms)
      end.
Proof.
  intros (_ & Hsub & Hdev & _) Hg Hst.
  unfold __default_power_down_ok, state_check.
  rewrite Hg. simpl. rewrite Hst. simpl.
  rewrite check_subdomains_scan by done. simpl.
  destruct (scan_budgets _ _ (subdomain_budgets _ _) _) as [m1|]; [|done].
  simpl. rewrite check_devices_scan by done. simpl.
  destruct (scan_budgets _ _ (device_budgets _ _) _) as [m2|]; [|done].
  by destruct (m2 <? 0).
Qed.

(** Writing a record with the same [max_off_time_ns] over a domain changes
    no budget read through subdomain links. *)
Lemma subdomain_budgets_insert_same doms pd g g' links :
  doms !! pd = Some g →
  max_off_time_ns g' = max_off_time_ns g →
  subdomain_budgets (<[pd := g']> doms) links = subdomain_budgets doms links.
Proof.
  intros Hg Hm. unfold subdomain_budgets. apply list_omap_ext.
  apply Forall2_same_length_lookup_2; [done|].
  intros i c c' Hc Hc'. assert (c = c') as <- by congruence.
  rewrite lookup_insert. case_decide as Hpd; [|done].
  subst c. rewrite Hg. simpl. by rewrite Hm.
Qed.

Lemma subdomain_budgets_insert_fresh doms pd g' links :
  pd ∉ links →
  subdomain_budgets (<[pd := g']> doms) links = subdomain_budgets doms links.
Proof.
  intros Hpd. unfold subdomain_budgets. apply list_omap_ext.
  apply Forall2_same_length_lookup_2; [done|].
  intros i c c' Hc Hc'. assert (c = c') as <- by congruence.
  rewrite lookup_insert_ne; [done|].
  intros ->. apply Hpd. by eapply list_elem_of_lookup_2.
Qed.

Lemma wf_genpd_insert devs doms pd g0 g g' :
  wf_genpd devs doms g →
  child_links g' = child_links g →
  parent_links g' = parent_links g →
  dev_list g' = dev_list g →
  states g' = states g →
  state_count g' = state_count g →
  wf_genpd devs (<[pd := g0]> doms) g'.
Proof.
  intros (Hc & Hp & Hd & Hs) Hcl Hpl Hdl Hst Hsc. unfold wf_genpd.
  rewrite Hcl, Hpl, Hdl, Hst, Hsc.
  repeat split; try done; try lia.
  - eapply Forall_impl; [exact Hc|]. intros q Hq.
    apply lookup_insert_is_Some'. by right.
  - eapply Forall_impl; [exact Hp|]. intros q Hq.
    apply lookup_insert_is_Some'. by right.
Qed.

Lemma find_power_down_state_unfold devs doms pd idx :
  find_power_down_state NO_CONSTRAINT_NS devs doms pd idx =
  '(ok, doms) ← __default_power_down_ok NO_CONSTRAINT_NS devs doms pd idx;
  if ok : bool then Some doms
  else
    genpd ← doms !! pd;
    match idx with
    | O => Some (<[pd := set_cached_power_down_ok genpd false]> doms)
    | S idx' =>
        find_power_down_state NO_CONSTRAINT_NS devs
          (<[pd := set_state_idx genpd idx']> doms) pd idx'
    end.
Proof. by destruct idx. Qed.

Lemma genpd_eta g :
  set_max_off_time_ns (set_state_idx g (state_idx g)) (max_off_time_ns g) = g.
Proof. by destruct g. Qed.

Lemma accepted_store (doms : genpd_store) pd g c on :
  doms !! pd = Some g →
  (if c <? 0 then doms
   else <[pd := set_max_off_time_ns g (s64_sub c on)]> doms)
  = <[pd := set_max_off_time_ns (set_state_idx g (state_idx g))
              (if c <? 0 then max_off_time_ns g else s64_sub c on)]> doms.
Proof.
  intros Hg. destruct (c <? 0).
  - by rewrite genpd_eta, insert_id.
  - by destruct g.
Qed.

(** The search loop: it stops at the first state, counting down from
    [idx], that the per-state check accepts, and gives up below state 0. *)
Lemma find_power_down_state_spec devs pd sb db idx :
  ∀ doms g,
    wf_genpd devs doms g →
    doms !! pd = Some g →
    subdomain_budgets doms (parent_links g) = sb →
    device_budgets devs (dev_list g) = db →
    state_idx g = idx →
    (idx < length (states g))%nat →
    ∃ g',
      find_power_down_state NO_CONSTRAINT_NS devs doms pd idx
      = Some (<[pd := g']> doms) ∧
      ((∃ s st c,
          (s ≤ idx)%nat ∧ states g !! s = Some st ∧
          state_check NO_CONSTRAINT_NS sb db st = Some c ∧
          (∀ s' st', (s < s' ≤ idx)%nat → states g !! s' = Some st' →
                     state_check NO_CONSTRAINT_NS sb db st' = None) ∧
          g' = set_max_off_time_ns (set_state_idx g s)
                 (if c <? 0 then max_off_time_ns g
                  else s64_sub c (power_on_latency_ns st))) ∨
       ((∀ s' st', (s' ≤ idx)%nat → states g !! s' = Some st' →
                   state_check NO_CONSTRAINT_NS sb db st' = None) ∧
        g' = set_cached_power_down_ok (set_state_idx g 0) false)).
Proof.
  induction idx as [|idx IH]; intros doms g Hwf Hg Hsb Hdb Hidx Hlen.
  - destruct (lookup_lt_is_Some_2 _ _ Hlen) as [st Hst].
    rewrite find_power_down_state_unfold.
    rewrite (power_down_ok_state_check _ _ _ g _ st) by done.
    rewrite Hsb, Hdb. simpl.
    destruct (state_check _ sb db st) as [c|] eqn:Hc; simpl.
    + eexists. split; [by rewrite (accepted_store _ _ g)|].
      left. exists (state_idx g), st, c.
      split; [lia|]. split; [by rewrite Hidx|]. split; [done|].
      split; [|done]. intros s' st' Hs'. lia.
    + rewrite Hg. simpl. eexists. split; [reflexivity|].
      right. split.
      * intros s' st' Hs' Hst'. assert (s' = 0%nat) as -> by lia. congruence.
      * rewrite <- Hidx. by destruct g.
  - destruct (lookup_lt_is_Some_2 _ _ Hlen) as [st Hst].
    rewrite find_power_down_state_unfold.
    rewrite (power_down_ok_state_check _ _ _ g _ st) by done.
    rewrite Hsb, Hdb. simpl.
    destruct (state_check _ sb db st) as [c|] eqn:Hc; simpl.
    + eexists. split; [by rewrite (accepted_store _ _ g)|].
      left. exists (state_idx g), st, c.
      split; [lia|]. split; [by rewrite Hidx|]. split; [done|].
      split; [|done]. intros s' st' Hs'. lia.
    + rewrite Hg. simpl.
      destruct (IH (<[pd := set_state_idx g idx]> doms) (set_state_idx g idx))
        as (g' & Hrun & Hout).
      * by eapply wf_genpd_insert.
      * by rewrite lookup_insert_eq.
      * simpl. by rewrite (subdomain_budgets_insert_same _ _ g).
      * done.
      * done.
      * simpl. lia.
      * exists g'. split; [by rewrite Hrun, insert_insert_eq|].
        destruct Hout as [(s & st' & c & Hs & Hst' & Hc' & Hdeeper & ->)|
                          [Hnone ->]].
        -- left. exists s, st', c. repeat split; try done; [lia|].
           intros s' st2 Hs' Hst2.
           destruct (decide (s' = S idx)) as [->|Hne]; [congruence|].
           apply (Hdeeper s' st2); [lia|done].
        -- right. split; [|done]. intros s' st2 Hs' Hst2.
           destruct (decide (s' = S idx)) as [->|Hne]; [congruence|].
           apply (Hnone s' st2); [lia|done].
Qed.

Lemma invalidate_parents_spec links :
  ∀ doms,
    Forall (λ p, is_Some (doms !! p)) links →
    ∃ doms1,
      invalidate_parents doms links = Some doms1 ∧
      ∀ q, doms1 !! q =
           if decide (q ∈ links)
           then (λ x, set_max_off_time_changed x true) <$> doms !! q
           else doms !! q.
Proof.
  induction links as [|p rest IH]; intros doms HF.
  - exists doms. split; [done|]. intros q. rewrite decide_False; [done|].
    apply not_elem_of_nil.
  - apply Forall_cons in HF as [[gp Hp] HF].
    destruct (IH (<[p := set_max_off_time_changed gp true]> doms))
      as (doms1 & Hrun & Hlook).
    { eapply Forall_impl; [exact HF|]. intros q Hq.
      apply lookup_insert_is_Some'. by right. }
    exists doms1. split; [simpl; by rewrite Hp|].
    intros q. rewrite Hlook. destruct (decide (q = p)) as [->|Hne].
    + rewrite lookup_insert_eq, Hp.
      rewrite (decide_True (P := p ∈ p :: rest))
        by (apply elem_of_cons; by left).
      by destruct (decide (p ∈ rest)).
    + rewrite lookup_insert_ne by done.
      destruct (decide (q ∈ rest)) as [Hin|Hnin].
      * rewrite decide_True; [done|]. apply elem_of_cons. by right.
      * rewrite decide_False; [done|].
        intros [?|?]%elem_of_cons; done.
Qed.

Lemma default_power_down_ok_unfold devs doms doms1 pd g g1 :
  doms !! pd = Some g →
  max_off_time_changed g = true →
  invalidate_parents doms (child_links g) = Some doms1 →
  doms1 !! pd = Some g1 →
  genpd_reset g1 = genpd_reset g →
  default_power_down_ok NO_CONSTRAINT_NS devs doms pd =
    doms3 ← find_power_down_state NO_CONSTRAINT_NS devs
               (<[pd := genpd_reset g]> doms1) pd (uint_pred (state_count g));
    genpd ← doms3 !! pd;
    Some (cached_power_down_ok genpd,
          <[pd := set_cached_power_down_state_idx genpd
                    (bool_of_uint (state_idx genpd))]>
            doms3).
Proof.
  intros Hg Hch Hinv Hg1 Hreset. unfold default_power_down_ok.
  rewrite Hg. simpl. rewrite Hch. simpl. rewrite Hinv. simpl.
  rewrite Hg1. simpl.
  fold (genpd_reset g1). rewrite Hreset.
  by rewrite (f_equal state_count Hreset : state_count g1 = state_count g).
Qed.

(** The recomputing path of [default_power_down_ok] as a whole: the parents
    are flagged, the record is reset, the search runs on the store so
    prepared, and the outcome is written back. *)
Lemma default_power_down_ok_recompute devs doms pd g :
  wf_genpd devs doms g →
  doms !! pd = Some g →
  max_off_time_changed g = true →
  ∃ doms1,
    invalidate_parents doms (child_links g) = Some doms1 ∧
    (∀ q, doms1 !! q =
          if decide (q ∈ child_links g)
          then (λ x, set_max_off_time_changed x true) <$> doms !! q
          else doms !! q) ∧
    let doms2 := <[pd := genpd_reset g]> doms1 in
    let sb := subdomain_budgets doms2 (parent_links g) in
    let db := device_budgets devs (dev_list g) in
    ∃ doms3 s ok m,
      find_power_down_state NO_CONSTRAINT_NS devs doms2 pd
        (uint_pred (state_count g)) = Some doms3 ∧
      default_power_down_ok NO_CONSTRAINT_NS devs doms pd
      = Some (ok, <[pd := genpd_recomputed g s ok m]> doms1) ∧
      (s < state_count g)%nat ∧
      ((ok = true ∧
        ∃ st c,
          states g !! s = Some st ∧
          state_check NO_CONSTRAINT_NS sb db st = Some c ∧
          (∀ s' st', (s < s' < state_count g)%nat →
                     states g !! s' = Some st' →
                     state_check NO_CONSTRAINT_NS sb db st' = None) ∧
          m = if c <? 0 then -1 else s64_sub c (power_on_latency_ns st)) ∨
       (ok = false ∧ s = 0%nat ∧ m = -1 ∧
        ∀ s' st', (s' < state_count g)%nat →
                  states g !! s' = Some st' →
                  state_check NO_CONSTRAINT_NS sb db st' = None)).
Proof.
  intros Hwf Hg Hch.
  destruct Hwf as (Hparents & Hsub & Hdev & Hcount).
  destruct (invalidate_parents_spec _ _ Hparents) as (doms1 & Hinv & Hlook).
  exists doms1. split; [done|]. split; [done|]. intros doms2 sb db.
  assert (∃ g1, doms1 !! pd = Some g1 ∧ genpd_reset g1 = genpd_reset g)
    as (g1 & Hg1 & Hreset).
  { rewrite Hlook, Hg. destruct (decide _); eexists; split; done. }
  assert (Hwf2 : wf_genpd devs doms2 (genpd_reset g)).
  { repeat split; simpl; try done; try lia.
    - eapply Forall_impl; [exact Hparents|]. intros q [x Hq].
      apply lookup_insert_is_Some'. right. rewrite Hlook, Hq.
      by destruct (decide _).
    - eapply Forall_impl; [exact Hsub|]. intros q [x Hq].
      apply lookup_insert_is_Some'. right. rewrite Hlook, Hq.
      by destruct (decide _). }
  assert (Hpred : uint_pred (state_count g) = (state_count g - 1)%nat).
  { destruct (state_count g); simpl; lia. }
  destruct (find_power_down_state_spec devs pd sb db
              (uint_pred (state_count g)) doms2 (genpd_reset g))
    as (g' & Hfind & Hout); try done.
  { by apply lookup_insert_eq. }
  { simpl. lia. }
  rewrite (default_power_down_ok_unfold _ _ doms1 _ g g1) by done.
  fold doms2. rewrite Hfind. simpl. rewrite lookup_insert_eq. simpl.
  destruct Hout as [(s & st & c & Hs & Hst & Hc & Hdeeper & ->)|[Hnone ->]].
  - eexists _, s, true,
      (if c <? 0 then -1 else s64_sub c (power_on_latency_ns st)).
    split; [reflexivity|].
    split; [unfold doms2; rewrite !insert_insert_eq; reflexivity|].
    split; [lia|].
    left. split; [done|]. exists st, c. repeat split; try done.
    intros s' st' Hs' Hst'. apply (Hdeeper s' st'); [lia|done].
  - eexists _, 0%nat, false, (-1).
    split; [reflexivity|].
    split; [unfold doms2; rewrite !insert_insert_eq; reflexivity|].
    split; [lia|].
    right. repeat split; try done.
    intros s' st' Hs' Hst'. apply (Hnone s' st'); [lia|done].
Qed.

Lemma state_check_accepts sb db st :
  let round_trip_ns := power_off_latency_ns st + power_on_latency_ns st in
  s64_range round_trip_ns →
  Forall (subdomain_admits round_trip_ns) sb →
  Forall (device_admits NO_CONSTRAINT_NS round_trip_ns) db →
  state_check NO_CONSTRAINT_NS sb db st
  = Some (foldl min_off_step (-1)
            (filter (λ t, 0 <= t) sb ++
             filter (λ t, t ≠ NO_CONSTRAINT_NS) db)).
Proof.
  intros rt Hrange Hsb Hdb. unfold state_check.
  rewrite s64_add_exact by done. fold rt.
  rewrite (scan_budgets_pass (λ t, t <? 0) (λ t, t < 0)
             (λ t, Z.ltb_lt t 0) _ _ _) by done.
  simpl.
  rewrite (scan_budgets_pass (λ t, t =? NO_CONSTRAINT_NS)
             (λ t, t = NO_CONSTRAINT_NS)
             (λ t, Z.eqb_eq t NO_CONSTRAINT_NS) _ _ _) by done.
  rewrite foldl_app. do 3 f_equal. apply list_filter_iff. intros t. lia.
Qed.

Lemma state_check_Some sb db st c :
  let round_trip_ns := power_off_latency_ns st + power_on_latency_ns st in
  s64_range round_trip_ns →
  state_check NO_CONSTRAINT_NS sb db st = Some c →
  Forall (subdomain_admits round_trip_ns) sb ∧
  Forall (device_admits NO_CONSTRAINT_NS round_trip_ns) db.
Proof.
  intros rt Hrange. unfold state_check.
  rewrite s64_add_exact by done. fold rt.
  destruct (scan_budgets _ rt sb _) as [m1|] eqn:H1; [simpl|done].
  intros H2. split.
  - by eapply (scan_budgets_Some (λ t, t <? 0) (λ t, t < 0)
                 (λ t, Z.ltb_lt t 0)).
  - by eapply (scan_budgets_Some (λ t, t =? NO_CONSTRAINT_NS)
                 (λ t, t = NO_CONSTRAINT_NS)
                 (λ t, Z.eqb_eq t NO_CONSTRAINT_NS)).
Qed.

(** Flagging the parents changes no [max_off_time_ns]. *)
Lemma subdomain_budgets_invalidated (doms doms1 : genpd_store)
    (flagged links : list nat) :
  (∀ q, doms1 !! q =
        if decide (q ∈ flagged)
        then (λ x, set_max_off_time_changed x true) <$> doms !! q
        else doms !! q) →
  subdomain_budgets doms1 links = subdomain_budgets doms links.
Proof.
  intros Hlook. unfold subdomain_budgets. apply list_omap_ext.
  apply Forall2_same_length_lookup_2; [done|].
  intros i c c' Hc Hc'. assert (c = c') as <- by congruence.
  rewrite Hlook. destruct (decide _); [|done]. by destruct (doms !! c).
Qed.

Lemma state_qualifies_check devs doms g s st :
  states g !! s = Some st →
  s64_range (power_off_latency_ns st + power_on_latency_ns st) →
  state_qualifies NO_CONSTRAINT_NS devs doms g s ↔
  is_Some (state_check NO_CONSTRAINT_NS
             (subdomain_budgets doms (parent_links g))
             (device_budgets devs (dev_list g)) st).
Proof.
  intros Hst Hrange. split.
  - intros (st' & Hst' & Hsb & Hdb). assert (st' = st) as -> by congruence.
    rewrite state_check_accepts by done. by eexists.
  - intros [c Hc]. exists st. split; [done|]. by eapply state_check_Some.
Qed.

Lemma recompute_budgets (doms doms1 : genpd_store) pd g :
  (∀ q, doms1 !! q =
        if decide (q ∈ child_links g)
        then (λ x, set_max_off_time_changed x true) <$> doms !! q
        else doms !! q) →
  pd ∉ parent_links g →
  subdomain_budgets (<[pd := genpd_reset g]> doms1) (parent_links g)
  = subdomain_budgets doms (parent_links g).
Proof.
  intros Hlook Hpd. rewrite subdomain_budgets_insert_fresh by done.
  eapply subdomain_budgets_invalidated. exact Hlook.
Qed.

(** C1: a recomputing [default_power_down_ok] returns a result; when it
    returns true the state it leaves in [state_idx] qualifies (every
    subdomain budget is negative, i.e. unconstrained, or strictly greater
    than the state's power-off plus power-on latency, and every member
    device's effective budget is the sentinel or strictly greater) and no
    deeper state below [state_count] qualifies; when it returns false no
    state from the deepest down to 0 qualifies and [cached_power_down_ok] is
    false.  The domain is not its own subdomain and the latency sums fit in
    an [s64]. *)
Theorem power_down_picks_deepest devs doms pd g :
  wf_genpd devs doms g →
  doms !! pd = Some g →
  max_off_time_changed g = true →
  pd ∉ parent_links g →
  (∀ s st, states g !! s = Some st →
           s64_range (power_off_latency_ns st + power_on_latency_ns st)) →
  ∃ ok doms' g',
    default_power_down_ok NO_CONSTRAINT_NS devs doms pd = Some (ok, doms') ∧
    power_down_state (simple_qos_governor NO_CONSTRAINT_NS) devs doms pd
    = Some (if ok then Some (state_idx g') else None, doms') ∧
    doms' !! pd = Some g' ∧
    cached_power_down_ok g' = ok ∧
    (state_idx g' < state_count g)%nat ∧
    (ok = true →
     state_qualifies NO_CONSTRAINT_NS devs doms g (state_idx g') ∧
     ∀ s, (state_idx g' < s < state_count g)%nat →
          ¬ state_qualifies NO_CONSTRAINT_NS devs doms g s) ∧
    (ok = false →
     ∀ s, (s < state_count g)%nat →
          ¬ state_qualifies NO_CONSTRAINT_NS devs doms g s).
Proof.
  intros Hwf Hg Hch Hpd Hrange.
  destruct (default_power_down_ok_recompute devs doms pd g Hwf Hg Hch)
    as (doms1 & Hinv & Hlook & Hrest).
  cbv zeta in Hrest. rewrite (recompute_budgets doms) in Hrest by done.
  destruct Hrest as (doms3 & s & ok & m & Hfind & Hrun & Hs & Hout).
  exists ok, (<[pd := genpd_recomputed g s ok m]> doms1),
    (genpd_recomputed g s ok m).
  split; [done|]. split.
  { unfold power_down_state. simpl. rewrite Hrun. simpl.
    destruct ok; [|done]. by rewrite lookup_insert_eq. }
  split; [by rewrite lookup_insert_eq|].
  split; [done|]. split; [done|]. simpl.
  assert (Hno : ∀ s' st',
            states g !! s' = Some st' →
            state_check NO_CONSTRAINT_NS
              (subdomain_budgets doms (parent_links g))
              (device_budgets devs (dev_list g)) st' = None →
            ¬ state_qualifies NO_CONSTRAINT_NS devs doms g s').
  { intros s' st' Hst' Hnone Hq.
    apply (state_qualifies_check _ _ _ _ st') in Hq as [c Hc]; eauto.
    congruence. }
  destruct Hout as [(-> & st & c & Hst & Hc & Hdeeper & _)|
                    (-> & -> & _ & Hnone)].
  - split; [|done]. intros _. split.
    + apply (state_qualifies_check _ _ _ _ st); eauto.
    + intros s' Hs'.
      destruct (lookup_lt_is_Some_2 (states g) s') as [st' Hst'].
      { destruct Hwf as (_ & _ & _ & Hcount). lia. }
      apply (Hno s' st'); eauto.
  - split; [done|]. intros _ s' Hs'.
    destruct (lookup_lt_is_Some_2 (states g) s') as [st' Hst'].
    { destruct Hwf as (_ & _ & _ & Hcount). lia. }
    apply (Hno s' st'); eauto.
Qed.

Lemma finite_budgets_nonneg devs doms g rt :
  0 <= rt →
  Forall (device_admits NO_CONSTRAINT_NS rt) (device_budgets devs (dev_list g)) →
  Forall (λ t, 0 <= t) (finite_budgets NO_CONSTRAINT_NS devs doms g).
Proof.
  intros Hrt Hdb. apply Forall_forall. intros t.
  unfold finite_budgets. rewrite elem_of_app, !list_elem_of_filter.
  intros [[Ht _]|[Hne Hin]]; [done|].
  rewrite Forall_forall in Hdb. destruct (Hdb t Hin) as [?|?]; [done|lia].
Qed.

(** C2: when a recomputing [default_power_down_ok] chooses a state, the
    [max_off_time_ns] it leaves in the domain is the minimum of the finite
    budgets of its subdomains and member devices minus the chosen state's
    power-on latency, and it is -1, the unconstrained value, when there is no
    finite budget.  The domain is not its own subdomain, the budgets are
    [s64] values, and the chosen state's latencies are non-negative with a
    sum that fits in an [s64]. *)
Theorem power_down_offered_budget devs doms pd g doms' g' st :
  wf_genpd devs doms g →
  doms !! pd = Some g →
  max_off_time_changed g = true →
  pd ∉ parent_links g →
  default_power_down_ok NO_CONSTRAINT_NS devs doms pd = Some (true, doms') →
  doms' !! pd = Some g' →
  states g !! state_idx g' = Some st →
  0 <= power_off_latency_ns st →
  0 <= power_on_latency_ns st →
  power_off_latency_ns st + power_on_latency_ns st <= S64_MAX →
  Forall s64_range (finite_budgets NO_CONSTRAINT_NS devs doms g) →
  max_off_time_ns g' =
    match min_budget (finite_budgets NO_CONSTRAINT_NS devs doms g) with
    | Some min_off_ns => min_off_ns - power_on_latency_ns st
    | None => -1
    end.
Proof.
  intros Hwf Hg Hch Hpd Hret Hg' Hst Hoff Hon Hsum Htyped.
  destruct (default_power_down_ok_recompute devs doms pd g Hwf Hg Hch)
    as (doms1 & Hinv & Hlook & Hrest).
  cbv zeta in Hrest. rewrite (recompute_budgets doms) in Hrest by done.
  destruct Hrest as (doms3 & s & ok & m & Hfind & Hrun & Hs & Hout).
  rewrite Hrun in Hret. injection Hret as -> <-.
  rewrite lookup_insert_eq in Hg'. injection Hg' as <-. simpl in *.
  destruct Hout as [(_ & st' & c & Hst' & Hc & _ & ->)|(? & _)]; [|done].
  assert (st' = st) as -> by congruence.
  assert (Hrange : s64_range (power_off_latency_ns st + power_on_latency_ns st)).
  { unfold s64_range, S64_MIN, S64_MAX in *. lia. }
  destruct (state_check_Some _ _ _ _ Hrange Hc) as [Hsb Hdb].
  rewrite state_check_accepts in Hc by done. injection Hc as <-.
  fold (finite_budgets NO_CONSTRAINT_NS devs doms g).
  assert (Hnonneg : Forall (λ t, 0 <= t)
                      (finite_budgets NO_CONSTRAINT_NS devs doms g)).
  { apply (finite_budgets_nonneg _ _ _
             (power_off_latency_ns st + power_on_latency_ns st)); [lia|done]. }
  destruct (foldl_min_off_step_start _ Hnonneg) as [-> ->].
  destruct (finite_budgets NO_CONSTRAINT_NS devs doms g) as [|b bs] eqn:Hfin;
    [done|].
  simpl. apply s64_sub_exact.
  pose proof (fold_min_in_range b bs Htyped) as Hmax.
  apply Forall_cons in Hnonneg as [Hb Hbs].
  destruct (foldl_min_off_step_nonneg b bs Hb Hbs) as [_ Hmin].
  unfold s64_range, S64_MIN, S64_MAX in *. lia.
Qed.

(** C8: a recomputing [default_power_down_ok] first sets
    [max_off_time_changed] in every parent domain, and only then runs the
    search over the candidate states, on the store so flagged.  Afterwards
    every parent other than the domain itself is its old record with the
    flag set and nothing else changed, every domain that is neither a parent
    nor the domain itself is untouched, and the domain's own flag is
    clear. *)
Theorem power_down_invalidates_parents devs doms pd g :
  wf_genpd devs doms g →
  doms !! pd = Some g →
  max_off_time_changed g = true →
  ∃ ok doms' doms1 doms3,
    default_power_down_ok NO_CONSTRAINT_NS devs doms pd = Some (ok, doms') ∧
    invalidate_parents doms (child_links g) = Some doms1 ∧
    (∀ p, p ∈ child_links g →
          ∃ gp, doms1 !! p = Some gp ∧ max_off_time_changed gp = true) ∧
    find_power_down_state NO_CONSTRAINT_NS devs
      (<[pd := genpd_reset g]> doms1) pd (uint_pred (state_count g))
    = Some doms3 ∧
    (∀ p, p ∈ child_links g → p ≠ pd →
          ∃ gp, doms !! p = Some gp ∧
                doms' !! p = Some (set_max_off_time_changed gp true)) ∧
    (∀ q, q ∉ child_links g → q ≠ pd → doms' !! q = doms !! q) ∧
    (∃ g', doms' !! pd = Some g' ∧ max_off_time_changed g' = false).
Proof.
  intros Hwf Hg Hch.
  destruct (default_power_down_ok_recompute devs doms pd g Hwf Hg Hch)
    as (doms1 & Hinv & Hlook & Hrest).
  cbv zeta in Hrest.
  destruct Hrest as (doms3 & s & ok & m & Hfind & Hrun & _).
  destruct Hwf as (Hparents & _).
  exists ok, (<[pd := genpd_recomputed g s ok m]> doms1), doms1, doms3.
  split; [done|]. split; [done|]. split; [|split; [done|]].
  - intros p Hp. rewrite Forall_forall in Hparents.
    destruct (Hparents p Hp) as [gp Hgp].
    exists (set_max_off_time_changed gp true).
    by rewrite Hlook, decide_True, Hgp.
  - split; [|split].
    + intros p Hp Hne. rewrite Forall_forall in Hparents.
      destruct (Hparents p Hp) as [gp Hgp]. exists gp. split; [done|].
      rewrite lookup_insert_ne by done.
      by rewrite Hlook, decide_True, Hgp.
    + intros q Hq Hne. rewrite lookup_insert_ne by done.
      by rewrite Hlook, decide_False.
    + eexists. by rewrite lookup_insert_eq.
Qed.

End power_down_properties.

(** ** Caching and the governor objects *)

Section governor_properties.

Variable NO_CONSTRAINT_NS : Z.

Lemma default_suspend_ok_cached devs dev d td :
  devs !! dev = Some d →
  domain_data d = Some td →
  constraint_changed td = false →
  default_suspend_ok NO_CONSTRAINT_NS devs dev
  = Some (cached_suspend_ok td, devs).
Proof.
  intros Hd Htd Hch. unfold default_suspend_ok.
  rewrite Hd. simpl. rewrite Htd. simpl. by rewrite Hch.
Qed.

Lemma default_power_down_ok_cached devs doms pd g :
  doms !! pd = Some g →
  max_off_time_changed g = false →
  default_power_down_ok NO_CONSTRAINT_NS devs doms pd
  = Some (cached_power_down_ok g,
          <[pd := set_state_idx g
                    (uint_of_bool (cached_power_down_state_idx g))]> doms).
Proof.
  intros Hg Hch. unfold default_power_down_ok.
  rewrite Hg. simpl. by rewrite Hch.
Qed.

Lemma device_for_each_child_total devs kids data :
  Forall (λ k, is_Some (devs !! k)) kids →
  is_Some (device_for_each_child devs kids data dev_update_qos_constraint).
Proof.
  intros HF. revert data. induction HF as [|k kids [kd Hk] _ IH]; intros data.
  - by eexists.
  - simpl. rewrite (dev_update_qos_constraint_min _ _ kd) by done. apply IH.
Qed.

(** The suspend evaluator returns on every well-formed device. *)
Lemma default_suspend_ok_total devs dev d :
  devs !! dev = Some d →
  wf_device devs d →
  is_Some (default_suspend_ok NO_CONSTRAINT_NS devs dev).
Proof.
  intros Hd [[td Htd] Hkids].
  destruct (constraint_changed td) eqn:Hch.
  - rewrite (default_suspend_ok_recompute _ _ _ d td) by done. cbv zeta.
    destruct (_ =? 0); [by eexists|].
    rewrite folded_constraint_ns_set_td.
    assert (is_Some (folded_constraint_ns (suspend_reset devs dev d td) d))
      as [c ->].
    { unfold folded_constraint_ns.
      destruct (ignore_children d); [by eexists|].
      apply device_for_each_child_total.
      eapply Forall_impl; [by apply Hkids|]. intros k Hk.
      apply lookup_insert_is_Some'. by right. }
    simpl. repeat case_match; by eexists.
  - rewrite (default_suspend_ok_cached _ _ d td) by done. by eexists.
Qed.

(** C7: a second call of [default_power_down_ok] does not always repeat the
    first.  The evaluator stores the chosen state in
    [cached_power_down_state_idx], which is a [bool], and the cache hit
    copies it back into [state_idx]; so a chosen state of 2 or more comes
    back as 1.  On a domain with three states and one member device with a
    budget of 5000 ns, a first call chooses state 2 and leaves the dirty
    flag clear; a second call right after it, with no flag set in between,
    reports state 1. *)
Theorem power_down_cache_truncates_state :
  let gov := simple_qos_governor example_no_constraint_ns in
  let g1 := genpd_recomputed three_state_genpd 2 true 4000 in
  power_down_state gov (scenario_devs 5000) three_state_doms 0
  = Some (Some 2%nat, {[ 0%nat := g1 ]}) ∧
  max_off_time_changed g1 = false ∧
  power_down_state gov (scenario_devs 5000) {[ 0%nat := g1 ]} 0
  = Some (Some 1%nat, {[ 0%nat := set_state_idx g1 1 ]}).
Proof. repeat split. Qed.

(** C9: under the always-on governor the power-down evaluator answers "stay
    powered" for every domain and every store, without reading or writing
    anything, while its suspend evaluator is the very function the
    QoS-driven governor uses, [default_suspend_ok]. *)
Theorem always_on_governor devs doms pd :
  power_down_ok (pm_domain_always_on_gov NO_CONSTRAINT_NS) devs doms pd
  = Some (false, doms) ∧
  power_down_state (pm_domain_always_on_gov NO_CONSTRAINT_NS) devs doms pd
  = Some (None, doms) ∧
  suspend_ok (pm_domain_always_on_gov NO_CONSTRAINT_NS)
  = suspend_ok (simple_qos_governor NO_CONSTRAINT_NS) ∧
  suspend_ok (pm_domain_always_on_gov NO_CONSTRAINT_NS)
  = default_suspend_ok NO_CONSTRAINT_NS.
Proof. repeat split. Qed.

End governor_properties.

(** ** The properties at work on the example configurations *)

(** The spec's scenarios, run on the model: a budget of 500 ns admits the
    deeper state 1 (round trip 200 ns) and leaves 400 ns for the parent; 150
    ns falls back to state 0 (round trip 20 ns) and leaves 140 ns; 15 ns
    admits no state. *)
Example scenario_deepest_state_preference :
  scenario_result 500 = Some (Some 1%nat, Some 400).
Proof. vm_compute. reflexivity. Qed.

Example scenario_fallback_on_insufficiency :
  scenario_result 150 = Some (Some 0%nat, Some 140).
Proof. vm_compute. reflexivity. Qed.

Example scenario_unreachable_power_down :
  scenario_result 15 = Some (None, None).
Proof. vm_compute. reflexivity. Qed.

Example scenario_unconstrained_device :
  scenario_result example_no_constraint_ns = Some (Some 1%nat, Some (-1)).
Proof. vm_compute. reflexivity. Qed.

(** Device 0 with a constraint of 0 us and three children: refused,
    reset store. *)
Lemma suspend_zero_constraint_veto_witness :
  ∃ devs',
    default_suspend_ok example_no_constraint_ns
      (example_devs 0 false [1; 2; 3]%nat) 0 = Some (false, devs') ∧
    devs' = suspend_reset (example_devs 0 false [1; 2; 3]%nat) 0
              (example_dev 0 false [1; 2; 3]%nat) (example_td 77 true) ∧
    ∃ td', dev_td devs' 0 = Some td' ∧
           effective_constraint_ns td' = 0 ∧
           cached_suspend_ok td' = false.
Proof.
  apply (suspend_zero_constraint_veto example_no_constraint_ns
           (example_devs 0 false [1; 2; 3]%nat) 0%nat
           (example_dev 0 false [1; 2; 3]%nat) (example_td 77 true));
    reflexivity.
Defined.

(** Device 0 with no constraint of its own and the unconstrained child
    3: the sentinel is stored and the device may suspend. *)
Lemma suspend_unconstrained_propagates_witness :
  ∃ devs' td',
    default_suspend_ok example_no_constraint_ns
      (example_devs S32_MAX false [3]%nat) 0 = Some (true, devs') ∧
    dev_td devs' 0 = Some td' ∧
    effective_constraint_ns td' = example_no_constraint_ns ∧
    cached_suspend_ok td' = true ∧
    constraint_changed td' = false.
Proof.
  apply (suspend_unconstrained_propagates example_no_constraint_ns
           (example_devs S32_MAX false [3]%nat) 0%nat
           (example_dev S32_MAX false [3]%nat) (example_td 77 true)).
  - discriminate.
  - reflexivity.
  - reflexivity.
  - reflexivity.
  - reflexivity.
  - intros _. constructor; [|constructor].
    eexists. split; reflexivity.
Defined.

(** Device 0 with 5 us: the walk ends at 3000 ns, 500 ns remain after
    the latencies of 2500 ns, so it may suspend.  With 2 us the walk
    ends at 2000 ns, nothing remains, and the refusal leaves the reset
    values. *)
Lemma suspend_finite_constraint_witness :
  (∃ r devs' td',
     default_suspend_ok example_no_constraint_ns
       (example_devs 5 false [1; 2; 3]%nat) 0 = Some (r, devs') ∧
     (r = true ↔ 0 < 3000 - (1000 + 1500)) ∧
     dev_td devs' 0 = Some td' ∧
     (r = true →
      effective_constraint_ns td' = 3000 - (1000 + 1500) ∧
      cached_suspend_ok td' = true)) ∧
  (default_suspend_ok example_no_constraint_ns
     (example_devs 2 false [1; 2; 3]%nat) 0
   = Some (false,
           suspend_reset (example_devs 2 false [1; 2; 3]%nat) 0
             (example_dev 2 false [1; 2; 3]%nat) (example_td 77 true)) ∧
   ∃ td', dev_td (suspend_reset (example_devs 2 false [1; 2; 3]%nat) 0
                    (example_dev 2 false [1; 2; 3]%nat) (example_td 77 true))
            0 = Some td' ∧
          effective_constraint_ns td' = 0 ∧
          cached_suspend_ok td' = false).
Proof.
  split.
  - apply (proj1 (suspend_finite_constraint example_no_constraint_ns
                    (example_devs 5 false [1; 2; 3]%nat) 0%nat
                    (example_dev 5 false [1; 2; 3]%nat) (example_td 77 true)
                    eq_refl eq_refl eq_refl) 3000).
    + discriminate.
    + reflexivity.
    + discriminate.
    + discriminate.
    + s64_in_range.
  - split; [reflexivity|].
    apply (proj2 (suspend_finite_constraint example_no_constraint_ns
                    (example_devs 2 false [1; 2; 3]%nat) 0%nat
                    (example_dev 2 false [1; 2; 3]%nat) (example_td 77 true)
                    eq_refl eq_refl eq_refl)).
    reflexivity.
Defined.

(** Device 0 with 5 us folds in 3000 ns (child 1, outside any domain),
    4000 ns (child 2, in a domain) and the sentinel (child 3), which can
    be left out. *)
Lemma child_walk_folds_minimum_witness :
  default_suspend_ok example_no_constraint_ns
    (example_devs 5 false [1; 2; 3]%nat) 0
  = Some (suspend_after_walk example_no_constraint_ns
            (example_devs 5 false [1; 2; 3]%nat) 0
            (example_dev 5 false [1; 2; 3]%nat) (example_td 77 true)
            (fold_min (5 * 1000)
               [3 * 1000; 4000; example_no_constraint_ns])) ∧
  default_suspend_ok example_no_constraint_ns
    (example_devs 5 false [1; 2; 3]%nat) 0
  = Some (suspend_after_walk example_no_constraint_ns
            (example_devs 5 false [1; 2; 3]%nat) 0
            (example_dev 5 false [1; 2; 3]%nat) (example_td 77 true)
            (fold_min (5 * 1000) [3 * 1000; 4000])).
Proof.
  destruct (child_walk_folds_minimum example_no_constraint_ns
              (example_devs 5 false [1; 2; 3]%nat) 0%nat
              (example_dev 5 false [1; 2; 3]%nat) (example_td 77 true)
              [3 * 1000; 4000; example_no_constraint_ns])
    as [Hmin Hdrop].
  - reflexivity.
  - reflexivity.
  - reflexivity.
  - reflexivity.
  - discriminate.
  - s64_in_range.
  - repeat constructor;
      (eexists; split; [reflexivity|]; split; [|reflexivity]);
      intros _; s64_in_range.
  - split; [exact Hmin|]. apply Hdrop. discriminate.
Defined.

(** Device 0 with [ignore_children] set, once with children 1, 2, 3 and
    once with a child handle that does not resolve: same decision, same
    budget. *)
Lemma suspend_ignore_children_witness :
  ∃ r budget devs1' devs2' td1' td2',
    default_suspend_ok example_no_constraint_ns
      (example_devs 5 true [1; 2; 3]%nat) 0 = Some (r, devs1') ∧
    default_suspend_ok example_no_constraint_ns
      (example_devs 5 true [42]%nat) 0 = Some (r, devs2') ∧
    dev_td devs1' 0 = Some td1' ∧
    dev_td devs2' 0 = Some td2' ∧
    effective_constraint_ns td1' = budget ∧
    effective_constraint_ns td2' = budget ∧
    cached_suspend_ok td1' = r ∧
    cached_suspend_ok td2' = r.
Proof.
  apply (suspend_ignore_children example_no_constraint_ns
           (example_devs 5 true [1; 2; 3]%nat) (example_devs 5 true [42]%nat)
           0%nat 0%nat
           (example_dev 5 true [1; 2; 3]%nat) (example_dev 5 true [42]%nat)
           (example_td 77 true) (example_td 77 true));
    reflexivity.
Defined.

(** The example domain is well formed. *)
Lemma example_genpd_wf :
  wf_genpd (example_devs 5 false [1; 2; 3]%nat) example_doms example_genpd.
Proof. example_wf. Defined.

(** The example domain is not its own subdomain. *)
Lemma example_not_own_subdomain : 5%nat ∉ parent_links example_genpd.
Proof. intros [?|?%not_elem_of_nil]%elem_of_cons; [discriminate|done]. Defined.

(** The round trips of the example domain fit in an [s64]. *)
Lemma example_latencies_fit s st :
  states example_genpd !! s = Some st →
  s64_range (power_off_latency_ns st + power_on_latency_ns st).
Proof.
  destruct s as [|[|s]]; intros [= <-]; s64_in_range.
Defined.

(** Domain 5: state 1 (round trip 200 ns) is refused by subdomain 6 (150
    ns), state 0 (20 ns) is accepted. *)
Lemma power_down_picks_deepest_witness :
  ∃ ok doms' g',
    default_power_down_ok example_no_constraint_ns
      (example_devs 5 false [1; 2; 3]%nat) example_doms 5 = Some (ok, doms') ∧
    power_down_state (simple_qos_governor example_no_constraint_ns)
      (example_devs 5 false [1; 2; 3]%nat) example_doms 5
    = Some (if ok then Some (state_idx g') else None, doms') ∧
    doms' !! 5%nat = Some g' ∧
    cached_power_down_ok g' = ok ∧
    (state_idx g' < state_count example_genpd)%nat ∧
    (ok = true →
     state_qualifies example_no_constraint_ns
       (example_devs 5 false [1; 2; 3]%nat) example_doms example_genpd
       (state_idx g') ∧
     ∀ s, (state_idx g' < s < state_count example_genpd)%nat →
          ¬ state_qualifies example_no_constraint_ns
              (example_devs 5 false [1; 2; 3]%nat) example_doms
              example_genpd s) ∧
    (ok = false →
     ∀ s, (s < state_count example_genpd)%nat →
          ¬ state_qualifies example_no_constraint_ns
              (example_devs 5 false [1; 2; 3]%nat) example_doms
              example_genpd s).
Proof.
  apply (power_down_picks_deepest example_no_constraint_ns
           (example_devs 5 false [1; 2; 3]%nat) example_doms 5%nat
           example_genpd).
  - exact example_genpd_wf.
  - reflexivity.
  - reflexivity.
  - exact example_not_own_subdomain.
  - exact example_latencies_fit.
Defined.

(** Domain 5 chooses state 0 and offers min(150, 4000) - 10 = 140 ns. *)
Lemma power_down_offered_budget_witness :
  max_off_time_ns
    (genpd_recomputed example_genpd 0 true 140) =
    match min_budget (finite_budgets example_no_constraint_ns
                        (example_devs 5 false [1; 2; 3]%nat) example_doms
                        example_genpd) with
    | Some min_off_ns => min_off_ns - 10
    | None => -1
    end.
Proof.
  apply (power_down_offered_budget example_no_constraint_ns
           (example_devs 5 false [1; 2; 3]%nat) example_doms 5%nat
           example_genpd
           (<[5%nat := genpd_recomputed example_genpd 0 true 140]>
              (<[7%nat := set_max_off_time_changed
                            (example_neighbour 33 [5%nat] []) true]>
                 example_doms))
           (genpd_recomputed example_genpd 0 true 140)
           {| power_off_latency_ns := 10; power_on_latency_ns := 10 |}).
  - exact example_genpd_wf.
  - reflexivity.
  - reflexivity.
  - exact example_not_own_subdomain.
  - vm_compute. reflexivity.
  - reflexivity.
  - reflexivity.
  - discriminate.
  - discriminate.
  - discriminate.
  - repeat constructor; discriminate.
Defined.

(** Domain 5 flags its parent 7, leaves subdomain 6 alone and clears its
    own flag. *)
Lemma power_down_invalidates_parents_witness :
  ∃ ok doms' doms1 doms3,
    default_power_down_ok example_no_constraint_ns
      (example_devs 5 false [1; 2; 3]%nat) example_doms 5 = Some (ok, doms') ∧
    invalidate_parents example_doms (child_links example_genpd)
    = Some doms1 ∧
    (∀ p, p ∈ child_links example_genpd →
          ∃ gp, doms1 !! p = Some gp ∧ max_off_time_changed gp = true) ∧
    find_power_down_state example_no_constraint_ns
      (example_devs 5 false [1; 2; 3]%nat)
      (<[5%nat := genpd_reset example_genpd]> doms1) 5
      (uint_pred (state_count example_genpd))
    = Some doms3 ∧
    (∀ p, p ∈ child_links example_genpd → p ≠ 5%nat →
          ∃ gp, example_doms !! p = Some gp ∧
                doms' !! p = Some (set_max_off_time_changed gp true)) ∧
    (∀ q, q ∉ child_links example_genpd → q ≠ 5%nat →
          doms' !! q = example_doms !! q) ∧
    (∃ g', doms' !! 5%nat = Some g' ∧ max_off_time_changed g' = false).
Proof.
  apply (power_down_invalidates_parents example_no_constraint_ns
           (example_devs 5 false [1; 2; 3]%nat) example_doms 5%nat
           example_genpd).
  - exact example_genpd_wf.
  - reflexivity.
  - reflexivity.
Defined.

(** * Further properties *)

(** ** Device suspend evaluator *)

Section more_suspend_properties.

Variable NO_CONSTRAINT_NS : Z.

Lemma dev_update_qos_constraint_comm devs x y data :
  (data1 ← dev_update_qos_constraint devs x data;
   dev_update_qos_constraint devs y data1)
  = (data1 ← dev_update_qos_constraint devs y data;
     dev_update_qos_constraint devs x data1).
Proof.
  destruct (devs !! x) as [dx|] eqn:Hx, (devs !! y) as [dy|] eqn:Hy.
  - rewrite (dev_update_qos_constraint_min devs x dx),
      (dev_update_qos_constraint_min devs y dy) by done. simpl.
    rewrite (dev_update_qos_constraint_min devs x dx),
      (dev_update_qos_constraint_min devs y dy) by done.
    f_equal. lia.
  - rewrite (dev_update_qos_constraint_min devs x dx) by done. simpl.
    unfold dev_update_qos_constraint. by rewrite Hy.
  - rewrite (dev_update_qos_constraint_min devs y dy) by done. simpl.
    unfold dev_update_qos_constraint. by rewrite Hx.
  - unfold dev_update_qos_constraint. by rewrite Hx, Hy.
Qed.

(** The child walk does not depend on the order in which
    [device_for_each_child] visits the children. *)
Lemma child_walk_order_irrelevant devs (kids kids' : list nat) data :
  kids ≡ₚ kids' →
  device_for_each_child devs kids data dev_update_qos_constraint
  = device_for_each_child devs kids' data dev_update_qos_constraint.
Proof.
  intros Hperm. revert data.
  induction Hperm as [|k l l' _ IH|x y l|l l' l'' _ IH1 _ IH2]; intros data.
  - done.
  - simpl. destruct (dev_update_qos_constraint devs k data); [simpl|done].
    apply IH.
  - simpl.
    pose proof (dev_update_qos_constraint_comm devs y x data) as Hc.
    destruct (dev_update_qos_constraint devs y data) as [dy|],
      (dev_update_qos_constraint devs x data) as [dx|]; simpl in *.
    + destruct (dev_update_qos_constraint devs x dy),
        (dev_update_qos_constraint devs y dx); simpl; congruence.
    + by destruct (dev_update_qos_constraint devs x dy).
    + by destruct (dev_update_qos_constraint devs y dx).
    + done.
  - by rewrite IH1.
Qed.


(** Every way a recomputing call can end, with the sign of a granted
    budget. *)
Lemma default_suspend_ok_outcome_signed devs dev d td r devs' :
  devs !! dev = Some d →
  domain_data d = Some td →
  constraint_changed td = true →
  default_suspend_ok NO_CONSTRAINT_NS devs dev = Some (r, devs') →
  (r = false ∧ devs' = suspend_reset devs dev d td) ∨
  (r = true ∧ ∃ budget,
     (budget = NO_CONSTRAINT_NS ∨ 0 < budget) ∧
     devs' = <[dev := set_td d (td_grant (td_reset td) budget)]> devs).
Proof.
  intros Hd Htd Hch.
  rewrite (default_suspend_ok_recompute _ _ _ d td) by done.
  cbv zeta. destruct (_ =? 0); [intros [= <- <-]; by left|].
  destruct (folded_constraint_ns _ _) as [c|]; [simpl|done].
  rewrite !suspend_grant_store.
  destruct (c =? NO_CONSTRAINT_NS);
    [intros [= <- <-]; right; split; [done|]; eexists; split; [by left|done]|].
  destruct (c =? 0); [intros [= <- <-]; by left|].
  destruct (Z.leb_spec (s64_sub c (s64_add (suspend_latency_ns td)
                                     (resume_latency_ns td))) 0);
    intros [= <- <-]; [by left|].
  right. split; [done|]. eexists. split; [by right|done].
Qed.

Lemma set_td_eta d td : domain_data d = Some td → set_td d td = d.
Proof. destruct d. simpl. by intros ->. Qed.

(** X1: [default_suspend_ok] returns on every well-formed device, and
    whichever path it takes it writes nothing but the timing data of the
    device it evaluates: every other device is untouched, the device keeps
    its constraint, its children and its flags, the timing data keeps its
    suspend and resume latencies, the dirty flag is clear afterwards and
    [cached_suspend_ok] holds the value returned. *)
Theorem suspend_ok_frame devs dev d :
  devs !! dev = Some d →
  wf_device devs d →
  ∃ r devs' td td',
    default_suspend_ok NO_CONSTRAINT_NS devs dev = Some (r, devs') ∧
    domain_data d = Some td ∧
    devs' !! dev = Some (set_td d td') ∧
    suspend_latency_ns td' = suspend_latency_ns td ∧
    resume_latency_ns td' = resume_latency_ns td ∧
    constraint_changed td' = false ∧
    cached_suspend_ok td' = r ∧
    ∀ k, k ≠ dev → devs' !! k = devs !! k.
Proof.
  intros Hd Hwf.
  destruct (default_suspend_ok_total NO_CONSTRAINT_NS devs dev d Hd Hwf)
    as [[r devs'] Hrun].
  destruct Hwf as [[td Htd] _].
  destruct (constraint_changed td) eqn:Hch.
  - destruct (default_suspend_ok_outcome_signed _ _ _ _ _ _ Hd Htd Hch Hrun)
      as [[-> ->]|[-> (budget & _ & ->)]].
    + exists false, (suspend_reset devs dev d td), td, (td_reset td).
      unfold suspend_reset. rewrite lookup_insert_eq.
      repeat split; try done. intros k Hk. by rewrite lookup_insert_ne.
    + eexists true, _, td, (td_grant (td_reset td) budget).
      rewrite lookup_insert_eq.
      repeat split; try done. intros k Hk. by rewrite lookup_insert_ne.
  - rewrite (default_suspend_ok_cached _ _ _ d td) in Hrun by done.
    injection Hrun as <- <-.
    exists (cached_suspend_ok td), devs, td, td.
    rewrite (set_td_eta d td) by done.
    repeat split; try done.
    by apply (default_suspend_ok_cached _ _ _ d td).
Qed.

(** X2: after a recomputing [default_suspend_ok] the stored budget tells
    the verdict: a granted device holds the sentinel or a strictly
    positive budget, a refused one holds 0. This needs no bound on the
    latencies: the code tests the wrapped difference itself, so
    [__default_power_down_ok] may rely on "zero means no suspend at all". *)
Theorem suspend_granted_budget_positive devs dev d td :
  devs !! dev = Some d →
  domain_data d = Some td →
  constraint_changed td = true →
  wf_device devs d →
  ∃ r devs' td',
    default_suspend_ok NO_CONSTRAINT_NS devs dev = Some (r, devs') ∧
    dev_td devs' dev = Some td' ∧
    (r = true →
     effective_constraint_ns td' = NO_CONSTRAINT_NS ∨
     0 < effective_constraint_ns td') ∧
    (r = false → effective_constraint_ns td' = 0).
Proof.
  intros Hd Htd Hch Hwf.
  destruct (default_suspend_ok_total NO_CONSTRAINT_NS devs dev d Hd Hwf)
    as [[r devs'] Hrun].
  destruct (default_suspend_ok_outcome_signed _ _ _ _ _ _ Hd Htd Hch Hrun)
    as [[-> ->]|[-> (budget & Hsign & ->)]].
  - exists false, (suspend_reset devs dev d td), (td_reset td).
    rewrite dev_td_suspend_reset. by repeat split.
  - eexists true, _, (td_grant (td_reset td) budget).
    unfold dev_td. rewrite lookup_insert_eq. by repeat split.
Qed.

(** X3: a recomputing [default_suspend_ok] reads neither the old
    [effective_constraint_ns] nor the old [cached_suspend_ok] of the
    device: with any other values in these two fields it returns the same
    result and leaves the same store. *)
Theorem suspend_ignores_stale_cache devs dev d td td2 :
  devs !! dev = Some d →
  domain_data d = Some td →
  constraint_changed td = true →
  constraint_changed td2 = true →
  suspend_latency_ns td2 = suspend_latency_ns td →
  resume_latency_ns td2 = resume_latency_ns td →
  default_suspend_ok NO_CONSTRAINT_NS (<[dev := set_td d td2]> devs) dev
  = default_suspend_ok NO_CONSTRAINT_NS devs dev.
Proof.
  intros Hd Htd Hch Hch2 Hs Hr.
  rewrite (default_suspend_ok_recompute _ devs dev d td) by done.
  rewrite (default_suspend_ok_recompute _ (<[dev := set_td d td2]> devs) dev
             (set_td d td2) td2);
    [|by rewrite lookup_insert_eq|done|done].
  assert (td_reset td2 = td_reset td) as Hreset.
  { unfold td_reset. by rewrite Hs, Hr. }
  assert (suspend_reset (<[dev := set_td d td2]> devs) dev (set_td d td2) td2
          = suspend_reset devs dev d td) as ->.
  { unfold suspend_reset. by rewrite insert_insert_eq, Hreset. }
  cbv zeta. rewrite !folded_constraint_ns_set_td, Hreset, Hs, Hr.
  reflexivity.
Qed.


Lemma dev_update_qos_constraint_alt devs k data :
  dev_update_qos_constraint devs k data
  = (λ c, data `min` c) <$> (child_constraint_ns <$> devs !! k).
Proof.
  destruct (devs !! k) as [kd|] eqn:Hk.
  - by rewrite (dev_update_qos_constraint_min devs k kd).
  - unfold dev_update_qos_constraint. by rewrite Hk.
Qed.

(** The walk reads nothing of a child but the value it contributes. *)
Lemma device_for_each_child_ext (devs1 devs2 : dev_store) kids data :
  (∀ k, k ∈ kids →
        child_constraint_ns <$> devs1 !! k
        = child_constraint_ns <$> devs2 !! k) →
  device_for_each_child devs1 kids data dev_update_qos_constraint
  = device_for_each_child devs2 kids data dev_update_qos_constraint.
Proof.
  revert data. induction kids as [|k kids IH]; intros data Hext; [done|].
  simpl. rewrite !dev_update_qos_constraint_alt, Hext
    by (apply elem_of_cons; by left).
  destruct (child_constraint_ns <$> devs2 !! k); [simpl|done].
  apply IH. intros k' Hk'. apply Hext, elem_of_cons. by right.
Qed.

(** Two evaluations of one device agree as soon as the timing data, the
    device's own reading and the outcome of the child walk agree. *)
Lemma suspend_verdict_congruence devs1 devs2 dev d1 d2 td :
  devs1 !! dev = Some d1 →
  devs2 !! dev = Some d2 →
  domain_data d1 = Some td →
  domain_data d2 = Some td →
  __dev_pm_qos_resume_latency d1 = __dev_pm_qos_resume_latency d2 →
  (constraint_changed td = true →
   folded_constraint_ns (suspend_reset devs1 dev d1 td) d1
   = folded_constraint_ns (suspend_reset devs2 dev d2 td) d2) →
  suspend_verdict dev (default_suspend_ok NO_CONSTRAINT_NS devs1 dev)
  = suspend_verdict dev (default_suspend_ok NO_CONSTRAINT_NS devs2 dev).
Proof.
  intros Hd1 Hd2 Htd1 Htd2 Hq Hfold.
  destruct (constraint_changed td) eqn:Hch.
  2: { rewrite (default_suspend_ok_cached _ devs1 dev d1 td) by done.
       rewrite (default_suspend_ok_cached _ devs2 dev d2 td) by done.
       unfold suspend_verdict, dev_td. simpl.
       rewrite Hd1, Hd2. simpl. by rewrite Htd1, Htd2. }
  rewrite (default_suspend_ok_recompute _ devs1 dev d1 td) by done.
  rewrite (default_suspend_ok_recompute _ devs2 dev d2 td) by done.
  cbv zeta. rewrite !folded_constraint_ns_set_td, !suspend_grant_store.
  rewrite Hfold, Hq by done. clear Hfold.
  destruct (_ =? 0).
  { unfold suspend_verdict. simpl. by rewrite !dev_td_suspend_reset. }
  destruct (folded_constraint_ns _ _) as [c|]; [simpl|reflexivity].
  assert (Hgrant : ∀ (m : dev_store) x b,
            dev_td (<[dev := set_td x (td_grant (td_reset td) b)]> m) dev
            = Some (td_grant (td_reset td) b)).
  { intros. unfold dev_td. by rewrite lookup_insert_eq. }
  unfold suspend_verdict.
  repeat case_match; simplify_eq/=;
    by rewrite ?dev_td_suspend_reset, ?Hgrant.
Qed.

(** X4: the verdict of [default_suspend_ok] and the timing data it leaves
    do not depend on the order in which [device_for_each_child] hands over
    the children. *)
Theorem suspend_child_order_irrelevant devs dev d kids' :
  devs !! dev = Some d →
  children d ≡ₚ kids' →
  suspend_verdict dev
    (default_suspend_ok NO_CONSTRAINT_NS
       (<[dev := set_children d kids']> devs) dev)
  = suspend_verdict dev (default_suspend_ok NO_CONSTRAINT_NS devs dev).
Proof.
  intros Hd Hperm.
  destruct (domain_data d) as [td|] eqn:Htd.
  2: { unfold default_suspend_ok. rewrite lookup_insert_eq, Hd. simpl.
       by rewrite Htd. }
  apply (suspend_verdict_congruence _ _ dev (set_children d kids') d td);
    [by rewrite lookup_insert_eq|done|done|done|done|].
  intros _. unfold folded_constraint_ns. simpl.
  change (__dev_pm_qos_resume_latency (set_children d kids'))
    with (__dev_pm_qos_resume_latency d).
  destruct (ignore_children d); [done|]. simpl.
  rewrite <- (child_walk_order_irrelevant _ _ _ _ Hperm).
  apply device_for_each_child_ext. intros k _. unfold suspend_reset.
  rewrite insert_insert_eq, !lookup_insert. by case_decide.
Qed.

(** X5: [default_suspend_ok] reads nothing of a device-tree child but the
    value the child contributes: two stores in which the children
    contribute the same values give the same verdict and the same timing
    data. In particular the dirty flag of a child in a domain is not
    consulted; its stored budget is taken as it is. *)
Theorem suspend_reads_only_contributions devs devs2 dev d :
  devs !! dev = Some d →
  devs2 !! dev = Some d →
  (∀ k, k ∈ children d → k ≠ dev →
        child_constraint_ns <$> devs2 !! k
        = child_constraint_ns <$> devs !! k) →
  suspend_verdict dev (default_suspend_ok NO_CONSTRAINT_NS devs2 dev)
  = suspend_verdict dev (default_suspend_ok NO_CONSTRAINT_NS devs dev).
Proof.
  intros Hd Hd2 Hext.
  destruct (domain_data d) as [td|] eqn:Htd.
  2: { unfold default_suspend_ok. rewrite Hd, Hd2. simpl. by rewrite Htd. }
  apply (suspend_verdict_congruence _ _ dev d d td); try done.
  intros _. unfold folded_constraint_ns.
  destruct (ignore_children d); [done|]. simpl.
  apply device_for_each_child_ext. intros k Hk. unfold suspend_reset.
  rewrite !lookup_insert. case_decide; [done|]. apply Hext; [done|].
  congruence.
Qed.

Lemma fold_min_zero init contribs :
  0 <= init → Forall (λ c, 0 <= c) contribs → 0 ∈ contribs →
  fold_min init contribs = 0.
Proof.
  intros Hinit HF. revert init Hinit.
  induction HF as [|c cs Hc HF IH]; intros init Hinit Hin.
  - by apply not_elem_of_nil in Hin.
  - unfold fold_min in *. simpl.
    apply elem_of_cons in Hin as [<-|Hin].
    + rewrite Z.min_r by lia.
      destruct (foldl_min_off_step_nonneg 0 cs) as [_ Hpos]; [lia|done|].
      pose proof (fold_min_le 0 cs). unfold fold_min in *. lia.
    + apply IH; [lia|done].
Qed.

(** X6: a child that contributes 0 (a child outside any domain whose
    constraint is 0, or a child in a domain whose budget is 0) vetoes the
    suspension: with a positive constraint of its own and no negative
    contribution, a recomputing [default_suspend_ok] returns false and
    leaves the reset values. The sentinel is distinct from 0. *)
Theorem suspend_child_zero_veto devs dev d td contribs :
  NO_CONSTRAINT_NS ≠ 0 →
  devs !! dev = Some d →
  domain_data d = Some td →
  constraint_changed td = true →
  ignore_children d = false →
  0 < s64_mul (__dev_pm_qos_resume_latency d) NSEC_PER_USEC →
  Forall2 (λ k c, ∃ kd, suspend_reset devs dev d td !! k = Some kd ∧
                        c = child_constraint_ns kd)
    (children d) contribs →
  Forall (λ c, 0 <= c) contribs →
  0 ∈ contribs →
  default_suspend_ok NO_CONSTRAINT_NS devs dev
  = Some (false, suspend_reset devs dev d td).
Proof.
  intros Hnz Hd Htd Hch Hic Hown Hkids Hpos Hzero.
  rewrite (default_suspend_ok_recompute _ devs dev d td) by done. cbv zeta.
  destruct (Z.eqb_spec (__dev_pm_qos_resume_latency d) 0) as [|Hq]; [done|].
  rewrite folded_constraint_ns_set_td. unfold folded_constraint_ns.
  rewrite Hic. simpl.
  rewrite (device_for_each_child_fold _ _ contribs) by done. simpl.
  rewrite fold_min_zero by (done || lia).
  apply Z.eqb_neq in Hnz. rewrite Z.eqb_sym in Hnz. by rewrite Hnz.
Qed.


Lemma fold_min_mono init1 init2 contribs1 contribs2 :
  init1 <= init2 →
  Forall2 (λ c1 c2, c1 <= c2) contribs1 contribs2 →
  fold_min init1 contribs1 <= fold_min init2 contribs2.
Proof.
  intros Hinit HF. revert init1 init2 Hinit.
  induction HF as [|c1 c2 cs1 cs2 Hc _ IH]; intros init1 init2 Hinit; [done|].
  unfold fold_min in *. simpl. apply IH. lia.
Qed.

Lemma fold_min_nonneg init contribs :
  0 <= init → Forall (λ c, 0 <= c) contribs → 0 <= fold_min init contribs.
Proof. intros. by apply foldl_min_off_step_nonneg. Qed.

(** X7: tightening constraints never helps: of two devices with the same
    own constraint and latencies whose children contribute pointwise
    smaller values in the first, the first gets no larger a budget, and is
    granted suspension only if the second is.  The own constraint is
    positive, latencies and contributions are non-negative, and the
    sentinel bounds the own constraint and every contribution. *)
Theorem suspend_budget_monotone
    devs1 devs2 dev1 dev2 d1 d2 td1 td2 contribs1 contribs2 :
  0 < NO_CONSTRAINT_NS <= S64_MAX →
  devs1 !! dev1 = Some d1 →
  devs2 !! dev2 = Some d2 →
  domain_data d1 = Some td1 →
  domain_data d2 = Some td2 →
  constraint_changed td1 = true →
  constraint_changed td2 = true →
  ignore_children d1 = false →
  ignore_children d2 = false →
  __dev_pm_qos_resume_latency d1 = __dev_pm_qos_resume_latency d2 →
  0 < __dev_pm_qos_resume_latency d1 <= S32_MAX →
  __dev_pm_qos_resume_latency d1 * 1000 <= NO_CONSTRAINT_NS →
  suspend_latency_ns td1 = suspend_latency_ns td2 →
  resume_latency_ns td1 = resume_latency_ns td2 →
  0 <= suspend_latency_ns td1 →
  0 <= resume_latency_ns td1 →
  suspend_latency_ns td1 + resume_latency_ns td1 <= S64_MAX →
  Forall2 (λ k c, ∃ kd, suspend_reset devs1 dev1 d1 td1 !! k = Some kd ∧
                        c = child_constraint_ns kd)
    (children d1) contribs1 →
  Forall2 (λ k c, ∃ kd, suspend_reset devs2 dev2 d2 td2 !! k = Some kd ∧
                        c = child_constraint_ns kd)
    (children d2) contribs2 →
  Forall2 (λ c1 c2, 0 <= c1 <= c2 ∧ c2 <= NO_CONSTRAINT_NS)
    contribs1 contribs2 →
  ∃ r1 r2 devs1' devs2' td1' td2',
    default_suspend_ok NO_CONSTRAINT_NS devs1 dev1 = Some (r1, devs1') ∧
    default_suspend_ok NO_CONSTRAINT_NS devs2 dev2 = Some (r2, devs2') ∧
    dev_td devs1' dev1 = Some td1' ∧
    dev_td devs2' dev2 = Some td2' ∧
    (r1 = true → r2 = true) ∧
    effective_constraint_ns td1' <= effective_constraint_ns td2'.
Proof.
  intros Hnc Hd1 Hd2 Htd1 Htd2 Hch1 Hch2 Hic1 Hic2 Hq Hqpos Hqtop
    Hs Hr Hspos Hrpos Hsum Hk1 Hk2 Hle.
  set (init := __dev_pm_qos_resume_latency d1 * 1000).
  set (c1 := fold_min init contribs1).
  set (c2 := fold_min init contribs2).
  assert (Hmul : s64_mul (__dev_pm_qos_resume_latency d1) NSEC_PER_USEC = init).
  { apply s64_mul_usec. unfold s32_range, S32_MIN, S32_MAX in *. lia. }
  assert (Hf1 : folded_constraint_ns (suspend_reset devs1 dev1 d1 td1) d1
                = Some c1).
  { unfold folded_constraint_ns. rewrite Hic1, Hmul. simpl.
    by apply device_for_each_child_fold. }
  assert (Hf2 : folded_constraint_ns (suspend_reset devs2 dev2 d2 td2) d2
                = Some c2).
  { unfold folded_constraint_ns. rewrite Hic2, <- Hq, Hmul. simpl.
    by apply device_for_each_child_fold. }
  assert (Hc12 : c1 <= c2).
  { apply fold_min_mono; [done|].
    eapply Forall2_impl; [exact Hle|]. simpl. lia. }
  assert (Hc1 : 0 <= c1).
  { apply fold_min_nonneg; [unfold init; lia|].
    apply (Forall2_Forall_l _ _ _ _ Hle). apply Forall_true. lia. }
  assert (Hc2 : c2 <= NO_CONSTRAINT_NS).
  { pose proof (fold_min_le init contribs2). unfold c2, init in *. lia. }
  assert (Hrange : ∀ c, 0 <= c <= NO_CONSTRAINT_NS →
            s64_range (c - (suspend_latency_ns td1 + resume_latency_ns td1))).
  { intros c Hc. unfold s64_range, S64_MIN, S64_MAX in *. lia. }
  rewrite (default_suspend_ok_recompute _ devs1 dev1 d1 td1) by done.
  rewrite (default_suspend_ok_recompute _ devs2 dev2 d2 td2) by done.
  cbv zeta. rewrite !folded_constraint_ns_set_td, !suspend_grant_store.
  rewrite Hf1, Hf2, <- Hq, <- Hs, <- Hr. simpl.
  rewrite !s64_sub_add_exact by (apply Hrange; lia).
  destruct (Z.eqb_spec (__dev_pm_qos_resume_latency d1) 0) as [|_]; [lia|].
  assert (Hreset : ∀ devs dev d td,
            dev_td (suspend_reset devs dev d td) dev = Some (td_reset td))
    by apply dev_td_suspend_reset.
  assert (Hgrant : ∀ (devs : dev_store) dev d td b,
            dev_td (<[dev := set_td d (td_grant (td_reset td) b)]> devs) dev
            = Some (td_grant (td_reset td) b)).
  { intros. unfold dev_td. by rewrite lookup_insert_eq. }
  destruct (Z.eqb_spec c1 NO_CONSTRAINT_NS), (Z.eqb_spec c2 NO_CONSTRAINT_NS),
    (Z.eqb_spec c1 0), (Z.eqb_spec c2 0),
    (Z.leb_spec (c1 - (suspend_latency_ns td1 + resume_latency_ns td1)) 0),
    (Z.leb_spec (c2 - (suspend_latency_ns td1 + resume_latency_ns td1)) 0);
    try lia;
    (eexists _, _, _, _, _, _;
     split; [reflexivity|]; split; [reflexivity|];
     rewrite ?Hreset, ?Hgrant;
     split; [reflexivity|]; split; [reflexivity|];
     simpl; split; [try done; try lia|lia]).
Qed.


Lemma fold_min_le_all init contribs :
  Forall (λ c, fold_min init contribs <= c) contribs.
Proof.
  revert init. induction contribs as [|c cs IH]; intros init; [done|].
  constructor.
  - pose proof (fold_min_le (init `min` c) cs).
    unfold fold_min in *. simpl. lia.
  - unfold fold_min in *. simpl. apply IH.
Qed.

(** X8: a finite budget granted by a recomputing [default_suspend_ok]
    leaves room for the device's own latencies within every constraint:
    budget plus suspend and resume latency exceeds neither the device's
    own normalised constraint nor any child's contribution. Constraints
    and latencies are non-negative. *)
Theorem suspend_budget_respects_constraints devs dev d td contribs :
  devs !! dev = Some d →
  domain_data d = Some td →
  constraint_changed td = true →
  ignore_children d = false →
  0 < __dev_pm_qos_resume_latency d <= S32_MAX →
  0 <= suspend_latency_ns td →
  0 <= resume_latency_ns td →
  suspend_latency_ns td + resume_latency_ns td <= S64_MAX →
  Forall2 (λ k c, ∃ kd, suspend_reset devs dev d td !! k = Some kd ∧
                        c = child_constraint_ns kd)
    (children d) contribs →
  Forall (λ c, 0 <= c) contribs →
  ∃ r devs' td',
    default_suspend_ok NO_CONSTRAINT_NS devs dev = Some (r, devs') ∧
    dev_td devs' dev = Some td' ∧
    (r = true →
     effective_constraint_ns td' ≠ NO_CONSTRAINT_NS →
     let need :=
       effective_constraint_ns td'
       + (suspend_latency_ns td + resume_latency_ns td) in
     need <= __dev_pm_qos_resume_latency d * 1000 ∧
     Forall (λ c, need <= c) contribs).
Proof.
  intros Hd Htd Hch Hic Hq Hs Hr Hsum Hkids Hpos.
  set (init := __dev_pm_qos_resume_latency d * 1000).
  set (c := fold_min init contribs).
  assert (Hmul : s64_mul (__dev_pm_qos_resume_latency d) NSEC_PER_USEC = init).
  { apply s64_mul_usec. unfold s32_range, S32_MIN, S32_MAX in *. lia. }
  assert (Hfold : folded_constraint_ns (suspend_reset devs dev d td) d
                  = Some c).
  { unfold folded_constraint_ns. rewrite Hic, Hmul. simpl.
    by apply device_for_each_child_fold. }
  assert (Hc0 : 0 <= c) by (apply fold_min_nonneg; [unfold init; lia|done]).
  assert (Hcinit : c <= init) by apply fold_min_le.
  assert (Hcall : Forall (λ t, c <= t) contribs) by apply fold_min_le_all.
  assert (Hrange : s64_range
                     (c - (suspend_latency_ns td + resume_latency_ns td))).
  { unfold s64_range, S64_MIN, S64_MAX, S32_MAX, init in *. lia. }
  rewrite (default_suspend_ok_recompute _ devs dev d td) by done.
  cbv zeta. rewrite folded_constraint_ns_set_td, !suspend_grant_store, Hfold.
  simpl. rewrite s64_sub_add_exact by done.
  destruct (Z.eqb_spec (__dev_pm_qos_resume_latency d) 0) as [|_]; [lia|].
  destruct (Z.eqb_spec c NO_CONSTRAINT_NS) as [Hnc|Hnc].
  { eexists _, _, _. split; [reflexivity|]. unfold dev_td.
    rewrite lookup_insert_eq. split; [reflexivity|]. simpl. done. }
  destruct (Z.eqb_spec c 0).
  { eexists _, _, _. split; [reflexivity|].
    rewrite dev_td_suspend_reset. split; [reflexivity|]. done. }
  destruct (Z.leb_spec (c - (suspend_latency_ns td + resume_latency_ns td)) 0).
  { eexists _, _, _. split; [reflexivity|].
    rewrite dev_td_suspend_reset. split; [reflexivity|]. done. }
  eexists _, _, _. split; [reflexivity|]. unfold dev_td.
  rewrite lookup_insert_eq. split; [reflexivity|]. simpl.
  intros _ _. split; [lia|].
  eapply Forall_impl; [exact Hcall|]. simpl. lia.
Qed.

End more_suspend_properties.

(** ** Domain power-down evaluator *)

Section more_power_down_properties.

Variable NO_CONSTRAINT_NS : Z.

Lemma recompute_outcome_unique sb db g s1 ok1 m1 s2 ok2 m2 :
  recompute_outcome NO_CONSTRAINT_NS sb db g s1 ok1 m1 →
  recompute_outcome NO_CONSTRAINT_NS sb db g s2 ok2 m2 →
  s1 = s2 ∧ ok1 = ok2 ∧ m1 = m2.
Proof.
  intros [Hs1 [(-> & st1 & c1 & Hst1 & Hc1 & Hd1 & ->)|
               (-> & -> & -> & Hn1)]]
         [Hs2 [(-> & st2 & c2 & Hst2 & Hc2 & Hd2 & ->)|
               (-> & -> & -> & Hn2)]].
  - assert (s1 = s2) as <-.
    { destruct (lt_eq_lt_dec s1 s2) as [[Hlt|Heq]|Hgt]; [|done|].
      - rewrite (Hd1 s2 st2) in Hc2 by (done || lia). done.
      - rewrite (Hd2 s1 st1) in Hc1 by (done || lia). done. }
    assert (st1 = st2) as <- by congruence.
    assert (c1 = c2) as <- by congruence. done.
  - rewrite (Hn2 s1 st1) in Hc1 by done. done.
  - rewrite (Hn1 s2 st2) in Hc2 by done. done.
  - done.
Qed.

(** The recomputing path in one equation. *)
Lemma default_power_down_ok_outcome devs doms pd g :
  wf_genpd devs doms g →
  doms !! pd = Some g →
  max_off_time_changed g = true →
  ∃ doms1 s ok m,
    (∀ q, doms1 !! q =
          if decide (q ∈ child_links g)
          then (λ x, set_max_off_time_changed x true) <$> doms !! q
          else doms !! q) ∧
    default_power_down_ok NO_CONSTRAINT_NS devs doms pd
    = Some (ok, <[pd := genpd_recomputed g s ok m]> doms1) ∧
    recompute_outcome NO_CONSTRAINT_NS
      (subdomain_budgets (<[pd := genpd_reset g]> doms1) (parent_links g))
      (device_budgets devs (dev_list g)) g s ok m.
Proof.
  intros Hwf Hg Hch.
  destruct (default_power_down_ok_recompute NO_CONSTRAINT_NS
              devs doms pd g Hwf Hg Hch)
    as (doms1 & _ & Hlook & Hrest).
  cbv zeta in Hrest.
  destruct Hrest as (_ & s & ok & m & _ & Hrun & Hs & Hout).
  exists doms1, s, ok, m. repeat split; done.
Qed.


Lemma subdomain_budgets_ext (doms1 doms2 : genpd_store) (links : list nat) :
  (∀ q, max_off_time_ns <$> doms1 !! q = max_off_time_ns <$> doms2 !! q) →
  subdomain_budgets doms1 links = subdomain_budgets doms2 links.
Proof.
  intros Hext. unfold subdomain_budgets. apply list_omap_ext.
  apply Forall2_same_length_lookup_2; [done|].
  intros i c c' Hc Hc'. assert (c = c') as <- by congruence. apply Hext.
Qed.

(** X9: a recomputing [default_power_down_ok] reads none of the domain's
    old [state_idx], [max_off_time_ns], [cached_power_down_ok] and
    [cached_power_down_state_idx]: with any other values in these fields
    it returns the same result and leaves the same store. *)
Theorem power_down_ignores_stale_cache devs doms pd g g2 :
  wf_genpd devs doms g →
  doms !! pd = Some g →
  max_off_time_changed g = true →
  max_off_time_changed g2 = true →
  same_structure g2 g →
  default_power_down_ok NO_CONSTRAINT_NS devs (<[pd := g2]> doms) pd
  = default_power_down_ok NO_CONSTRAINT_NS devs doms pd.
Proof.
  intros Hwf Hg Hch Hch2 (Hpl & Hcl & Hdl & Hst & Hsc).
  assert (Hwf2 : wf_genpd devs (<[pd := g2]> doms) g2)
    by (by eapply wf_genpd_insert).
  destruct (default_power_down_ok_outcome devs doms pd g Hwf Hg Hch)
    as (doms1 & s & ok & m & Hlook & -> & Hout).
  destruct (default_power_down_ok_outcome devs (<[pd := g2]> doms) pd g2
              Hwf2 (lookup_insert_eq _ _ _) Hch2)
    as (doms1' & s' & ok' & m' & Hlook' & -> & Hout').
  assert (Hother : ∀ q, q ≠ pd → doms1' !! q = doms1 !! q).
  { intros q Hq. rewrite Hlook, Hlook', Hcl, lookup_insert_ne by done. done. }
  rewrite (subdomain_budgets_ext _ (<[pd := genpd_reset g]> doms1)),
    Hpl, Hdl in Hout'.
  2: { intros q. rewrite !lookup_insert. case_decide; [done|].
       by rewrite Hother. }
  assert (recompute_outcome NO_CONSTRAINT_NS
            (subdomain_budgets (<[pd := genpd_reset g]> doms1)
               (parent_links g))
            (device_budgets devs (dev_list g)) g s' ok' m') as Hout2.
  { unfold recompute_outcome in *. by rewrite <- Hst, <- Hsc. }
  destruct (recompute_outcome_unique _ _ _ _ _ _ _ _ _ Hout Hout2)
    as (-> & -> & ->).
  do 2 f_equal.
  assert (genpd_recomputed g2 s' ok' m' = genpd_recomputed g s' ok' m') as ->.
  { unfold genpd_recomputed. by rewrite Hpl, Hcl, Hdl, Hst, Hsc. }
  apply map_eq. intros q. rewrite !lookup_insert. case_decide; [done|].
  by apply Hother.
Qed.


Lemma same_structure_wf devs (doms doms' : genpd_store) g g' :
  (∀ q, is_Some (doms !! q) → is_Some (doms' !! q)) →
  same_structure g' g →
  wf_genpd devs doms g →
  wf_genpd devs doms' g'.
Proof.
  intros Hkeys (Hpl & Hcl & Hdl & Hst & Hsc) (Hc & Hp & Hd & Hs).
  unfold wf_genpd. rewrite Hpl, Hcl, Hdl, Hst, Hsc.
  repeat split; try done; try lia.
  - eapply Forall_impl; [exact Hc|]. auto.
  - eapply Forall_impl; [exact Hp|]. auto.
Qed.

(** X10: [default_power_down_ok] returns on every well-formed domain,
    creates and removes no domain, and leaves the links, the device list,
    the states and the state count of every domain as they were; so every
    well-formed domain is well formed afterwards, and evaluations can be
    chained. *)
Theorem power_down_keeps_hierarchy devs doms pd g :
  wf_genpd devs doms g →
  doms !! pd = Some g →
  ∃ r doms',
    default_power_down_ok NO_CONSTRAINT_NS devs doms pd = Some (r, doms') ∧
    (∀ q, doms !! q = None → doms' !! q = None) ∧
    (∀ q gq, doms !! q = Some gq →
       ∃ gq', doms' !! q = Some gq' ∧
              same_structure gq' gq ∧
              (wf_genpd devs doms gq → wf_genpd devs doms' gq')).
Proof.
  intros Hwf Hg.
  assert (Hgen : ∀ (doms1 : genpd_store) g',
            same_structure g' g →
            (∀ q, doms1 !! q = doms !! q ∨
                  doms1 !! q
                  = (λ x, set_max_off_time_changed x true) <$> doms !! q) →
            (∀ q, doms !! q = None → <[pd := g']> doms1 !! q = None) ∧
            (∀ q gq, doms !! q = Some gq →
               ∃ gq', <[pd := g']> doms1 !! q = Some gq' ∧
                      same_structure gq' gq ∧
                      (wf_genpd devs doms gq →
                       wf_genpd devs (<[pd := g']> doms1) gq'))).
  { intros doms1 g' Hsame Hlook.
    assert (Hkeys : ∀ q, is_Some (doms !! q) →
                         is_Some (<[pd := g']> doms1 !! q)).
    { intros q [x Hq]. apply lookup_insert_is_Some'. right.
      destruct (Hlook q) as [->| ->]; rewrite Hq; by eexists. }
    split.
    - intros q Hq. rewrite lookup_insert_ne by congruence.
      destruct (Hlook q) as [->| ->]; by rewrite Hq.
    - intros q gq Hq. destruct (decide (q = pd)) as [->|Hne].
      + assert (gq = g) as -> by congruence.
        exists g'. rewrite lookup_insert_eq. split; [done|]. split; [done|].
        by apply same_structure_wf.
      + rewrite lookup_insert_ne by done.
        destruct (Hlook q) as [->| ->]; rewrite Hq; simpl;
          eexists; (split; [reflexivity|]);
          (split; [by repeat split|]); by apply same_structure_wf. }
  destruct (max_off_time_changed g) eqn:Hch.
  - destruct (default_power_down_ok_outcome devs doms pd g Hwf Hg Hch)
      as (doms1 & s & ok & m & Hlook & -> & _).
    eexists _, _. split; [reflexivity|].
    apply Hgen; [by repeat split|].
    intros q. rewrite Hlook. destruct (decide _); auto.
  - rewrite (default_power_down_ok_cached _ _ _ _ g) by done.
    eexists _, _. split; [reflexivity|].
    apply Hgen; [by repeat split|auto].
Qed.


(** The per-state check over the wrapped round trip the code compares
    with. *)
Lemma state_check_wrapped sb db st :
  let off_on := s64_add (power_off_latency_ns st) (power_on_latency_ns st) in
  (Forall (subdomain_admits off_on) sb →
   Forall (device_admits NO_CONSTRAINT_NS off_on) db →
   state_check NO_CONSTRAINT_NS sb db st
   = Some (foldl min_off_step (-1)
             (filter (λ t, 0 <= t) sb ++
              filter (λ t, t ≠ NO_CONSTRAINT_NS) db))) ∧
  (is_Some (state_check NO_CONSTRAINT_NS sb db st) →
   Forall (subdomain_admits off_on) sb ∧
   Forall (device_admits NO_CONSTRAINT_NS off_on) db).
Proof.
  intros off_on. unfold state_check. fold off_on. split.
  - intros Hsb Hdb.
    rewrite (scan_budgets_pass (λ t, t <? 0) (λ t, t < 0)
               (λ t, Z.ltb_lt t 0) _ _ _) by done.
    simpl.
    rewrite (scan_budgets_pass (λ t, t =? NO_CONSTRAINT_NS)
               (λ t, t = NO_CONSTRAINT_NS)
               (λ t, Z.eqb_eq t NO_CONSTRAINT_NS) _ _ _) by done.
    rewrite foldl_app. do 3 f_equal. apply list_filter_iff. intros t. lia.
  - destruct (scan_budgets _ off_on sb _) as [m1|] eqn:H1; simpl;
      [|by intros [? ?]].
    intros [c H2]. split.
    + by eapply (scan_budgets_Some (λ t, t <? 0) (λ t, t < 0)
                   (λ t, Z.ltb_lt t 0)).
    + by eapply (scan_budgets_Some (λ t, t =? NO_CONSTRAINT_NS)
                   (λ t, t = NO_CONSTRAINT_NS)
                   (λ t, Z.eqb_eq t NO_CONSTRAINT_NS)).
Qed.

(** X11: when a recomputing [default_power_down_ok] refuses to power down
    it leaves [state_idx] at 0, [cached_power_down_state_idx] at false,
    which reads back as 0, and [max_off_time_ns] at -1: towards its parent
    a domain that stays powered counts as unconstrained. *)
Theorem power_down_refusal_record devs doms pd g :
  wf_genpd devs doms g →
  doms !! pd = Some g →
  max_off_time_changed g = true →
  ∃ r doms' g',
    default_power_down_ok NO_CONSTRAINT_NS devs doms pd = Some (r, doms') ∧
    doms' !! pd = Some g' ∧
    (r = false →
     state_idx g' = 0%nat ∧
     cached_power_down_state_idx g' = false ∧
     max_off_time_ns g' = -1 ∧
     cached_power_down_ok g' = false ∧
     max_off_time_changed g' = false).
Proof.
  intros Hwf Hg Hch.
  destruct (default_power_down_ok_outcome devs doms pd g Hwf Hg Hch)
    as (doms1 & s & ok & m & _ & -> & _ & Hout).
  eexists _, _, _. split; [reflexivity|].
  rewrite lookup_insert_eq. split; [reflexivity|].
  intros ->. destruct Hout as [(? & _)|(_ & -> & -> & _)]; done.
Qed.

Lemma filter_none (P : Z → Prop) `{!∀ t, Decision (P t)} (l : list Z) :
  Forall (λ t, ¬ P t) l → filter P l = [].
Proof.
  induction 1 as [|t l Ht _ IH]; [done|]. by rewrite filter_cons_False.
Qed.

(** X12: when no subdomain and no member device constrains the domain (in
    particular when it has neither), a recomputing [default_power_down_ok]
    chooses the deepest state, [state_count - 1], whatever the latencies
    are, and offers -1. *)
Theorem power_down_unconstrained_deepest devs doms pd g :
  wf_genpd devs doms g →
  doms !! pd = Some g →
  max_off_time_changed g = true →
  pd ∉ parent_links g →
  Forall (λ t, t < 0) (subdomain_budgets doms (parent_links g)) →
  Forall (λ t, t = NO_CONSTRAINT_NS) (device_budgets devs (dev_list g)) →
  ∃ doms' g',
    default_power_down_ok NO_CONSTRAINT_NS devs doms pd = Some (true, doms') ∧
    doms' !! pd = Some g' ∧
    state_idx g' = (state_count g - 1)%nat ∧
    max_off_time_ns g' = -1.
Proof.
  intros Hwf Hg Hch Hpd Hsb Hdb.
  destruct (default_power_down_ok_outcome devs doms pd g Hwf Hg Hch)
    as (doms1 & s & ok & m & Hlook & -> & Hs & Hout).
  rewrite (recompute_budgets doms) in Hout by done.
  assert (Hall : ∀ st,
            state_check NO_CONSTRAINT_NS
              (subdomain_budgets doms (parent_links g))
              (device_budgets devs (dev_list g)) st = Some (-1)).
  { intros st. rewrite (proj1 (state_check_wrapped _ _ st)).
    - rewrite !filter_none; [done| |].
      + eapply Forall_impl; [exact Hdb|]. simpl. tauto.
      + eapply Forall_impl; [exact Hsb|]. simpl. lia.
    - eapply Forall_impl; [exact Hsb|]. by left.
    - eapply Forall_impl; [exact Hdb|]. by left. }
  destruct Hwf as (_ & _ & _ & Hcount).
  destruct Hout as [(-> & st & c & Hst & Hc & Hdeeper & ->)|
                    (_ & _ & _ & Hnone)].
  - eexists _, _. split; [reflexivity|]. rewrite lookup_insert_eq.
    split; [reflexivity|]. simpl.
    pose proof (Hall st) as Hc'. rewrite Hc in Hc'. injection Hc' as ->.
    split; [|done].
    destruct (decide (s = (state_count g - 1)%nat)) as [|Hne]; [done|].
    destruct (lookup_lt_is_Some_2 (states g) (state_count g - 1))
      as [st' Hst']; [lia|].
    specialize (Hall st').
    rewrite (Hdeeper (state_count g - 1)%nat st') in Hall by (done || lia).
    done.
  - destruct (lookup_lt_is_Some_2 (states g) 0) as [st' Hst']; [lia|].
    specialize (Hall st').
    rewrite (Hnone 0%nat st') in Hall by (done || lia). done.
Qed.

(** X13: a member device that was refused suspension, so that its budget
    is 0, keeps the whole domain powered: [default_power_down_ok] returns
    false, provided no round trip is negative. The sentinel is distinct
    from 0. *)
Theorem power_down_blocked_by_refused_device devs doms pd g :
  NO_CONSTRAINT_NS ≠ 0 →
  wf_genpd devs doms g →
  doms !! pd = Some g →
  max_off_time_changed g = true →
  0 ∈ device_budgets devs (dev_list g) →
  (∀ s st, states g !! s = Some st →
           0 <= s64_add (power_off_latency_ns st) (power_on_latency_ns st)) →
  ∃ doms',
    default_power_down_ok NO_CONSTRAINT_NS devs doms pd
    = Some (false, doms').
Proof.
  intros Hnz Hwf Hg Hch Hzero Hlat.
  destruct (default_power_down_ok_outcome devs doms pd g Hwf Hg Hch)
    as (doms1 & s & ok & m & Hlook & -> & Hs & Hout).
  destruct Hout as [(-> & st & c & Hst & Hc & _)|(-> & _)];
    [|by eexists].
  destruct (proj2 (state_check_wrapped _ _ st) (mk_is_Some _ _ Hc))
    as [_ Hdb].
  rewrite Forall_forall in Hdb. specialize (Hlat s st Hst).
  destruct (Hdb 0 Hzero) as [?|?]; [congruence|lia].
Qed.

(** X14: [__default_power_down_ok] is monotone in the round trip: over the
    same store, a state whose round trip is no longer than that of an
    accepted state is accepted too. *)
Theorem power_down_shallower_state_accepted devs doms pd g s s' st st' doms1 :
  wf_genpd devs doms g →
  doms !! pd = Some g →
  states g !! s = Some st →
  states g !! s' = Some st' →
  s64_add (power_off_latency_ns st') (power_on_latency_ns st')
  <= s64_add (power_off_latency_ns st) (power_on_latency_ns st) →
  __default_power_down_ok NO_CONSTRAINT_NS devs doms pd s
  = Some (true, doms1) →
  ∃ doms2,
    __default_power_down_ok NO_CONSTRAINT_NS devs doms pd s'
    = Some (true, doms2).
Proof.
  intros Hwf Hg Hst Hst' Hle.
  rewrite (power_down_ok_state_check _ _ _ _ g s st) by done.
  rewrite (power_down_ok_state_check _ _ _ _ g s' st') by done.
  destruct (state_check _ _ _ st) as [c|] eqn:Hc; [|done]. intros _.
  destruct (proj2 (state_check_wrapped _ _ st) (mk_is_Some _ _ Hc))
    as [Hsb Hdb].
  rewrite (proj1 (state_check_wrapped _ _ st')).
  - by eexists.
  - eapply Forall_impl; [exact Hsb|]. unfold subdomain_admits. lia.
  - eapply Forall_impl; [exact Hdb|]. unfold device_admits. lia.
Qed.


Lemma fold_min_above lo b bs :
  Forall (λ t, lo < t) (b :: bs) → lo < fold_min b bs.
Proof.
  intros HF. apply Forall_cons in HF as [Hb HF]. revert b Hb.
  induction HF as [|t l Ht _ IH]; intros b Hb; [done|].
  unfold fold_min in *. simpl. apply IH. lia.
Qed.

Lemma finite_budgets_above devs doms g rt :
  Forall (subdomain_admits rt) (subdomain_budgets doms (parent_links g)) →
  Forall (device_admits NO_CONSTRAINT_NS rt)
    (device_budgets devs (dev_list g)) →
  Forall (λ t, rt < t) (finite_budgets NO_CONSTRAINT_NS devs doms g).
Proof.
  intros Hsb Hdb. apply Forall_forall. intros t.
  unfold finite_budgets. rewrite elem_of_app, !list_elem_of_filter.
  rewrite Forall_forall in Hsb, Hdb.
  intros [[Ht Hin]|[Hne Hin]].
  - destruct (Hsb t Hin) as [?|?]; [lia|done].
  - destruct (Hdb t Hin) as [?|?]; [done|done].
Qed.

(** X15: the budget a recomputing [default_power_down_ok] offers with a
    chosen state is -1 exactly when no contributor is finite, and is
    otherwise strictly greater than the chosen state's power-off latency,
    hence positive: a stored [max_off_time_ns] is never 0 and never
    negative unless it is -1. Preconditions as for C2. *)
Theorem power_down_offered_budget_sign devs doms pd g doms' g' st :
  wf_genpd devs doms g →
  doms !! pd = Some g →
  max_off_time_changed g = true →
  pd ∉ parent_links g →
  default_power_down_ok NO_CONSTRAINT_NS devs doms pd = Some (true, doms') →
  doms' !! pd = Some g' →
  states g !! state_idx g' = Some st →
  0 <= power_off_latency_ns st →
  0 <= power_on_latency_ns st →
  power_off_latency_ns st + power_on_latency_ns st <= S64_MAX →
  Forall s64_range (finite_budgets NO_CONSTRAINT_NS devs doms g) →
  (finite_budgets NO_CONSTRAINT_NS devs doms g = [] ∧
   max_off_time_ns g' = -1) ∨
  (finite_budgets NO_CONSTRAINT_NS devs doms g ≠ [] ∧
   power_off_latency_ns st < max_off_time_ns g').
Proof.
  intros Hwf Hg Hch Hpd Hret Hg' Hst Hoff Hon Hsum Htyped.
  destruct (default_power_down_ok_outcome devs doms pd g Hwf Hg Hch)
    as (doms1 & s & ok & m & Hlook & Hrun & Hs & Hout).
  rewrite (recompute_budgets doms) in Hout by done.
  rewrite Hrun in Hret. injection Hret as -> <-.
  rewrite lookup_insert_eq in Hg'. injection Hg' as <-. simpl in *.
  destruct Hout as [(_ & st' & c & Hst' & Hc & _ & ->)|(? & _)]; [|done].
  assert (st' = st) as -> by congruence.
  assert (Hrt : s64_add (power_off_latency_ns st) (power_on_latency_ns st)
                = power_off_latency_ns st + power_on_latency_ns st).
  { apply s64_add_exact. unfold s64_range, S64_MIN, S64_MAX in *. lia. }
  destruct (proj2 (state_check_wrapped _ _ st) (mk_is_Some _ _ Hc))
    as [Hsb Hdb].
  rewrite (proj1 (state_check_wrapped _ _ st)) in Hc by done.
  injection Hc as <-. rewrite Hrt in Hsb, Hdb.
  fold (finite_budgets NO_CONSTRAINT_NS devs doms g).
  pose proof (finite_budgets_above devs doms g _ Hsb Hdb) as Habove.
  assert (Hnonneg : Forall (λ t, 0 <= t)
                      (finite_budgets NO_CONSTRAINT_NS devs doms g)).
  { eapply Forall_impl; [exact Habove|]. simpl. lia. }
  destruct (foldl_min_off_step_start _ Hnonneg) as [-> ->].
  destruct (finite_budgets NO_CONSTRAINT_NS devs doms g) as [|b bs] eqn:Hfin.
  - by left.
  - right. split; [done|]. simpl.
    pose proof (fold_min_in_range b bs Htyped) as Hmax.
    pose proof (fold_min_above _ b bs Habove) as Hmin.
    rewrite s64_sub_exact; [lia|].
    unfold s64_range, S64_MIN, S64_MAX in *. lia.
Qed.

Lemma recompute_outcome_qualifies devs doms g s ok m :
  (∀ s st, states g !! s = Some st →
           s64_range (power_off_latency_ns st + power_on_latency_ns st)) →
  (state_count g ≤ length (states g))%nat →
  recompute_outcome NO_CONSTRAINT_NS
    (subdomain_budgets doms (parent_links g))
    (device_budgets devs (dev_list g)) g s ok m →
  (ok = true →
   state_qualifies NO_CONSTRAINT_NS devs doms g s ∧
   ∀ s', (s < s' < state_count g)%nat →
         ¬ state_qualifies NO_CONSTRAINT_NS devs doms g s') ∧
  (ok = false →
   ∀ s', (s' < state_count g)%nat →
         ¬ state_qualifies NO_CONSTRAINT_NS devs doms g s').
Proof.
  intros Hrange Hcount [Hs Hout].
  assert (Hno : ∀ s' st',
            states g !! s' = Some st' →
            state_check NO_CONSTRAINT_NS
              (subdomain_budgets doms (parent_links g))
              (device_budgets devs (dev_list g)) st' = None →
            ¬ state_qualifies NO_CONSTRAINT_NS devs doms g s').
  { intros s' st' Hst' Hnone Hq.
    apply (state_qualifies_check _ _ _ _ _ st') in Hq as [c Hc]; eauto.
    congruence. }
  destruct Hout as [(-> & st & c & Hst & Hc & Hdeeper & _)|
                    (-> & -> & _ & Hnone)].
  - split; [|done]. intros _. split.
    + apply (state_qualifies_check _ _ _ _ _ st); eauto.
    + intros s' Hs'.
      destruct (lookup_lt_is_Some_2 (states g) s') as [st' Hst']; [lia|].
      apply (Hno s' st'); eauto.
  - split; [done|]. intros _ s' Hs'.
    destruct (lookup_lt_is_Some_2 (states g) s') as [st' Hst']; [lia|].
    apply (Hno s' st'); eauto.
Qed.

(** X16: evaluating a dirty domain and then one of its parents: whatever
    the parent's own flag was, the parent's call does not answer from its
    cache. It returns the deepest state that qualifies against the budgets
    in the store the child's evaluation left, the child's fresh
    [max_off_time_ns] among them, and clears the parent's flag.  The parent
    is not its own subdomain and its round trips fit in an [s64]. *)
Theorem power_down_parent_recomputes devs doms child parent gc gp :
  doms !! child = Some gc →
  doms !! parent = Some gp →
  wf_genpd devs doms gc →
  wf_genpd devs doms gp →
  max_off_time_changed gc = true →
  parent ∈ child_links gc →
  parent ≠ child →
  parent ∉ parent_links gp →
  (∀ s st, states gp !! s = Some st →
           s64_range (power_off_latency_ns st + power_on_latency_ns st)) →
  ∃ r1 doms1 r2 doms2 gp2,
    default_power_down_ok NO_CONSTRAINT_NS devs doms child
    = Some (r1, doms1) ∧
    default_power_down_ok NO_CONSTRAINT_NS devs doms1 parent
    = Some (r2, doms2) ∧
    doms2 !! parent = Some gp2 ∧
    max_off_time_changed gp2 = false ∧
    cached_power_down_ok gp2 = r2 ∧
    (r2 = true →
     state_qualifies NO_CONSTRAINT_NS devs doms1 gp (state_idx gp2) ∧
     ∀ s, (state_idx gp2 < s < state_count gp)%nat →
          ¬ state_qualifies NO_CONSTRAINT_NS devs doms1 gp s) ∧
    (r2 = false →
     ∀ s, (s < state_count gp)%nat →
          ¬ state_qualifies NO_CONSTRAINT_NS devs doms1 gp s).
Proof.
  intros Hgc Hgp Hwfc Hwfp Hch Hin Hne Hacyc Hrange.
  destruct (default_power_down_ok_outcome devs doms child gc Hwfc Hgc Hch)
    as (doms1a & s1 & ok1 & m1 & Hlook1 & Hrun1 & _).
  set (doms1 := <[child := genpd_recomputed gc s1 ok1 m1]> doms1a) in *.
  set (gp1 := set_max_off_time_changed gp true).
  assert (Hgp1 : doms1 !! parent = Some gp1).
  { unfold doms1. rewrite lookup_insert_ne by done.
    by rewrite Hlook1, decide_True, Hgp. }
  assert (Hwfp1 : wf_genpd devs doms1 gp1).
  { apply (same_structure_wf devs doms doms1 gp gp1);
      [|by repeat split|done].
    intros q [x Hq]. unfold doms1. apply lookup_insert_is_Some'. right.
    rewrite Hlook1, Hq. by destruct (decide _). }
  destruct (default_power_down_ok_outcome devs doms1 parent gp1
              Hwfp1 Hgp1 eq_refl)
    as (doms2a & s2 & ok2 & m2 & Hlook2 & Hrun2 & Hout2).
  rewrite (recompute_budgets doms1) in Hout2 by done.
  exists ok1, doms1, ok2, (<[parent := genpd_recomputed gp1 s2 ok2 m2]> doms2a),
    (genpd_recomputed gp1 s2 ok2 m2).
  split; [done|]. split; [done|].
  split; [by rewrite lookup_insert_eq|]. split; [done|]. split; [done|].
  destruct Hwfp as (_ & _ & _ & Hcount).
  apply (recompute_outcome_qualifies devs doms1 gp1 s2 ok2 m2);
    [done|simpl; lia|done].
Qed.


(** X17: [default_power_down_ok] reads nothing of a member device but its
    stored [effective_constraint_ns]: two device stores that agree on
    these budgets give the same result. The devices' dirty flags and
    constraints are not consulted. *)
Theorem power_down_reads_only_budgets devs devs2 doms pd g :
  wf_genpd devs doms g →
  doms !! pd = Some g →
  (∀ k, k ∈ dev_list g →
        effective_constraint_ns <$> dev_td devs2 k
        = effective_constraint_ns <$> dev_td devs k) →
  default_power_down_ok NO_CONSTRAINT_NS devs2 doms pd
  = default_power_down_ok NO_CONSTRAINT_NS devs doms pd.
Proof.
  intros Hwf Hg Hext.
  destruct (max_off_time_changed g) eqn:Hch.
  2: { by rewrite !(default_power_down_ok_cached _ _ _ _ g). }
  assert (Hwf2 : wf_genpd devs2 doms g).
  { destruct Hwf as (Hc & Hp & Hd & Hs). repeat split; try done; try lia.
    apply Forall_forall. intros k Hk. rewrite Forall_forall in Hd.
    destruct (Hd k Hk) as [td Htd]. specialize (Hext k Hk).
    rewrite Htd in Hext. destruct (dev_td devs2 k); [by eexists|done]. }
  assert (Hdb : device_budgets devs2 (dev_list g)
                = device_budgets devs (dev_list g)).
  { unfold device_budgets. apply list_omap_ext.
    apply Forall2_same_length_lookup_2; [done|].
    intros i k k' Hk Hk'. assert (k = k') as <- by congruence.
    apply Hext. by eapply list_elem_of_lookup_2. }
  destruct (default_power_down_ok_outcome devs doms pd g Hwf Hg Hch)
    as (doms1 & s & ok & m & Hlook & -> & Hout).
  destruct (default_power_down_ok_outcome devs2 doms pd g Hwf2 Hg Hch)
    as (doms1' & s' & ok' & m' & Hlook' & -> & Hout').
  assert (doms1' = doms1) as ->.
  { apply map_eq. intros q. by rewrite Hlook, Hlook'. }
  rewrite Hdb in Hout'.
  destruct (recompute_outcome_unique _ _ _ _ _ _ _ _ _ Hout Hout')
    as (-> & -> & ->).
  done.
Qed.


Lemma fold_min_elem b bs : fold_min b bs ∈ b :: bs.
Proof.
  revert b. induction bs as [|t bs IH]; intros b.
  - apply elem_of_cons. by left.
  - unfold fold_min in *. simpl.
    specialize (IH (b `min` t)). apply elem_of_cons in IH as [IH|IH].
    + rewrite IH. destruct (Z.min_spec b t) as [[_ ->]|[_ ->]];
        rewrite !elem_of_cons; auto.
    + rewrite !elem_of_cons. auto.
Qed.

Lemma fold_min_lower b bs : Forall (λ t, fold_min b bs <= t) (b :: bs).
Proof.
  constructor; [apply fold_min_le|].
  revert b. induction bs as [|t bs IH]; intros b; [done|].
  constructor.
  - pose proof (fold_min_le (b `min` t) bs). unfold fold_min in *. simpl. lia.
  - unfold fold_min in *. simpl. apply IH.
Qed.

Lemma min_budget_perm (l l' : list Z) :
  l ≡ₚ l' → min_budget l = min_budget l'.
Proof.
  intros Hperm. destruct l as [|b bs], l' as [|b' bs']; simpl.
  - done.
  - by apply Permutation_nil_cons in Hperm.
  - symmetry in Hperm. by apply Permutation_nil_cons in Hperm.
  - f_equal. apply Z.le_antisymm.
    + pose proof (fold_min_elem b' bs') as Hin. rewrite <- Hperm in Hin.
      pose proof (fold_min_lower b bs) as Hlow.
      rewrite Forall_forall in Hlow. by apply Hlow.
    + pose proof (fold_min_elem b bs) as Hin. rewrite Hperm in Hin.
      pose proof (fold_min_lower b' bs') as Hlow.
      rewrite Forall_forall in Hlow. by apply Hlow.
Qed.

(** With a round trip that is not negative, the per-state check does not
    depend on the order of the budgets. *)
Lemma state_check_perm sb sb' db db' st :
  sb ≡ₚ sb' → db ≡ₚ db' →
  0 <= s64_add (power_off_latency_ns st) (power_on_latency_ns st) →
  state_check NO_CONSTRAINT_NS sb' db' st
  = state_check NO_CONSTRAINT_NS sb db st.
Proof.
  intros Hsb Hdb Hrt.
  assert (Hval : ∀ sb db,
            is_Some (state_check NO_CONSTRAINT_NS sb db st) →
            state_check NO_CONSTRAINT_NS sb db st
            = Some (match min_budget
                            (filter (λ t, 0 <= t) sb ++
                             filter (λ t, t ≠ NO_CONSTRAINT_NS) db) with
                    | Some m => m | None => -1 end)).
  { intros sb0 db0 Hsome.
    destruct (proj2 (state_check_wrapped sb0 db0 st) Hsome) as [H1 H2].
    rewrite (proj1 (state_check_wrapped sb0 db0 st)) by done. f_equal.
    apply foldl_min_off_step_start.
    apply Forall_forall. intros t.
    rewrite elem_of_app, !list_elem_of_filter.
    rewrite Forall_forall in H2.
    intros [[Ht _]|[Hne Hin]]; [done|].
    destruct (H2 t Hin) as [?|?]; [done|lia]. }
  assert (Hiff : is_Some (state_check NO_CONSTRAINT_NS sb' db' st) ↔
                 is_Some (state_check NO_CONSTRAINT_NS sb db st)).
  { split; intros Hsome;
      destruct (proj2 (state_check_wrapped _ _ st) Hsome) as [H1 H2];
      erewrite (proj1 (state_check_wrapped _ _ st)); try by eexists.
    - by rewrite Hsb. - by rewrite Hdb. - by rewrite <- Hsb.
    - by rewrite <- Hdb. }
  destruct (state_check NO_CONSTRAINT_NS sb db st) as [c|] eqn:Hc.
  - rewrite Hval by (apply Hiff; by eexists).
    rewrite Hval in Hc by (by eexists). rewrite <- Hc. f_equal.
    rewrite (min_budget_perm
               (filter (λ t, 0 <= t) sb' ++
                filter (λ t, t ≠ NO_CONSTRAINT_NS) db')
               (filter (λ t, 0 <= t) sb ++
                filter (λ t, t ≠ NO_CONSTRAINT_NS) db)); [done|].
    by rewrite Hsb, Hdb.
  - destruct (state_check NO_CONSTRAINT_NS sb' db' st) eqn:Hc'; [|done].
    destruct (proj1 Hiff) as [? ?]; [by eexists|done].
Qed.

(** X18: the verdict, the chosen state and the offered budget of a
    recomputing [default_power_down_ok], and what it does to the other
    domains, do not depend on the order of the domain's subdomain links,
    parent links and device list, provided no round trip is negative. *)
Theorem power_down_link_order_irrelevant devs doms pd g pl cl dl :
  wf_genpd devs doms g →
  doms !! pd = Some g →
  max_off_time_changed g = true →
  parent_links g ≡ₚ pl →
  child_links g ≡ₚ cl →
  dev_list g ≡ₚ dl →
  (∀ s st, states g !! s = Some st →
           0 <= s64_add (power_off_latency_ns st) (power_on_latency_ns st)) →
  ∃ r s m doms1,
    default_power_down_ok NO_CONSTRAINT_NS devs doms pd
    = Some (r, <[pd := genpd_recomputed g s r m]> doms1) ∧
    default_power_down_ok NO_CONSTRAINT_NS devs
      (<[pd := set_links g pl cl dl]> doms) pd
    = Some (r, <[pd := genpd_recomputed (set_links g pl cl dl) s r m]> doms1).
Proof.
  intros Hwf Hg Hch Hpl Hcl Hdl Hlat.
  set (g2 := set_links g pl cl dl).
  assert (Hwf2 : wf_genpd devs (<[pd := g2]> doms) g2).
  { destruct Hwf as (Hc & Hp & Hd & Hs).
    repeat split; simpl; try done; try lia.
    - rewrite <- Hcl. eapply Forall_impl; [exact Hc|]. intros q Hq.
      apply lookup_insert_is_Some'. by right.
    - rewrite <- Hpl. eapply Forall_impl; [exact Hp|]. intros q Hq.
      apply lookup_insert_is_Some'. by right.
    - by rewrite <- Hdl. }
  destruct (default_power_down_ok_outcome devs doms pd g Hwf Hg Hch)
    as (doms1 & s & ok & m & Hlook & Hrun & Hout).
  destruct (default_power_down_ok_outcome devs (<[pd := g2]> doms) pd g2
              Hwf2 (lookup_insert_eq _ _ _) Hch)
    as (doms1' & s' & ok' & m' & Hlook' & Hrun' & Hout').
  assert (Hother : ∀ q, q ≠ pd → doms1' !! q = doms1 !! q).
  { intros q Hq. rewrite Hlook, Hlook', lookup_insert_ne by done. simpl.
    destruct (decide (q ∈ cl)) as [Hin|Hin],
      (decide (q ∈ child_links g)) as [Hin'|Hin']; try done.
    - by rewrite Hcl in Hin'.
    - by rewrite Hcl in Hin'. }
  assert (Hsb : subdomain_budgets (<[pd := genpd_reset g]> doms1)
                  (parent_links g)
                ≡ₚ subdomain_budgets (<[pd := genpd_reset g2]> doms1')
                     (parent_links g2)).
  { rewrite (subdomain_budgets_ext (<[pd := genpd_reset g2]> doms1')
               (<[pd := genpd_reset g]> doms1)).
    - simpl. unfold subdomain_budgets. by rewrite Hpl.
    - intros q. rewrite !lookup_insert. case_decide; [done|].
      by rewrite Hother. }
  assert (Hdb : device_budgets devs (dev_list g)
                ≡ₚ device_budgets devs (dev_list g2)).
  { simpl. unfold device_budgets. by rewrite Hdl. }
  assert (recompute_outcome NO_CONSTRAINT_NS
            (subdomain_budgets (<[pd := genpd_reset g]> doms1)
               (parent_links g))
            (device_budgets devs (dev_list g)) g s' ok' m') as Hout2.
  { destruct Hout' as [Hs' Hout']. split; [done|].
    destruct Hout' as [(-> & st & c & Hst & Hc & Hdeeper & ->)|
                       (-> & -> & -> & Hnone)].
    - left. split; [done|]. exists st, c. split; [done|].
      rewrite <- (state_check_perm _ _ _ _ st Hsb Hdb) by eauto.
      split; [done|]. split; [|done]. intros s2 st2 Hs2 Hst2.
      rewrite <- (state_check_perm _ _ _ _ st2 Hsb Hdb) by eauto.
      by apply (Hdeeper s2 st2).
    - right. repeat split; try done. intros s2 st2 Hs2 Hst2.
      rewrite <- (state_check_perm _ _ _ _ st2 Hsb Hdb) by eauto.
      by apply (Hnone s2 st2). }
  destruct (recompute_outcome_unique _ _ _ _ _ _ _ _ _ Hout Hout2)
    as (-> & -> & ->).
  exists ok', s', m', doms1. split; [done|].
  rewrite Hrun'. do 2 f_equal.
  apply map_eq. intros q. rewrite !lookup_insert. case_decide; [done|].
  by apply Hother.
Qed.

End more_power_down_properties.

(** ** arm64 user call chains *)

Section perf_callchain_properties.

Context `{perf_helpers perf_callchain_entry_ctx}.

Lemma land_15_aligned a : Z.land a 15 = 0 ↔ a mod 16 = 0.
Proof. change 15 with (Z.ones 4). by rewrite Z.land_ones. Qed.

Lemma user_backtrace_progress copy tail entry tail' entry' :
  user_backtrace copy tail entry = (tail', entry') →
  tail' = 0 ∨ (tail < tail' ∧ ∃ ft, copy tail = Some ft ∧ fp ft = tail').
Proof.
  unfold user_backtrace. destruct (access_ok _ _); simpl; [|naive_solver].
  destruct (copy tail) as [ft|]; [|naive_solver].
  destruct (Z.geb_spec tail (fp ft)); intros [= <- <-]; [by left|].
  right. split; [lia|]. by exists ft.
Qed.

Lemma user_walk_enough_fuel copy fuel :
  (∀ a ft, copy a = Some ft → is_u64 (fp ft)) →
  ∀ tail entry,
    is_u64 tail →
    2 ^ 64 - tail <= 16 * Z.of_nat fuel →
    is_Some (user_walk copy fuel tail entry).
Proof.
  intros Htyped. induction fuel as [|fuel IH]; intros tail entry Htail Hfuel.
  - unfold is_u64 in *. lia.
  - simpl.
    destruct ((nr entry <? max_stack entry) && negb (tail =? 0)
              && (Z.land tail 15 =? 0)) eqn:Hcond; [|by eexists].
    apply andb_true_iff in Hcond as [_ Halign].
    apply Z.eqb_eq, land_15_aligned in Halign.
    destruct (user_backtrace copy tail entry) as [tail' entry'] eqn:Hstep.
    apply user_backtrace_progress in Hstep
      as [->|(Hlt & ft & Hft & <-)].
    + destruct fuel; simpl; rewrite andb_false_r; by eexists.
    + pose proof (Htyped _ _ Hft) as Hfp.
      destruct (decide (fp ft mod 16 = 0)) as [Hal|Hal].
      * apply IH; [done|]. unfold is_u64 in *.
        pose proof (Z.div_mod tail 16 ltac:(lia)) as Ht.
        pose proof (Z.div_mod (fp ft) 16 ltac:(lia)) as Hf.
        rewrite Halign in Ht. rewrite Hal in Hf. lia.
      * assert ((Z.land (fp ft) 15 =? 0) = false) as Hna.
        { apply Z.eqb_neq. by rewrite land_15_aligned. }
        destruct fuel; simpl; rewrite Hna, andb_false_r; by eexists.
Qed.


Lemma user_walk_more_fuel copy fuel tail entry result :
  user_walk copy fuel tail entry = Some result →
  ∀ fuel', (fuel ≤ fuel')%nat →
           user_walk copy fuel' tail entry = Some result.
Proof.
  revert tail entry.
  induction fuel as [|fuel IH]; intros tail entry Hrun fuel' Hle.
  - simpl in Hrun. destruct fuel'; simpl; by destruct (_ && _).
  - destruct fuel' as [|fuel']; [lia|]. simpl in *.
    destruct (_ && _); [|done].
    destruct (user_backtrace copy tail entry) as [tail' entry'].
    apply IH; [done|lia].
Qed.

(** X19: [perf_callchain_user] terminates whatever user memory holds, a
    frame chain that runs in circles included: frame pointers must
    strictly increase and be 16-byte aligned, so a walk that starts at
    frame pointer [fp] reads at most [(2^64 - fp) / 16] frames; with that
    much fuel the model returns a result, and more fuel does not change
    it. *)
Theorem perf_callchain_user_terminates copy fuel in_guest entry regs :
  (∀ a ft, copy a = Some ft → is_u64 (fp ft)) →
  is_u64 (regs_29 regs) →
  2 ^ 64 - regs_29 regs <= 16 * Z.of_nat fuel →
  ∃ result,
    ∀ fuel', (fuel ≤ fuel')%nat →
      perf_callchain_user copy fuel' in_guest entry regs = Some result.
Proof.
  intros Htyped Hfp Hfuel. unfold perf_callchain_user.
  destruct in_guest; [by eexists|].
  destruct (compat_user_mode regs); simpl; [by eexists|].
  destruct (user_walk_enough_fuel copy fuel Htyped (regs_29 regs)
              (perf_callchain_store entry (pc regs)) Hfp Hfuel)
    as [result Hrun].
  exists result. intros fuel' Hle. by eapply user_walk_more_fuel.
Qed.

Lemma user_walk_footprint copy1 copy2 floor fuel :
  (∀ a, a ≠ 0 → a mod 16 = 0 → floor <= a →
        access_ok a sizeof_frame_tail = true →
        copy1 a = copy2 a) →
  ∀ tail entry,
    floor <= tail ∨ tail = 0 →
    user_walk copy1 fuel tail entry = user_walk copy2 fuel tail entry.
Proof.
  intros Hagree. induction fuel as [|fuel IH]; intros tail entry Hfloor.
  - done.
  - simpl.
    destruct ((nr entry <? max_stack entry) && negb (tail =? 0)
              && (Z.land tail 15 =? 0)) eqn:Hcond; [|done].
    apply andb_true_iff in Hcond as [Hcond Halign].
    apply andb_true_iff in Hcond as [_ Hnz].
    apply Z.eqb_eq, land_15_aligned in Halign.
    apply negb_true_iff, Z.eqb_neq in Hnz.
    destruct Hfloor as [Hfloor|?]; [|done].
    assert (user_backtrace copy1 tail entry = user_backtrace copy2 tail entry)
      as Hstep.
    { unfold user_backtrace.
      destruct (access_ok tail sizeof_frame_tail) eqn:Hok; [|done].
      simpl. by rewrite Hagree. }
    rewrite Hstep.
    destruct (user_backtrace copy2 tail entry) as [tail' entry'] eqn:Hbt.
    apply IH. apply user_backtrace_progress in Hbt as [->|[Hlt _]]; [by right|].
    left. lia.
Qed.

(** X20: [perf_callchain_user] reads user memory only at addresses that
    are not null, 16-byte aligned, not below the initial frame pointer and
    accepted by [access_ok]: two user memories that agree there give the
    same call chain. *)
Theorem perf_callchain_user_footprint copy1 copy2 fuel in_guest entry regs :
  (∀ a, a ≠ 0 → a mod 16 = 0 → regs_29 regs <= a →
        access_ok a sizeof_frame_tail = true →
        copy1 a = copy2 a) →
  perf_callchain_user copy1 fuel in_guest entry regs
  = perf_callchain_user copy2 fuel in_guest entry regs.
Proof.
  intros Hagree. unfold perf_callchain_user.
  destruct in_guest; [done|].
  destruct (compat_user_mode regs); simpl; [done|].
  apply (user_walk_footprint copy1 copy2 (regs_29 regs)); [done|].
  by left.
Qed.

End perf_callchain_properties.

(** ** Calling an evaluator twice *)

Section second_call_properties.

Variable NO_CONSTRAINT_NS : Z.

Lemma uint_of_bool_of_uint n :
  uint_of_bool (bool_of_uint n) = (n `min` 1)%nat.
Proof. by destruct n as [|[|n]]. Qed.

Lemma bool_of_uint_of_bool b : bool_of_uint (uint_of_bool b) = b.
Proof. by destruct b. Qed.

Lemma set_state_idx_id g : set_state_idx g (state_idx g) = g.
Proof. by destruct g. Qed.

(** X21: a second call of [default_suspend_ok] right after a first one, with
    no dirty flag set in between, returns the same result and leaves the
    device store, hence every [effective_constraint_ns], as the first call
    left it. *)
Theorem suspend_second_call devs dev d :
  devs !! dev = Some d →
  wf_device devs d →
  ∃ r devs',
    default_suspend_ok NO_CONSTRAINT_NS devs dev = Some (r, devs') ∧
    default_suspend_ok NO_CONSTRAINT_NS devs' dev = Some (r, devs').
Proof.
  intros Hd Hwf.
  destruct (default_suspend_ok_total NO_CONSTRAINT_NS devs dev d Hd Hwf)
    as [[r devs'] Hrun].
  exists r, devs'. split; [done|].
  destruct Hwf as [[td Htd] _].
  destruct (constraint_changed td) eqn:Hch.
  - destruct (default_suspend_ok_outcome _ _ _ _ _ _ _ Hd Htd Hch Hrun)
      as [[-> ->]|[-> [budget ->]]].
    + by erewrite default_suspend_ok_cached;
        [|by apply lookup_insert_eq|done|done].
    + by erewrite default_suspend_ok_cached;
        [|by apply lookup_insert_eq|done|done].
  - rewrite (default_suspend_ok_cached _ _ _ d td) in Hrun by done.
    injection Hrun as <- <-.
    by apply (default_suspend_ok_cached _ _ _ d td).
Qed.

(** X22: a second call of [default_power_down_ok] right after a first one,
    with no dirty flag set in between, returns the same verdict and leaves
    every domain, hence every [max_off_time_ns], as the first call left it,
    but for the [state_idx] of the evaluated domain: the state comes back
    through the [bool] field [cached_power_down_state_idx], so the second
    call leaves the smaller of the first call's state and 1.  The two calls
    leave the same store exactly when the first state is 0 or 1. *)
Theorem power_down_second_call devs doms pd g :
  doms !! pd = Some g →
  wf_genpd devs doms g →
  ∃ r doms' g',
    default_power_down_ok NO_CONSTRAINT_NS devs doms pd = Some (r, doms') ∧
    doms' !! pd = Some g' ∧
    default_power_down_ok NO_CONSTRAINT_NS devs doms' pd
    = Some (r, <[pd := set_state_idx g' (state_idx g' `min` 1)%nat]> doms') ∧
    ((state_idx g' ≤ 1)%nat ↔
     default_power_down_ok NO_CONSTRAINT_NS devs doms' pd = Some (r, doms')).
Proof.
  intros Hg Hwf.
  assert (∃ r doms' g',
            default_power_down_ok NO_CONSTRAINT_NS devs doms pd
            = Some (r, doms') ∧
            doms' !! pd = Some g' ∧
            max_off_time_changed g' = false ∧
            cached_power_down_ok g' = r ∧
            cached_power_down_state_idx g' = bool_of_uint (state_idx g'))
    as (r & doms' & g' & Hrun & Hg' & Hclean & Hok & Hidx).
  { destruct (max_off_time_changed g) eqn:Hch.
    - destruct (default_power_down_ok_recompute NO_CONSTRAINT_NS
                  devs doms pd g Hwf Hg Hch)
        as (doms1 & _ & _ & Hrest).
      cbv zeta in Hrest.
      destruct Hrest as (_ & s & ok & m & _ & Hrun & _).
      eexists _, _, _. split; [exact Hrun|].
      split; [by apply lookup_insert_eq|]. done.
    - eexists _, _, _.
      split; [by apply default_power_down_ok_cached|].
      split; [by apply lookup_insert_eq|]. simpl.
      by rewrite bool_of_uint_of_bool. }
  exists r, doms', g'. split; [done|]. split; [done|].
  assert (Hsecond :
            default_power_down_ok NO_CONSTRAINT_NS devs doms' pd
            = Some (r, <[pd := set_state_idx g' (state_idx g' `min` 1)%nat]>
                         doms')).
  { rewrite (default_power_down_ok_cached _ _ _ _ g') by done.
    by rewrite Hok, Hidx, uint_of_bool_of_uint. }
  split; [done|]. rewrite Hsecond. split.
  - intros Hle. rewrite Nat.min_l by done.
    by rewrite set_state_idx_id, insert_id.
  - intros [= Heq].
    apply (f_equal (λ m : genpd_store, state_idx <$> m !! pd)) in Heq.
    rewrite lookup_insert_eq, Hg' in Heq. simpl in Heq.
    injection Heq as Heq. lia.
Qed.

End second_call_properties.

(** ** The further properties at work on the example configurations *)

(** Device 0 of the examples is well formed. *)
Lemma example_dev_wf qos :
  wf_device (example_devs qos false [1; 2; 3]%nat)
    (example_dev qos false [1; 2; 3]%nat).
Proof. example_wf. Defined.

(** X1 on the example configuration. *)
Lemma suspend_ok_frame_witness :
  ∃ r devs' td td',
    default_suspend_ok example_no_constraint_ns
      (example_devs 5 false [1; 2; 3]%nat) 0 = Some (r, devs') ∧
    domain_data (example_dev 5 false [1; 2; 3]%nat) = Some td ∧
    devs' !! 0%nat = Some (set_td (example_dev 5 false [1; 2; 3]%nat) td') ∧
    suspend_latency_ns td' = suspend_latency_ns td ∧
    resume_latency_ns td' = resume_latency_ns td ∧
    constraint_changed td' = false ∧
    cached_suspend_ok td' = r ∧
    ∀ k, k ≠ 0%nat → devs' !! k = example_devs 5 false [1; 2; 3]%nat !! k.
Proof.
  apply (suspend_ok_frame example_no_constraint_ns
           (example_devs 5 false [1; 2; 3]%nat) 0%nat
           (example_dev 5 false [1; 2; 3]%nat)).
  - reflexivity.
  - exact (example_dev_wf 5).
Defined.

(** X2 on the example configuration. *)
Lemma suspend_granted_budget_positive_witness :
  ∃ r devs' td',
    default_suspend_ok example_no_constraint_ns
      (example_devs 5 false [1; 2; 3]%nat) 0 = Some (r, devs') ∧
    dev_td devs' 0 = Some td' ∧
    (r = true →
     effective_constraint_ns td' = example_no_constraint_ns ∨
     0 < effective_constraint_ns td') ∧
    (r = false → effective_constraint_ns td' = 0).
Proof.
  apply (suspend_granted_budget_positive example_no_constraint_ns
           (example_devs 5 false [1; 2; 3]%nat) 0%nat
           (example_dev 5 false [1; 2; 3]%nat) (example_td 77 true)).
  - reflexivity.
  - reflexivity.
  - reflexivity.
  - exact (example_dev_wf 5).
Defined.

(** X4 on the example configuration. *)
Lemma suspend_child_order_irrelevant_witness :
  suspend_verdict 0
    (default_suspend_ok example_no_constraint_ns
       (<[0%nat := set_children (example_dev 5 false [1; 2; 3]%nat)
                     [3; 1; 2]%nat]>
          (example_devs 5 false [1; 2; 3]%nat)) 0)
  = suspend_verdict 0
      (default_suspend_ok example_no_constraint_ns
         (example_devs 5 false [1; 2; 3]%nat) 0).
Proof.
  apply (suspend_child_order_irrelevant example_no_constraint_ns
           (example_devs 5 false [1; 2; 3]%nat) 0%nat
           (example_dev 5 false [1; 2; 3]%nat) [3; 1; 2]%nat).
  - reflexivity.
  - simpl. apply Permutation_sym.
    apply (Permutation_cons_append [1; 2]%nat 3%nat).
Defined.

(** X6 on the example configuration. *)
Lemma suspend_child_zero_veto_witness :
  default_suspend_ok example_no_constraint_ns veto_devs 0
  = Some (false,
          suspend_reset veto_devs 0 (example_dev 5 false [1; 4]%nat)
            (example_td 77 true)).
Proof.
  apply (suspend_child_zero_veto example_no_constraint_ns veto_devs 0%nat
           (example_dev 5 false [1; 4]%nat) (example_td 77 true) [3000; 0]).
  - discriminate.
  - reflexivity.
  - reflexivity.
  - reflexivity.
  - reflexivity.
  - reflexivity.
  - repeat constructor; eexists; (split; [reflexivity|]); reflexivity.
  - repeat constructor; discriminate.
  - apply elem_of_cons; right. apply elem_of_cons; left. reflexivity.
Defined.

(** X7 on the example configuration. *)
Lemma suspend_budget_monotone_witness :
  ∃ r1 r2 devs1' devs2' td1' td2',
    default_suspend_ok example_no_constraint_ns
      (example_devs 5 false [1; 2]%nat) 0 = Some (r1, devs1') ∧
    default_suspend_ok example_no_constraint_ns
      (example_devs 5 false [2; 3]%nat) 0 = Some (r2, devs2') ∧
    dev_td devs1' 0 = Some td1' ∧
    dev_td devs2' 0 = Some td2' ∧
    (r1 = true → r2 = true) ∧
    effective_constraint_ns td1' <= effective_constraint_ns td2'.
Proof.
  apply (suspend_budget_monotone example_no_constraint_ns
           (example_devs 5 false [1; 2]%nat)
           (example_devs 5 false [2; 3]%nat) 0%nat 0%nat
           (example_dev 5 false [1; 2]%nat)
           (example_dev 5 false [2; 3]%nat)
           (example_td 77 true) (example_td 77 true)
           [3000; 4000] [4000; example_no_constraint_ns]).
  - split; [reflexivity|discriminate].
  - reflexivity.
  - reflexivity.
  - reflexivity.
  - reflexivity.
  - reflexivity.
  - reflexivity.
  - reflexivity.
  - reflexivity.
  - reflexivity.
  - split; [reflexivity|discriminate].
  - discriminate.
  - reflexivity.
  - reflexivity.
  - discriminate.
  - discriminate.
  - discriminate.
  - repeat constructor; eexists; (split; [reflexivity|]); reflexivity.
  - repeat constructor; eexists; (split; [reflexivity|]); reflexivity.
  - repeat constructor; discriminate.
Defined.

(** X8 on the example configuration. *)
Lemma suspend_budget_respects_constraints_witness :
  ∃ r devs' td',
    default_suspend_ok example_no_constraint_ns
      (example_devs 5 false [1; 2; 3]%nat) 0 = Some (r, devs') ∧
    dev_td devs' 0 = Some td' ∧
    (r = true →
     effective_constraint_ns td' ≠ example_no_constraint_ns →
     let need := effective_constraint_ns td' + (1000 + 1500) in
     need <= 5 * 1000 ∧
     Forall (λ c, need <= c) [3000; 4000; example_no_constraint_ns]).
Proof.
  apply (suspend_budget_respects_constraints example_no_constraint_ns
           (example_devs 5 false [1; 2; 3]%nat) 0%nat
           (example_dev 5 false [1; 2; 3]%nat) (example_td 77 true)
           [3000; 4000; example_no_constraint_ns]).
  - reflexivity.
  - reflexivity.
  - reflexivity.
  - reflexivity.
  - split; [reflexivity|discriminate].
  - discriminate.
  - discriminate.
  - discriminate.
  - repeat constructor; eexists; (split; [reflexivity|]); reflexivity.
  - repeat constructor; discriminate.
Defined.

(** X3 on the example configuration. *)
Lemma suspend_ignores_stale_cache_witness :
  default_suspend_ok example_no_constraint_ns
    (<[0%nat := set_td (example_dev 5 false [1; 2; 3]%nat) stale_td]>
       (example_devs 5 false [1; 2; 3]%nat)) 0
  = default_suspend_ok example_no_constraint_ns
      (example_devs 5 false [1; 2; 3]%nat) 0.
Proof.
  apply (suspend_ignores_stale_cache example_no_constraint_ns
           (example_devs 5 false [1; 2; 3]%nat) 0%nat
           (example_dev 5 false [1; 2; 3]%nat) (example_td 77 true)
           stale_td); reflexivity.
Defined.

(** X5 on the example configuration. *)
Lemma suspend_reads_only_contributions_witness :
  suspend_verdict 0
    (default_suspend_ok example_no_constraint_ns dirty_child_devs 0)
  = suspend_verdict 0
      (default_suspend_ok example_no_constraint_ns
         (example_devs 5 false [1; 2; 3]%nat) 0).
Proof.
  apply (suspend_reads_only_contributions example_no_constraint_ns
           (example_devs 5 false [1; 2; 3]%nat) dirty_child_devs 0%nat
           (example_dev 5 false [1; 2; 3]%nat)).
  - reflexivity.
  - reflexivity.
  - intros k Hk _. simpl in Hk.
    apply elem_of_cons in Hk as [->|Hk]; [reflexivity|].
    apply elem_of_cons in Hk as [->|Hk]; [reflexivity|].
    apply elem_of_cons in Hk as [->|Hk]; [reflexivity|].
    by apply not_elem_of_nil in Hk.
Defined.

(** The domain of the scenarios is well formed. *)
Lemma scenario_genpd_wf budget :
  wf_genpd (scenario_devs budget) scenario_doms scenario_genpd.
Proof. example_wf. Defined.

(** No round trip of the example domain is negative. *)
Lemma example_round_trips_nonneg s st :
  states example_genpd !! s = Some st →
  0 <= s64_add (power_off_latency_ns st) (power_on_latency_ns st).
Proof. destruct s as [|[|s]]; intros [= <-]; discriminate. Defined.

(** X10 on the example configuration. *)
Lemma power_down_keeps_hierarchy_witness :
  ∃ r doms',
    default_power_down_ok example_no_constraint_ns
      (example_devs 5 false [1; 2; 3]%nat) example_doms 5 = Some (r, doms') ∧
    (∀ q, example_doms !! q = None → doms' !! q = None) ∧
    (∀ q gq, example_doms !! q = Some gq →
       ∃ gq', doms' !! q = Some gq' ∧
              same_structure gq' gq ∧
              (wf_genpd (example_devs 5 false [1; 2; 3]%nat) example_doms gq →
               wf_genpd (example_devs 5 false [1; 2; 3]%nat) doms' gq')).
Proof.
  apply (power_down_keeps_hierarchy example_no_constraint_ns
           (example_devs 5 false [1; 2; 3]%nat) example_doms 5%nat
           example_genpd).
  - exact example_genpd_wf.
  - reflexivity.
Defined.

(** X11 on the example configuration. *)
Lemma power_down_refusal_record_witness :
  ∃ r doms' g',
    default_power_down_ok example_no_constraint_ns (scenario_devs 15)
      scenario_doms 0 = Some (r, doms') ∧
    doms' !! 0%nat = Some g' ∧
    (r = false →
     state_idx g' = 0%nat ∧
     cached_power_down_state_idx g' = false ∧
     max_off_time_ns g' = -1 ∧
     cached_power_down_ok g' = false ∧
     max_off_time_changed g' = false).
Proof.
  apply (power_down_refusal_record example_no_constraint_ns
           (scenario_devs 15) scenario_doms 0%nat scenario_genpd).
  - exact (scenario_genpd_wf 15).
  - reflexivity.
  - reflexivity.
Defined.

(** X15 on the example configuration. *)
Lemma power_down_offered_budget_sign_witness :
  (finite_budgets example_no_constraint_ns
     (example_devs 5 false [1; 2; 3]%nat) example_doms example_genpd = [] ∧
   max_off_time_ns (genpd_recomputed example_genpd 0 true 140) = -1) ∨
  (finite_budgets example_no_constraint_ns
     (example_devs 5 false [1; 2; 3]%nat) example_doms example_genpd ≠ [] ∧
   10 < max_off_time_ns (genpd_recomputed example_genpd 0 true 140)).
Proof.
  apply (power_down_offered_budget_sign example_no_constraint_ns
           (example_devs 5 false [1; 2; 3]%nat) example_doms 5%nat
           example_genpd
           (<[5%nat := genpd_recomputed example_genpd 0 true 140]>
              (<[7%nat := set_max_off_time_changed
                            (example_neighbour 33 [5%nat] []) true]>
                 example_doms))
           (genpd_recomputed example_genpd 0 true 140)
           {| power_off_latency_ns := 10; power_on_latency_ns := 10 |}).
  - exact example_genpd_wf.
  - reflexivity.
  - reflexivity.
  - exact example_not_own_subdomain.
  - vm_compute. reflexivity.
  - reflexivity.
  - reflexivity.
  - discriminate.
  - discriminate.
  - discriminate.
  - repeat constructor; discriminate.
Defined.

(** X12 on the example configuration. *)
Lemma power_down_unconstrained_deepest_witness :
  ∃ doms' g',
    default_power_down_ok example_no_constraint_ns
      (scenario_devs example_no_constraint_ns) scenario_doms 0
    = Some (true, doms') ∧
    doms' !! 0%nat = Some g' ∧
    state_idx g' = 1%nat ∧
    max_off_time_ns g' = -1.
Proof.
  apply (power_down_unconstrained_deepest example_no_constraint_ns
           (scenario_devs example_no_constraint_ns) scenario_doms 0%nat
           scenario_genpd).
  - exact (scenario_genpd_wf example_no_constraint_ns).
  - reflexivity.
  - reflexivity.
  - apply not_elem_of_nil.
  - constructor.
  - repeat constructor.
Defined.

(** X13 on the example configuration. *)
Lemma power_down_blocked_by_refused_device_witness :
  ∃ doms',
    default_power_down_ok example_no_constraint_ns (scenario_devs 0)
      scenario_doms 0 = Some (false, doms').
Proof.
  apply (power_down_blocked_by_refused_device example_no_constraint_ns
           (scenario_devs 0) scenario_doms 0%nat scenario_genpd).
  - discriminate.
  - exact (scenario_genpd_wf 0).
  - reflexivity.
  - reflexivity.
  - apply elem_of_cons; left. reflexivity.
  - exact example_round_trips_nonneg.
Defined.

(** X14 on the example configuration. *)
Lemma power_down_shallower_state_accepted_witness :
  ∃ doms2,
    __default_power_down_ok example_no_constraint_ns (scenario_devs 500)
      scenario_doms 0 0 = Some (true, doms2).
Proof.
  apply (power_down_shallower_state_accepted example_no_constraint_ns
           (scenario_devs 500) scenario_doms 0%nat scenario_genpd
           1%nat 0%nat
           {| power_off_latency_ns := 100; power_on_latency_ns := 100 |}
           {| power_off_latency_ns := 10; power_on_latency_ns := 10 |}
           (<[0%nat := set_max_off_time_ns scenario_genpd 400]>
              scenario_doms)).
  - exact (scenario_genpd_wf 500).
  - reflexivity.
  - reflexivity.
  - reflexivity.
  - discriminate.
  - vm_compute. reflexivity.
Defined.

(** X9 on the example configuration. *)
Lemma power_down_ignores_stale_cache_witness :
  default_power_down_ok example_no_constraint_ns
    (example_devs 5 false [1; 2; 3]%nat)
    (<[5%nat := stale_genpd]> example_doms) 5
  = default_power_down_ok example_no_constraint_ns
      (example_devs 5 false [1; 2; 3]%nat) example_doms 5.
Proof.
  apply (power_down_ignores_stale_cache example_no_constraint_ns
           (example_devs 5 false [1; 2; 3]%nat) example_doms 5%nat
           example_genpd stale_genpd).
  - exact example_genpd_wf.
  - reflexivity.
  - reflexivity.
  - reflexivity.
  - repeat split.
Defined.

(** X17 on the example configuration. *)
Lemma power_down_reads_only_budgets_witness :
  default_power_down_ok example_no_constraint_ns dirty_child_devs
    example_doms 5
  = default_power_down_ok example_no_constraint_ns
      (example_devs 5 false [1; 2; 3]%nat) example_doms 5.
Proof.
  apply (power_down_reads_only_budgets example_no_constraint_ns
           (example_devs 5 false [1; 2; 3]%nat) dirty_child_devs
           example_doms 5%nat example_genpd).
  - exact example_genpd_wf.
  - reflexivity.
  - intros k Hk. simpl in Hk.
    apply elem_of_cons in Hk as [->|Hk]; [reflexivity|].
    apply elem_of_cons in Hk as [->|Hk]; [reflexivity|].
    by apply not_elem_of_nil in Hk.
Defined.

(** X18 on the example configuration. *)
Lemma power_down_link_order_irrelevant_witness :
  ∃ r s m doms1,
    default_power_down_ok example_no_constraint_ns
      (example_devs 5 false [1; 2; 3]%nat) example_doms 5
    = Some (r, <[5%nat := genpd_recomputed example_genpd s r m]> doms1) ∧
    default_power_down_ok example_no_constraint_ns
      (example_devs 5 false [1; 2; 3]%nat)
      (<[5%nat := set_links example_genpd [6%nat] [7%nat] [3; 2]%nat]>
         example_doms)
      5
    = Some (r, <[5%nat := genpd_recomputed
                            (set_links example_genpd [6%nat] [7%nat] [3; 2]%nat)
                            s r m]> doms1).
Proof.
  apply (power_down_link_order_irrelevant example_no_constraint_ns
           (example_devs 5 false [1; 2; 3]%nat) example_doms 5%nat
           example_genpd [6]%nat [7]%nat [3; 2]%nat).
  - exact example_genpd_wf.
  - reflexivity.
  - reflexivity.
  - reflexivity.
  - reflexivity.
  - apply perm_swap.
  - exact example_round_trips_nonneg.
Defined.

(** X16 on the example configuration. *)
Lemma power_down_parent_recomputes_witness :
  ∃ r1 doms1 r2 doms2 gp2,
    default_power_down_ok example_no_constraint_ns
      (example_devs 5 false [1; 2; 3]%nat) example_doms 5
    = Some (r1, doms1) ∧
    default_power_down_ok example_no_constraint_ns
      (example_devs 5 false [1; 2; 3]%nat) doms1 7
    = Some (r2, doms2) ∧
    doms2 !! 7%nat = Some gp2 ∧
    max_off_time_changed gp2 = false ∧
    cached_power_down_ok gp2 = r2 ∧
    (r2 = true →
     state_qualifies example_no_constraint_ns
       (example_devs 5 false [1; 2; 3]%nat) doms1
       (example_neighbour 33 [5%nat] []) (state_idx gp2) ∧
     ∀ s, (state_idx gp2 < s < 1)%nat →
          ¬ state_qualifies example_no_constraint_ns
              (example_devs 5 false [1; 2; 3]%nat) doms1
              (example_neighbour 33 [5%nat] []) s) ∧
    (r2 = false →
     ∀ s, (s < 1)%nat →
          ¬ state_qualifies example_no_constraint_ns
              (example_devs 5 false [1; 2; 3]%nat) doms1
              (example_neighbour 33 [5%nat] []) s).
Proof.
  apply (power_down_parent_recomputes example_no_constraint_ns
           (example_devs 5 false [1; 2; 3]%nat) example_doms 5%nat 7%nat
           example_genpd (example_neighbour 33 [5%nat] [])).
  - reflexivity.
  - reflexivity.
  - exact example_genpd_wf.
  - example_wf.
  - reflexivity.
  - apply elem_of_cons; left. reflexivity.
  - discriminate.
  - intros [?|?%not_elem_of_nil]%elem_of_cons; [discriminate|done].
  - intros [|s] st; intros [= <-]; s64_in_range.
Defined.

(** X19 on the example configuration. *)
Lemma perf_callchain_user_terminates_witness :
  ∃ result,
    ∀ fuel', (4 ≤ fuel')%nat →
      @perf_callchain_user (list Z) example_helpers cyclic_stack fuel'
        false [] example_regs = Some result.
Proof.
  apply (@perf_callchain_user_terminates (list Z) example_helpers
           cyclic_stack 4%nat false [] example_regs).
  - intros a ft. unfold cyclic_stack.
    destruct (a =? 2 ^ 64 - 64);
      [intros [= <-]; split; [discriminate|reflexivity]|].
    destruct (a =? 2 ^ 64 - 32);
      [intros [= <-]; split; [discriminate|reflexivity]|].
    discriminate.
  - split; [discriminate|reflexivity].
  - discriminate.
Defined.

(** X20 on the example configuration. *)
Lemma perf_callchain_user_footprint_witness :
  @perf_callchain_user (list Z) example_helpers cyclic_stack_and_more 4
    false [] example_regs
  = @perf_callchain_user (list Z) example_helpers cyclic_stack 4
      false [] example_regs.
Proof.
  apply (@perf_callchain_user_footprint (list Z) example_helpers
           cyclic_stack_and_more cyclic_stack 4%nat false [] example_regs).
  intros a _ _ Ha _. unfold cyclic_stack_and_more.
  destruct (Z.eqb_spec a 16) as [->|_]; [|reflexivity].
  exfalso. revert Ha. vm_compute. intros Ha. apply Ha. reflexivity.
Defined.

(** The domain with three states is well formed. *)
Lemma three_state_genpd_wf :
  wf_genpd (scenario_devs 5000) three_state_doms three_state_genpd.
Proof. example_wf. Defined.

(** X21 on the example configuration. *)
Lemma suspend_second_call_witness :
  ∃ r devs',
    default_suspend_ok example_no_constraint_ns
      (example_devs 5 false [1; 2; 3]%nat) 0 = Some (r, devs') ∧
    default_suspend_ok example_no_constraint_ns devs' 0 = Some (r, devs').
Proof.
  apply (suspend_second_call example_no_constraint_ns
           (example_devs 5 false [1; 2; 3]%nat) 0%nat
           (example_dev 5 false [1; 2; 3]%nat)).
  - reflexivity.
  - exact (example_dev_wf 5).
Defined.

(** X22 on the domain with three states, where the first call chooses
    state 2. *)
Lemma power_down_second_call_witness :
  ∃ r doms' g',
    default_power_down_ok example_no_constraint_ns (scenario_devs 5000)
      three_state_doms 0 = Some (r, doms') ∧
    doms' !! 0%nat = Some g' ∧
    default_power_down_ok example_no_constraint_ns (scenario_devs 5000)
      doms' 0
    = Some (r, <[0%nat := set_state_idx g' (state_idx g' `min` 1)%nat]>
                 doms') ∧
    ((state_idx g' ≤ 1)%nat ↔
     default_power_down_ok example_no_constraint_ns (scenario_devs 5000)
       doms' 0 = Some (r, doms')).
Proof.
  apply (power_down_second_call example_no_constraint_ns
           (scenario_devs 5000) three_state_doms 0%nat three_state_genpd).
  - reflexivity.
  - exact three_state_genpd_wf.
Defined.
